(** * Boundary adapters of the live market-data client

    A shallow embedding of the two adapter units

    - [bindings/c/src/databento_c.cpp] (with [c_api.h]): the C ABI;
    - [wrappers/cpp_cli/DatabentoWrapper/DatabentoWrapper.cpp]: the managed
      wrapper;

    and the properties of their error channel, trampolines, symbol
    validation, session life cycle and record dispatch.

    Conventions.  A C++ expression that may throw evaluates to a [result];
    a nullable pointer or managed reference is an [option]; a fixed-width
    unsigned integer is a [Z] reduced by [wrap]; a member function that
    mutates its object returns the outcome together with the object. *)

From stdpp Require Import gmap strings list.
From Stdlib Require Import ZArith Lia.

Local Open Scope string_scope.
Local Open Scope list_scope.
Local Open Scope Z_scope.

(** ** Native exceptions and fallible evaluation *)

(** What a [catch (const std::exception&)] / [catch (...)] pair can tell
    apart: an exception carrying [what()], or anything else. *)
Inductive exn :=
| StdException (what : string)
| UnknownException.

Inductive result (A : Type) :=
| Returns (a : A)
| Throws (e : exn).
Arguments Returns {A} a.
Arguments Throws {A} e.

#[global] Instance result_ret : MRet result := fun A a => Returns a.
#[global] Instance result_bind : MBind result := fun A B f r =>
  match r with
  | Returns a => f a
  | Throws e => Throws e
  end.

(** A non-const member function: outcome and the object afterwards. *)
Definition method (T R : Type) : Type := T → result R * T.

(** [x mod 2^w]: the value kept by a [w]-bit unsigned integer. *)
Definition wrap (w x : Z) : Z := x mod 2 ^ w.

(** ** The engine's vocabulary ([namespace databento]) *)

Module databento.

Module KeepGoing.
Inductive t := Continue | Stop.
End KeepGoing.

Module ExceptionAction.
Inductive t := Restart | Stop.
End ExceptionAction.

Module VersionUpgradePolicy.
Inductive t := AsIs | UpgradeToV2 | UpgradeToV3.
End VersionUpgradePolicy.

(** [RecordHeader]: [length] and [rtype] are 8-bit, [publisher_id]
    16-bit, [instrument_id] 32-bit; [ts_event] is the count of
    nanoseconds of [ts_event.time_since_epoch()], 64-bit. *)
Record RecordHeader := {
  length : Z;
  rtype : Z;
  publisher_id : Z;
  instrument_id : Z;
  ts_event : Z;
}.

(** The payload a record decodes to, as [Record::GetIf<T>] sees it. *)
Inductive Msg :=
| SymbolMappingMsg (stype_out_symbol : string)
| TradeMsg
| SystemMsg (is_heartbeat : bool)
| ErrorMsg
| OtherMsg.

(** A record view: [Header()], the address the header lives at, what
    [Size()] returns (a [size_t]) and the decoded payload. *)
Record Record := {
  Header : RecordHeader;
  address : Z;
  Size : Z;
  msg : Msg;
}.

(** [sizeof(databento::RecordHeader)]. *)
Definition sizeof_RecordHeader : Z := 16.

(** Modelled from the spec: [databento::PitSymbolMap], whose source is
    not part of the adapter units.  "Keyed by instrument identifier,
    value is the last-known raw symbol string; updated only by mapping
    records, queried only when emitting trade-like events."
    [OnSymbolMapping] files the mapping's symbol under its header's
    instrument id; [At] answers the symbol filed under an id and
    throws when there is none. *)
Module PitSymbolMap.
Definition OnSymbolMapping (instrument_id : Z) (stype_out_symbol : string)
    (map : gmap Z string) : gmap Z string :=
  <[instrument_id := stype_out_symbol]> map.

Definition At (map : gmap Z string) (instrument_id : Z)
  : result string :=
  match map !! instrument_id with
  | Some symbol => Returns symbol
  | None => Throws (StdException "no mapping for instrument")
  end.
End PitSymbolMap.

End databento.

Import databento.

(** The streaming engine, consumed through its public member functions
    only: those of [LiveBuilder] and [LiveThreaded], and the serialisers
    of [namespace databento].  [LiveThreaded_Start] stands for the three
    overloads of [LiveThreaded::Start]; it receives the callbacks it is
    given as one bundle.  [HexOfRType] is what [oss << std::hex <<
    record.RType()] writes. *)
Class Engine := {
  LiveBuilder : Type;
  LiveThreaded : Type;
  Metadata : Type;
  Builder : LiveBuilder;
  SetKey : string → method LiveBuilder ();
  SetKeyFromEnv : method LiveBuilder ();
  SetDataset : string → method LiveBuilder ();
  SetDatasetEnum : Z → method LiveBuilder ();
  SetSendTsOut : bool → method LiveBuilder ();
  SetUpgradePolicy : VersionUpgradePolicy.t → method LiveBuilder ();
  SetHeartbeatInterval : Z → method LiveBuilder ();
  SetAddress : string → Z → method LiveBuilder ();
  SetBufferSize : Z → method LiveBuilder ();
  BuildThreaded : method LiveBuilder LiveThreaded;
  Subscribe : list string → Z → Z → method LiveThreaded ();
  SubscribeFromUnix : list string → Z → Z → Z → method LiveThreaded ();
  SubscribeFromStr : list string → Z → Z → string → method LiveThreaded ();
  SubscribeWithSnapshot : list string → Z → Z → method LiveThreaded ();
  LiveThreaded_Start : ∀ {CB : Type}, CB → method LiveThreaded ();
  Reconnect : method LiveThreaded ();
  Resubscribe : method LiveThreaded ();
  BlockForStop : method LiveThreaded ();
  BlockForStopFor : Z → method LiveThreaded KeepGoing.t;
  MetadataToString : Metadata → string;
  ToString : Record → result string;
  HexOfRType : Z → string;
}.

(** ** The C ABI: [databento_c.cpp] *)

Module CApi.
Section WithEngine.
Context `{Engine}.

(** *** Error channel *)

(** [g_last_error] of the calling thread is threaded through every
    function as its last argument and last component of the result. *)
Definition SetError (message : option string) (g_last_error : string)
  : Z * string :=
  (-1, match message with Some m => m | None => "unknown error" end).

Definition ClearError (g_last_error : string) : string := "".

Definition db_c_last_error (g_last_error : string) : option string :=
  if decide (g_last_error = "") then None else Some g_last_error.

(** *** Helpers *)

Fixpoint CopyStrings_loop (strings : option (list (option string)))
    (i : nat) (count : nat) (acc : list string) : result (list string) :=
  match count with
  | O => Returns acc
  | S count' =>
      let value := match strings with
                   | Some l => default None (l !! i)
                   | None => None
                   end in
      match value with
      | None => Throws (StdException "symbol list contains a null entry")
      | Some v => CopyStrings_loop strings (S i) count' (acc ++ [v])
      end
  end.

(** [strings] is the array (null, or its entries, each null or a C
    string); reading it is only defined below its length. *)
Definition CopyStrings (strings : option (list (option string)))
    (count : nat) : result (list string) :=
  CopyStrings_loop strings 0 count [].

Record db_c_record_header_t := {
  length_words : Z;
  rtype : Z;
  publisher_id : Z;
  instrument_id : Z;
  ts_event : Z;
}.

Definition ToCHeader (header : RecordHeader) : db_c_record_header_t :=
  {| length_words := wrap 8 (databento.length header);
     rtype := wrap 8 (databento.rtype header);
     publisher_id := wrap 16 (databento.publisher_id header);
     instrument_id := wrap 32 (databento.instrument_id header);
     ts_event := wrap 64 (databento.ts_event header) |}.

Definition ToSchema (schema : Z) : Z := schema.
Definition ToSType (stype : Z) : Z := stype.
Definition ToDataset (dataset : Z) : Z := dataset.

Definition DB_C_UPGRADE_AS_IS : Z := 0.
Definition DB_C_UPGRADE_TO_V2 : Z := 1.
Definition DB_C_UPGRADE_TO_V3 : Z := 2.
Definition DB_C_KEEP_GOING_CONTINUE : Z := 0.
Definition DB_C_KEEP_GOING_STOP : Z := 1.
Definition DB_C_EXCEPTION_ACTION_RESTART : Z := 0.
Definition DB_C_EXCEPTION_ACTION_STOP : Z := 1.

Definition ToUpgradePolicy (policy : Z) : VersionUpgradePolicy.t :=
  if decide (policy = DB_C_UPGRADE_AS_IS) then VersionUpgradePolicy.AsIs
  else if decide (policy = DB_C_UPGRADE_TO_V2)
       then VersionUpgradePolicy.UpgradeToV2
  else VersionUpgradePolicy.UpgradeToV3.

Definition ToKeepGoing (keep_going : Z) : KeepGoing.t :=
  if decide (keep_going = DB_C_KEEP_GOING_STOP) then KeepGoing.Stop
  else KeepGoing.Continue.

Definition FromKeepGoing (keep_going : KeepGoing.t) : Z :=
  match keep_going with
  | KeepGoing.Stop => DB_C_KEEP_GOING_STOP
  | KeepGoing.Continue => DB_C_KEEP_GOING_CONTINUE
  end.

(** *** Trampolines *)

(** Foreign function pointers.  [user_data], [body] are addresses. *)
Definition db_c_record_callback_t : Type :=
  Z → db_c_record_header_t → Z → Z → result Z.
Definition db_c_metadata_callback_t : Type := Z → string → result ().
Definition db_c_exception_callback_t : Type := Z → string → result Z.

Definition RecordCallbackFn : Type := Record → result KeepGoing.t.
Definition MetadataCallbackFn : Type := Metadata → result ().
(** The engine hands a [const std::exception&]: its [what()]. *)
Definition ExceptionCallbackFn : Type := string → result ExceptionAction.t.

Definition MakeRecordCallback (callback : db_c_record_callback_t)
    (user_data : Z) : RecordCallbackFn :=
  λ record,
    let header := ToCHeader (Header record) in
    let total_size := Size record in
    let header_size := sizeof_RecordHeader in
    let header_bytes := address record in
    let body := header_bytes + header_size in
    let body_size :=
      if decide (total_size > header_size)
      then wrap 64 (total_size - header_size) else 0 in
    keep_going ← callback user_data header body body_size;
    mret (ToKeepGoing keep_going).

Definition MakeMetadataCallback
    (callback : option db_c_metadata_callback_t) (user_data : Z)
  : MetadataCallbackFn :=
  λ metadata,
    match callback with
    | None => mret ()
    | Some callback =>
        let metadata_text := MetadataToString metadata in
        callback user_data metadata_text
    end.

Definition MakeExceptionCallback
    (callback : option db_c_exception_callback_t) (user_data : Z)
  : ExceptionCallbackFn :=
  λ exc_what,
    match callback with
    | None => mret ExceptionAction.Stop
    | Some callback =>
        action ← callback user_data exc_what;
        mret (if decide (action = DB_C_EXCEPTION_ACTION_RESTART)
              then ExceptionAction.Restart else ExceptionAction.Stop)
    end.

(** *** Handles *)

Record db_c_live_builder := { builder : LiveBuilder }.
Record db_c_live_threaded := { client : option LiveThreaded }.

(** The shape shared by the bodies of the status-returning functions:
    [try { ClearError(); ...; return 0; }
     catch (const std::exception& ex) { return SetError(ex.what()); }
     catch (...) { return SetError(unexpected); }]
    where [outcome] is how the statements after [ClearError()] ended. *)
Definition try_status (unexpected : string) (outcome : result ())
    (g_last_error : string) : Z * string :=
  let g_last_error := ClearError g_last_error in
  match outcome with
  | Returns _ => (0, g_last_error)
  | Throws (StdException what) => SetError (Some what) g_last_error
  | Throws UnknownException => SetError (Some unexpected) g_last_error
  end.

Definition native_builder (w : db_c_live_builder) : LiveBuilder :=
  builder w.

(** [client->client] when both pointers are non-null. *)
Definition deref (client : option db_c_live_threaded)
  : option LiveThreaded :=
  match client with
  | Some {| client := native |} => native
  | None => None
  end.

(** *** Builder functions

    Every function returns its C return value, the calling thread's
    [g_last_error] afterwards, and the object behind the handle. *)

(** [alloc]: how [new db_c_live_builder{}] ends. *)
Definition db_c_live_builder_new (alloc : result ())
    (g_last_error : string) : option db_c_live_builder * string :=
  let g_last_error := ClearError g_last_error in
  match alloc with
  | Returns _ => (Some {| builder := Builder |}, g_last_error)
  | Throws (StdException what) => (None, what)
  | Throws UnknownException => (None, "failed to allocate live builder")
  end.

Definition db_c_live_builder_free (builder : option db_c_live_builder)
    (g_last_error : string) : string := g_last_error.

(** A setter on a non-null builder: run the engine's member function
    inside the [try] block. *)
Definition set_on (unexpected : string) (m : method LiveBuilder ())
    (b : db_c_live_builder) (g_last_error : string)
  : Z * string * option db_c_live_builder :=
  let '(outcome, b') := m (builder b) in
  (try_status unexpected outcome g_last_error, Some {| builder := b' |}).

Definition db_c_live_builder_set_key (builder : option db_c_live_builder)
    (api_key : option string) (g_last_error : string)
  : Z * string * option db_c_live_builder :=
  match builder, api_key with
  | None, _ => (SetError (Some "builder pointer is null") g_last_error, None)
  | Some b, None =>
      (SetError (Some "api_key pointer is null") g_last_error, Some b)
  | Some b, Some api_key =>
      set_on "unexpected error in db_c_live_builder_set_key"
        (SetKey api_key) b g_last_error
  end.

Definition db_c_live_builder_set_key_from_env
    (builder : option db_c_live_builder) (g_last_error : string)
  : Z * string * option db_c_live_builder :=
  match builder with
  | None => (SetError (Some "builder pointer is null") g_last_error, None)
  | Some b =>
      set_on "unexpected error in db_c_live_builder_set_key_from_env"
        SetKeyFromEnv b g_last_error
  end.

Definition db_c_live_builder_set_dataset
    (builder : option db_c_live_builder) (dataset_code : option string)
    (g_last_error : string) : Z * string * option db_c_live_builder :=
  match builder, dataset_code with
  | None, _ => (SetError (Some "builder pointer is null") g_last_error, None)
  | Some b, None =>
      (SetError (Some "dataset_code pointer is null") g_last_error, Some b)
  | Some b, Some dataset_code =>
      set_on "unexpected error in db_c_live_builder_set_dataset"
        (SetDataset dataset_code) b g_last_error
  end.

Definition db_c_live_builder_set_dataset_enum
    (builder : option db_c_live_builder) (dataset : Z)
    (g_last_error : string) : Z * string * option db_c_live_builder :=
  match builder with
  | None => (SetError (Some "builder pointer is null") g_last_error, None)
  | Some b =>
      set_on "unexpected error in db_c_live_builder_set_dataset_enum"
        (SetDatasetEnum (ToDataset dataset)) b g_last_error
  end.

Definition db_c_live_builder_set_send_ts_out
    (builder : option db_c_live_builder) (send_ts_out : Z)
    (g_last_error : string) : Z * string * option db_c_live_builder :=
  match builder with
  | None => (SetError (Some "builder pointer is null") g_last_error, None)
  | Some b =>
      set_on "unexpected error in db_c_live_builder_set_send_ts_out"
        (SetSendTsOut (bool_decide (send_ts_out ≠ 0))) b g_last_error
  end.

Definition db_c_live_builder_set_upgrade_policy
    (builder : option db_c_live_builder) (policy : Z)
    (g_last_error : string) : Z * string * option db_c_live_builder :=
  match builder with
  | None => (SetError (Some "builder pointer is null") g_last_error, None)
  | Some b =>
      set_on "unexpected error in db_c_live_builder_set_upgrade_policy"
        (SetUpgradePolicy (ToUpgradePolicy policy)) b g_last_error
  end.

Definition db_c_live_builder_set_heartbeat_interval
    (builder : option db_c_live_builder) (seconds : Z)
    (g_last_error : string) : Z * string * option db_c_live_builder :=
  match builder with
  | None => (SetError (Some "builder pointer is null") g_last_error, None)
  | Some b =>
      set_on "unexpected error in db_c_live_builder_set_heartbeat_interval"
        (SetHeartbeatInterval seconds) b g_last_error
  end.

Definition db_c_live_builder_set_address
    (builder : option db_c_live_builder) (gateway : option string)
    (port : Z) (g_last_error : string)
  : Z * string * option db_c_live_builder :=
  match builder, gateway with
  | None, _ => (SetError (Some "builder pointer is null") g_last_error, None)
  | Some b, None =>
      (SetError (Some "gateway pointer is null") g_last_error, Some b)
  | Some b, Some gateway =>
      set_on "unexpected error in db_c_live_builder_set_address"
        (SetAddress gateway port) b g_last_error
  end.

Definition db_c_live_builder_set_buffer_size
    (builder : option db_c_live_builder) (size : Z)
    (g_last_error : string) : Z * string * option db_c_live_builder :=
  match builder with
  | None => (SetError (Some "builder pointer is null") g_last_error, None)
  | Some b =>
      set_on "unexpected error in db_c_live_builder_set_buffer_size"
        (SetBufferSize size) b g_last_error
  end.

(** Returns the new session handle (null on failure), the error slot
    and the builder object as the call leaves it. *)
Definition db_c_live_builder_build_threaded
    (builder : option db_c_live_builder) (g_last_error : string)
  : option db_c_live_threaded * string * option db_c_live_builder :=
  match builder with
  | None =>
      (None, (SetError (Some "builder pointer is null") g_last_error).2,
       None)
  | Some b =>
      let g_last_error := ClearError g_last_error in
      let '(outcome, b') := BuildThreaded (native_builder b) in
      let builder' := Some {| builder := b' |} in
      match outcome with
      | Returns native_client =>
          (Some {| client := Some native_client |}, g_last_error, builder')
      | Throws (StdException what) =>
          (None, (SetError (Some what) g_last_error).2, builder')
      | Throws UnknownException =>
          (None,
           (SetError
              (Some "unexpected error in db_c_live_builder_build_threaded")
              g_last_error).2, builder')
      end
  end.

(** *** Session functions *)

Definition db_c_live_threaded_free (client : option db_c_live_threaded)
    (g_last_error : string) : string := g_last_error.

(** A member function of the native client run inside the [try]
    block; [prepare] is what is evaluated before it in the same block
    (the copy of the symbol array), and a throw there skips the call. *)
Definition call_on {A} (unexpected : string) (prepare : result A)
    (m : A → method LiveThreaded ()) (c : LiveThreaded)
    (g_last_error : string) : Z * string * option db_c_live_threaded :=
  let '(outcome, c') :=
    match prepare with
    | Returns a => m a c
    | Throws e => (Throws e, c)
    end in
  (try_status unexpected outcome g_last_error,
   Some {| client := Some c' |}).

Definition null_client (client : option db_c_live_threaded)
    (g_last_error : string) : Z * string * option db_c_live_threaded :=
  (SetError (Some "client pointer is null") g_last_error, client).

Definition db_c_live_threaded_subscribe
    (client : option db_c_live_threaded)
    (symbols : option (list (option string))) (symbol_count : nat)
    (schema stype_in : Z) (g_last_error : string)
  : Z * string * option db_c_live_threaded :=
  match deref client with
  | None => null_client client g_last_error
  | Some c =>
      call_on "unexpected error in db_c_live_threaded_subscribe"
        (CopyStrings symbols symbol_count)
        (λ symbol_vec,
           Subscribe symbol_vec (ToSchema schema) (ToSType stype_in))
        c g_last_error
  end.

Definition db_c_live_threaded_subscribe_from_unix
    (client : option db_c_live_threaded)
    (symbols : option (list (option string))) (symbol_count : nat)
    (schema stype_in start_unix_nanos : Z) (g_last_error : string)
  : Z * string * option db_c_live_threaded :=
  match deref client with
  | None => null_client client g_last_error
  | Some c =>
      call_on "unexpected error in db_c_live_threaded_subscribe_from_unix"
        (CopyStrings symbols symbol_count)
        (λ symbol_vec,
           SubscribeFromUnix symbol_vec (ToSchema schema)
             (ToSType stype_in) start_unix_nanos)
        c g_last_error
  end.

Definition db_c_live_threaded_subscribe_from_str
    (client : option db_c_live_threaded)
    (symbols : option (list (option string))) (symbol_count : nat)
    (schema stype_in : Z) (start : option string) (g_last_error : string)
  : Z * string * option db_c_live_threaded :=
  match deref client, start with
  | None, _ => null_client client g_last_error
  | Some c, None =>
      (SetError (Some "start pointer is null") g_last_error, client)
  | Some c, Some start =>
      call_on "unexpected error in db_c_live_threaded_subscribe_from_str"
        (CopyStrings symbols symbol_count)
        (λ symbol_vec,
           SubscribeFromStr symbol_vec (ToSchema schema)
             (ToSType stype_in) start)
        c g_last_error
  end.

Definition db_c_live_threaded_subscribe_with_snapshot
    (client : option db_c_live_threaded)
    (symbols : option (list (option string))) (symbol_count : nat)
    (schema stype_in : Z) (g_last_error : string)
  : Z * string * option db_c_live_threaded :=
  match deref client with
  | None => null_client client g_last_error
  | Some c =>
      call_on
        "unexpected error in db_c_live_threaded_subscribe_with_snapshot"
        (CopyStrings symbols symbol_count)
        (λ symbol_vec,
           SubscribeWithSnapshot symbol_vec (ToSchema schema)
             (ToSType stype_in))
        c g_last_error
  end.

Definition db_c_live_threaded_start (client : option db_c_live_threaded)
    (record_callback : option db_c_record_callback_t)
    (record_user_data : Z) (g_last_error : string)
  : Z * string * option db_c_live_threaded :=
  match deref client, record_callback with
  | None, _ => null_client client g_last_error
  | Some c, None =>
      (SetError (Some "record_callback pointer is null") g_last_error,
       client)
  | Some c, Some record_callback =>
      call_on "unexpected error in db_c_live_threaded_start"
        (Returns (MakeRecordCallback record_callback record_user_data))
        (λ cb, LiveThreaded_Start cb) c g_last_error
  end.

Definition db_c_live_threaded_start_with_metadata
    (client : option db_c_live_threaded)
    (metadata_callback : option db_c_metadata_callback_t)
    (metadata_user_data : Z)
    (record_callback : option db_c_record_callback_t)
    (record_user_data : Z) (g_last_error : string)
  : Z * string * option db_c_live_threaded :=
  match deref client, record_callback with
  | None, _ => null_client client g_last_error
  | Some c, None =>
      (SetError (Some "record_callback pointer is null") g_last_error,
       client)
  | Some c, Some record_callback =>
      call_on "unexpected error in db_c_live_threaded_start_with_metadata"
        (Returns
           (MakeMetadataCallback metadata_callback metadata_user_data,
            MakeRecordCallback record_callback record_user_data))
        (λ cbs, LiveThreaded_Start cbs) c g_last_error
  end.

Definition db_c_live_threaded_start_with_exceptions
    (client : option db_c_live_threaded)
    (metadata_callback : option db_c_metadata_callback_t)
    (metadata_user_data : Z)
    (record_callback : option db_c_record_callback_t)
    (record_user_data : Z)
    (exception_callback : option db_c_exception_callback_t)
    (exception_user_data : Z) (g_last_error : string)
  : Z * string * option db_c_live_threaded :=
  match deref client, record_callback with
  | None, _ => null_client client g_last_error
  | Some c, None =>
      (SetError (Some "record_callback pointer is null") g_last_error,
       client)
  | Some c, Some record_callback =>
      call_on
        "unexpected error in db_c_live_threaded_start_with_exceptions"
        (Returns
           (MakeMetadataCallback metadata_callback metadata_user_data,
            MakeRecordCallback record_callback record_user_data,
            MakeExceptionCallback exception_callback exception_user_data))
        (λ cbs, LiveThreaded_Start cbs) c g_last_error
  end.

Definition db_c_live_threaded_reconnect
    (client : option db_c_live_threaded) (g_last_error : string)
  : Z * string * option db_c_live_threaded :=
  match deref client with
  | None => null_client client g_last_error
  | Some c =>
      call_on "unexpected error in db_c_live_threaded_reconnect"
        (Returns ()) (λ _, Reconnect) c g_last_error
  end.

Definition db_c_live_threaded_resubscribe
    (client : option db_c_live_threaded) (g_last_error : string)
  : Z * string * option db_c_live_threaded :=
  match deref client with
  | None => null_client client g_last_error
  | Some c =>
      call_on "unexpected error in db_c_live_threaded_resubscribe"
        (Returns ()) (λ _, Resubscribe) c g_last_error
  end.

Definition db_c_live_threaded_block_for_stop
    (client : option db_c_live_threaded) (g_last_error : string)
  : Z * string * option db_c_live_threaded :=
  match deref client with
  | None => null_client client g_last_error
  | Some c =>
      call_on "unexpected error in db_c_live_threaded_block_for_stop"
        (Returns ()) (λ _, BlockForStop) c g_last_error
  end.

(** [std::chrono::milliseconds{timeout_millis}]: the count of a
    [std::chrono::milliseconds] is a signed 64-bit integer, to which the
    [uint64_t] argument is converted. *)
Definition milliseconds (timeout_millis : Z) : Z :=
  let count := wrap 64 timeout_millis in
  if decide (count < 2 ^ 63) then count else count - 2 ^ 64.

(** [result] is the caller's out-parameter: null, or the cell's
    content; the last component is the cell after the call. *)
Definition db_c_live_threaded_block_for_stop_with_timeout
    (client : option db_c_live_threaded) (timeout_millis : Z)
    (result : option Z) (g_last_error : string)
  : Z * string * option db_c_live_threaded * option Z :=
  match deref client, result with
  | None, _ => (null_client client g_last_error, result)
  | Some c, None =>
      (SetError (Some "result pointer is null") g_last_error, client, None)
  | Some c, Some old =>
      let '(outcome, c') := BlockForStopFor (milliseconds timeout_millis) c in
      let status :=
        try_status
          "unexpected error in db_c_live_threaded_block_for_stop_with_timeout"
          (_ ← outcome; mret ()) g_last_error in
      (status, Some {| client := Some c' |},
       match outcome with
       | Returns keep_going => Some (FromKeepGoing keep_going)
       | Throws _ => Some old
       end)
  end.

(** *** Calls and threads *)

(** One call of a function of [c_api.h], with its arguments. *)
Inductive api_call :=
| builder_new (alloc : result ())
| builder_free (builder : option db_c_live_builder)
| builder_set_key (builder : option db_c_live_builder)
    (api_key : option string)
| builder_set_key_from_env (builder : option db_c_live_builder)
| builder_set_dataset (builder : option db_c_live_builder)
    (dataset_code : option string)
| builder_set_dataset_enum (builder : option db_c_live_builder)
    (dataset : Z)
| builder_set_send_ts_out (builder : option db_c_live_builder)
    (send_ts_out : Z)
| builder_set_upgrade_policy (builder : option db_c_live_builder)
    (policy : Z)
| builder_set_heartbeat_interval (builder : option db_c_live_builder)
    (seconds : Z)
| builder_set_address (builder : option db_c_live_builder)
    (gateway : option string) (port : Z)
| builder_set_buffer_size (builder : option db_c_live_builder) (size : Z)
| builder_build_threaded (builder : option db_c_live_builder)
| threaded_free (client : option db_c_live_threaded)
| threaded_subscribe (client : option db_c_live_threaded)
    (symbols : option (list (option string))) (symbol_count : nat)
    (schema stype_in : Z)
| threaded_subscribe_from_unix (client : option db_c_live_threaded)
    (symbols : option (list (option string))) (symbol_count : nat)
    (schema stype_in start_unix_nanos : Z)
| threaded_subscribe_from_str (client : option db_c_live_threaded)
    (symbols : option (list (option string))) (symbol_count : nat)
    (schema stype_in : Z) (start : option string)
| threaded_subscribe_with_snapshot (client : option db_c_live_threaded)
    (symbols : option (list (option string))) (symbol_count : nat)
    (schema stype_in : Z)
| threaded_start (client : option db_c_live_threaded)
    (record_callback : option db_c_record_callback_t)
    (record_user_data : Z)
| threaded_start_with_metadata (client : option db_c_live_threaded)
    (metadata_callback : option db_c_metadata_callback_t)
    (metadata_user_data : Z)
    (record_callback : option db_c_record_callback_t)
    (record_user_data : Z)
| threaded_start_with_exceptions (client : option db_c_live_threaded)
    (metadata_callback : option db_c_metadata_callback_t)
    (metadata_user_data : Z)
    (record_callback : option db_c_record_callback_t)
    (record_user_data : Z)
    (exception_callback : option db_c_exception_callback_t)
    (exception_user_data : Z)
| threaded_reconnect (client : option db_c_live_threaded)
| threaded_resubscribe (client : option db_c_live_threaded)
| threaded_block_for_stop (client : option db_c_live_threaded)
| threaded_block_for_stop_with_timeout
    (client : option db_c_live_threaded) (timeout_millis : Z)
    (result : option Z).

(** What the caller gets back: an [int] status, a handle (null or
    not), or nothing for the [void] functions. *)
Inductive api_return :=
| status (code : Z)
| handle (non_null : bool)
| nothing.

Definition succeeded (r : api_return) : Prop :=
  match r with
  | status code => code = 0
  | handle non_null => non_null = true
  | nothing => False
  end.

Definition failed (r : api_return) : Prop :=
  match r with
  | status code => code < 0
  | handle non_null => non_null = false
  | nothing => False
  end.

(** The return value and the calling thread's error slot after the
    call. *)
Definition run_call (c : api_call) (g_last_error : string)
  : api_return * string :=
  match c with
  | builder_new alloc =>
      let '(h, g) := db_c_live_builder_new alloc g_last_error in
      (handle (bool_decide (is_Some h)), g)
  | builder_free b => (nothing, db_c_live_builder_free b g_last_error)
  | builder_set_key b k =>
      let '(z, g, _) := db_c_live_builder_set_key b k g_last_error in
      (status z, g)
  | builder_set_key_from_env b =>
      let '(z, g, _) := db_c_live_builder_set_key_from_env b g_last_error in
      (status z, g)
  | builder_set_dataset b d =>
      let '(z, g, _) := db_c_live_builder_set_dataset b d g_last_error in
      (status z, g)
  | builder_set_dataset_enum b d =>
      let '(z, g, _) :=
        db_c_live_builder_set_dataset_enum b d g_last_error in
      (status z, g)
  | builder_set_send_ts_out b f =>
      let '(z, g, _) :=
        db_c_live_builder_set_send_ts_out b f g_last_error in
      (status z, g)
  | builder_set_upgrade_policy b p =>
      let '(z, g, _) :=
        db_c_live_builder_set_upgrade_policy b p g_last_error in
      (status z, g)
  | builder_set_heartbeat_interval b n =>
      let '(z, g, _) :=
        db_c_live_builder_set_heartbeat_interval b n g_last_error in
      (status z, g)
  | builder_set_address b a p =>
      let '(z, g, _) := db_c_live_builder_set_address b a p g_last_error in
      (status z, g)
  | builder_set_buffer_size b n =>
      let '(z, g, _) :=
        db_c_live_builder_set_buffer_size b n g_last_error in
      (status z, g)
  | builder_build_threaded b =>
      let '(h, g, _) := db_c_live_builder_build_threaded b g_last_error in
      (handle (bool_decide (is_Some h)), g)
  | threaded_free c => (nothing, db_c_live_threaded_free c g_last_error)
  | threaded_subscribe c l n sc st =>
      let '(z, g, _) :=
        db_c_live_threaded_subscribe c l n sc st g_last_error in
      (status z, g)
  | threaded_subscribe_from_unix c l n sc st t =>
      let '(z, g, _) :=
        db_c_live_threaded_subscribe_from_unix c l n sc st t g_last_error in
      (status z, g)
  | threaded_subscribe_from_str c l n sc st t =>
      let '(z, g, _) :=
        db_c_live_threaded_subscribe_from_str c l n sc st t g_last_error in
      (status z, g)
  | threaded_subscribe_with_snapshot c l n sc st =>
      let '(z, g, _) :=
        db_c_live_threaded_subscribe_with_snapshot c l n sc st
          g_last_error in
      (status z, g)
  | threaded_start c rc ru =>
      let '(z, g, _) := db_c_live_threaded_start c rc ru g_last_error in
      (status z, g)
  | threaded_start_with_metadata c mc mu rc ru =>
      let '(z, g, _) :=
        db_c_live_threaded_start_with_metadata c mc mu rc ru
          g_last_error in
      (status z, g)
  | threaded_start_with_exceptions c mc mu rc ru ec eu =>
      let '(z, g, _) :=
        db_c_live_threaded_start_with_exceptions c mc mu rc ru ec eu
          g_last_error in
      (status z, g)
  | threaded_reconnect c =>
      let '(z, g, _) := db_c_live_threaded_reconnect c g_last_error in
      (status z, g)
  | threaded_resubscribe c =>
      let '(z, g, _) := db_c_live_threaded_resubscribe c g_last_error in
      (status z, g)
  | threaded_block_for_stop c =>
      let '(z, g, _) := db_c_live_threaded_block_for_stop c g_last_error in
      (status z, g)
  | threaded_block_for_stop_with_timeout c t r =>
      let '(z, g, _, _) :=
        db_c_live_threaded_block_for_stop_with_timeout c t r
          g_last_error in
      (status z, g)
  end.

(** [thread_local std::string g_last_error]: one slot per thread, empty
    until the thread first writes it. *)
Definition slot_of (t : nat) (slots : gmap nat string) : string :=
  default "" (slots !! t).

Definition call_on_thread (t : nat) (c : api_call)
    (slots : gmap nat string) : api_return * gmap nat string :=
  let '(r, g) := run_call c (slot_of t slots) in
  (r, <[t := g]> slots).

Definition last_error_on_thread (t : nat) (slots : gmap nat string)
  : option string :=
  db_c_last_error (slot_of t slots).

End WithEngine.
End CApi.

(** ** The managed wrapper: [DatabentoWrapper.cpp] *)

Module Wrapper.

(** Managed exceptions thrown to the host. *)
Inductive ManagedException :=
| ArgumentException (message paramName : string)
| ArgumentNullException (paramName : string)
| InvalidOperationException (message : string)
| ObjectDisposedException (objectName : string).

Inductive managed (A : Type) :=
| Ok (a : A)
| Raise (e : ManagedException).
Arguments Ok {A} a.
Arguments Raise {A} e.

(** The arguments of one [RecordCallback] invocation. *)
Record Event := {
  kind : string;
  instrumentId : Z;
  symbol : string;
  text : string;
}.

(** A managed delegate: it returns, or throws into its caller. *)
Definition RecordCallback : Type := Event → managed ().

Definition SymbolType_InstrumentId : Z := 0.
Definition SymbolType_RawSymbol : Z := 1.
Definition SymbolType_Parent : Z := 4.
Definition SType_InstrumentId : Z := 0.
Definition SType_RawSymbol : Z := 1.
Definition SType_Parent : Z := 4.
Definition Schema_Trades : Z := 4.

Definition ToManagedString (value : string) : string :=
  if decide (value = "") then "" else value.

Definition ToNativeSymbolType (type : Z) : Z :=
  if decide (type = SymbolType_InstrumentId) then SType_InstrumentId
  else if decide (type = SymbolType_Parent) then SType_Parent
  else SType_RawSymbol.

(** [Char.IsWhiteSpace] on the Latin-1 range. *)
Definition IsWhiteSpace (c : Ascii.ascii) : bool :=
  let n := Z.of_nat (Ascii.nat_of_ascii c) in
  bool_decide (9 ≤ n ≤ 13 ∨ n = 32 ∨ n = 133 ∨ n = 160).

Fixpoint all_white (s : string) : bool :=
  match s with
  | EmptyString => true
  | String c s' => IsWhiteSpace c && all_white s'
  end.

Definition IsNullOrWhiteSpace (value : option string) : bool :=
  match value with
  | None => true
  | Some s => all_white s
  end.

Section WithEngine.
Context `{Engine}.

Record NativeState := {
  api_key : string;
  dataset : string;
  client : option LiveThreaded;
  symbol_map : gmap Z string;
  callback : option RecordCallback;
  running : bool;
  stop_requested : bool;
}.

Definition set_client (v : option LiveThreaded) (s : NativeState) :=
  {| api_key := api_key s; dataset := dataset s; client := v;
     symbol_map := symbol_map s; callback := callback s;
     running := running s; stop_requested := stop_requested s |}.
Definition set_symbol_map (v : gmap Z string) (s : NativeState) :=
  {| api_key := api_key s; dataset := dataset s; client := client s;
     symbol_map := v; callback := callback s;
     running := running s; stop_requested := stop_requested s |}.
Definition set_callback (v : option RecordCallback) (s : NativeState) :=
  {| api_key := api_key s; dataset := dataset s; client := client s;
     symbol_map := symbol_map s; callback := v;
     running := running s; stop_requested := stop_requested s |}.
Definition set_running (v : bool) (s : NativeState) :=
  {| api_key := api_key s; dataset := dataset s; client := client s;
     symbol_map := symbol_map s; callback := callback s;
     running := v; stop_requested := stop_requested s |}.
Definition set_stop_requested (v : bool) (s : NativeState) :=
  {| api_key := api_key s; dataset := dataset s; client := client s;
     symbol_map := symbol_map s; callback := callback s;
     running := running s; stop_requested := v |}.

(** [NativeState(key, dataset)] with its default member initialisers. *)
Definition NativeState_new (key dataset : string) : NativeState :=
  {| api_key := key; dataset := dataset; client := None;
     symbol_map := ∅; callback := None;
     running := false; stop_requested := false |}.

(** A [LiveClient] is its [_impl] pointer: null once disposed. *)
Definition LiveClient_new (apiKey dataset : option string)
  : managed (option NativeState) :=
  if IsNullOrWhiteSpace apiKey then
    Raise (ArgumentException "API key cannot be null or whitespace."
             "apiKey")
  else if IsNullOrWhiteSpace dataset then
    Raise (ArgumentException "Dataset cannot be null or whitespace."
             "dataset")
  else Ok (Some (NativeState_new (default "" apiKey) (default "" dataset))).

Definition ThrowIfDisposed (_impl : option NativeState) : managed () :=
  match _impl with
  | None => Raise (ObjectDisposedException "DatabentoWrapper.LiveClient")
  | Some _ => Ok ()
  end.

Fixpoint any_blank (symbols : list (option string)) : bool :=
  match symbols with
  | [] => false
  | symbol :: rest => IsNullOrWhiteSpace symbol || any_blank rest
  end.

Definition ValidateSymbols (symbols : option (list (option string)))
  : managed () :=
  match symbols with
  | None => Raise (ArgumentNullException "symbols")
  | Some l =>
      if decide (List.length l = 0%nat) then
        Raise (ArgumentException "At least one symbol is required."
                 "symbols")
      else if any_blank l then
        Raise (ArgumentException
                 "Symbols cannot contain null or whitespace entries."
                 "symbols")
      else Ok ()
  end.

(** The [try] block of [EnsureClient]: configure a builder and build. *)
Definition build_client (state : NativeState) : result LiveThreaded :=
  let builder := Builder in
  let '(r, builder) := SetKey (api_key state) builder in
  _ ← r;
  let '(r, builder) := SetDataset (dataset state) builder in
  _ ← r;
  let '(r, builder) := BuildThreaded builder in
  r.

(** [EnsureClient] past its [ThrowIfDisposed()].  On normal return
    [state.client] is non-null; the model hands that client back so
    that callers can dereference it. *)
Definition EnsureClient_on (state : NativeState)
  : managed LiveThreaded * NativeState :=
  match client state with
  | Some c => (Ok c, state)
  | None =>
      match build_client state with
      | Returns c => (Ok c, set_client (Some c) state)
      | Throws (StdException what) =>
          (Raise (InvalidOperationException what), state)
      | Throws UnknownException =>
          (Raise (InvalidOperationException
                    "Failed to create Databento live client."), state)
      end
  end.

Definition EnsureClient (_impl : option NativeState)
  : managed LiveThreaded * option NativeState :=
  match _impl with
  | None => (Raise (ObjectDisposedException "DatabentoWrapper.LiveClient"),
             None)
  | Some state =>
      let '(r, state) := EnsureClient_on state in (r, Some state)
  end.

Definition SubscribeTrades (symbols : option (list (option string)))
    (symbolType : Z) (_impl : option NativeState)
  : managed () * option NativeState :=
  match ValidateSymbols symbols with
  | Raise e => (Raise e, _impl)
  | Ok _ =>
      match EnsureClient _impl with
      | (Raise e, _impl) => (Raise e, _impl)
      | (Ok c, _impl) =>
          let nativeSymbols :=
            (λ symbol : option string, default "" symbol)
              <$> default [] symbols in
          let '(r, c) :=
            Subscribe nativeSymbols Schema_Trades
              (ToNativeSymbolType symbolType) c in
          let _impl := set_client (Some c) <$> _impl in
          match r with
          | Returns _ => (Ok (), _impl)
          | Throws (StdException what) =>
              (Raise (InvalidOperationException what), _impl)
          | Throws UnknownException =>
              (Raise (InvalidOperationException
                        "Failed to subscribe to trades."), _impl)
          end
      end
  end.

(** *** The handlers installed by [Start] *)

(** The [send] lambda: one invocation of the managed callback inside
    [try { ... } catch (...) { }].  The event it was invoked with is
    kept as the trace of what crossed the boundary. *)
Definition send (cb : RecordCallback) (kind : string) (instrument : Z)
    (symbol text : string) : result () * list Event :=
  let event := {| kind := kind; instrumentId := instrument;
                  symbol := ToManagedString symbol;
                  text := ToManagedString text |} in
  (match cb event with
   | Ok _ => Returns ()
   | Raise _ => Returns ()
   end, [event]).

(** The body of the [try] block of [recordHandler]: how it ended, the
    state it left and the events sent. *)
Definition dispatch (cb : RecordCallback) (record : Record)
    (nativeState : NativeState) : result () * NativeState * list Event :=
  match msg record with
  | SymbolMappingMsg stype_out_symbol =>
      let nativeState :=
        set_symbol_map
          (PitSymbolMap.OnSymbolMapping
             (databento.instrument_id (Header record)) stype_out_symbol
             (symbol_map nativeState)) nativeState in
      match ToString record with
      | Returns text =>
          let '(r, events) := send cb "mapping" 0 "" text in
          (r, nativeState, events)
      | Throws e => (Throws e, nativeState, [])
      end
  | TradeMsg =>
      let instrument := databento.instrument_id (Header record) in
      let symbol :=
        match PitSymbolMap.At (symbol_map nativeState) instrument with
        | Returns symbol => symbol
        | Throws _ => ""
        end in
      match ToString record with
      | Returns text =>
          let '(r, events) := send cb "trade" instrument symbol text in
          (r, nativeState, events)
      | Throws e => (Throws e, nativeState, [])
      end
  | SystemMsg is_heartbeat =>
      if is_heartbeat then (Returns (), nativeState, [])
      else
        match ToString record with
        | Returns text =>
            let '(r, events) := send cb "system" 0 "" text in
            (r, nativeState, events)
        | Throws e => (Throws e, nativeState, [])
        end
  | ErrorMsg =>
      match ToString record with
      | Returns text =>
          let '(r, events) := send cb "error" 0 "" text in
          (r, nativeState, events)
      | Throws e => (Throws e, nativeState, [])
      end
  | OtherMsg =>
      let '(r, events) :=
        send cb "unknown" 0 ""
          ("Unhandled record rtype=0x" +:+
             HexOfRType (databento.rtype (Header record))) in
      (r, nativeState, events)
  end.

(** [recordHandler], given what other threads store into the shared
    state between the end of the [try] block and the second load of
    [stop_requested]. *)
Definition recordHandler_among (others : NativeState → NativeState)
    (record : Record) (nativeState : NativeState)
  : result KeepGoing.t * NativeState * list Event :=
  if stop_requested nativeState then
    (Returns KeepGoing.Stop, set_running false nativeState, [])
  else
    match callback nativeState with
    | None => (Returns KeepGoing.Stop, set_running false nativeState, [])
    | Some cb =>
        let '(_, nativeState, events) := dispatch cb record nativeState in
        let nativeState := others nativeState in
        if stop_requested nativeState then
          (Returns KeepGoing.Stop, set_running false nativeState, events)
        else (Returns KeepGoing.Continue, nativeState, events)
    end.

(** [recordHandler] with no other thread writing meanwhile. *)
Definition recordHandler (record : Record) (nativeState : NativeState)
  : result KeepGoing.t * NativeState * list Event :=
  recordHandler_among id record nativeState.

Definition exceptionHandler (what : string) (nativeState : NativeState)
  : ExceptionAction.t * NativeState :=
  (ExceptionAction.Stop, set_running false nativeState).

(** *** Start and Stop *)

Definition compare_exchange_strong (expected desired : bool)
    (atomic : bool) : bool * bool :=
  if decide (atomic = expected) then (true, desired) else (false, atomic).

Definition Start (callback : option RecordCallback)
    (_impl : option NativeState) : managed () * option NativeState :=
  match _impl, callback with
  | None, _ =>
      (Raise (ObjectDisposedException "DatabentoWrapper.LiveClient"), None)
  | Some state, None =>
      (Raise (ArgumentNullException "callback"), Some state)
  | Some state, Some cb =>
      let '(ensured, state) := EnsureClient_on state in
      match ensured with
      | Raise e => (Raise e, Some state)
      | Ok c =>
          let '(won, flag) :=
            compare_exchange_strong false true (running state) in
          let state := set_running flag state in
          if negb won then
            (Raise (InvalidOperationException
                      "The live client is already running."), Some state)
          else
            let state := set_stop_requested false state in
            let state := set_callback (Some cb) state in
            let state := set_symbol_map ∅ state in
            let '(r, c) :=
              LiveThreaded_Start (recordHandler, exceptionHandler) c in
            let state := set_client (Some c) state in
            match r with
            | Returns _ => (Ok (), Some state)
            | Throws (StdException what) =>
                (Raise (InvalidOperationException what),
                 Some (set_running false state))
            | Throws UnknownException =>
                (Raise (InvalidOperationException
                          "Failed to start live stream."),
                 Some (set_running false state))
            end
      end
  end.

Definition Stop (_impl : option NativeState) : option NativeState :=
  match _impl with
  | None => None
  | Some state =>
      let state := set_stop_requested true state in
      let state :=
        match client state with
        | Some c =>
            let '(_, _) := BlockForStopFor 0 c in
            set_client None state
        | None => state
        end in
      let state := set_running false state in
      let state := set_callback None state in
      let state := set_symbol_map ∅ state in
      let state := set_stop_requested false state in
      Some state
  end.

(** The finalizer [!LiveClient]. *)
Definition Finalize (_impl : option NativeState) : option NativeState :=
  match _impl with
  | None => None
  | Some _ => let _ := Stop _impl in None
  end.

(** The overload of the header: [SubscribeTrades(symbols)] subscribes
    with [SymbolType::RawSymbol]. *)
Definition SubscribeTrades_raw (symbols : option (list (option string)))
    (_impl : option NativeState) : managed () * option NativeState :=
  SubscribeTrades symbols SymbolType_RawSymbol _impl.

(** The destructor [~LiveClient] runs the finalizer. *)
Definition Dispose (_impl : option NativeState) : option NativeState :=
  Finalize _impl.

(** *** The engine's delivery loop *)

(** Modelled from the spec: the loop of the engine's background
    thread, whose source is not part of the adapter units.  "The engine
    pumps a delivery loop, invoking the Record Dispatch Router per
    record", in arrival order, and the keep-going verdict of the record
    sink "controls whether the delivery loop proceeds".  Answers the
    state and the events sent. *)
Fixpoint deliver (records : list Record) (nativeState : NativeState)
  : NativeState * list Event :=
  match records with
  | [] => (nativeState, [])
  | record :: rest =>
      match recordHandler record nativeState with
      | (Returns KeepGoing.Continue, nativeState, events) =>
          let '(final, more) := deliver rest nativeState in
          (final, events ++ more)
      | (_, nativeState, events) => (nativeState, events)
      end
  end.

(** The verdicts of the record sink when it is invoked on each record
    in turn, whether or not the engine would have gone on. *)
Fixpoint verdicts (records : list Record) (nativeState : NativeState)
  : list (result KeepGoing.t) :=
  match records with
  | [] => []
  | record :: rest =>
      let '(verdict, nativeState, _) := recordHandler record nativeState in
      verdict :: verdicts rest nativeState
  end.

(** *** [Start] statement by statement

    For calls that overlap in time, [Start] is cut at its accesses to
    the shared state: the entry checks; in [EnsureClient], the read of
    [state.client], the [try] block that builds a client and the store
    of the client built, which no lock and no atomic protects; the
    compare-and-set; each of the three stores that follow it; the call
    of the engine's [Start]; and the store of the [catch] blocks.  A
    thread's position: *)
Inductive start_pc :=
| at_entry
| at_ensure (cb : RecordCallback)
| at_build (cb : RecordCallback)
| at_store_client (cb : RecordCallback) (built : LiveThreaded)
| at_cas (cb : RecordCallback)
| at_store_stop_requested (cb : RecordCallback)
| at_store_callback (cb : RecordCallback)
| at_store_symbol_map
| at_engine_start
| at_catch (e : ManagedException)
| returned (r : managed ()).

(** One statement of the thread at [pc]: its next position, the shared
    state, and whether the engine began a delivery loop.  [None]: the
    statement dereferences a null pointer. *)
Definition start_step (callback : option RecordCallback) (pc : start_pc)
    (_impl : option NativeState)
  : option (start_pc * option NativeState * bool) :=
  match pc with
  | at_entry =>
      match ThrowIfDisposed _impl, callback with
      | Raise e, _ => Some (returned (Raise e), _impl, false)
      | Ok _, None =>
          Some (returned (Raise (ArgumentNullException "callback")),
                _impl, false)
      | Ok _, Some cb => Some (at_ensure cb, _impl, false)
      end
  | at_ensure cb =>
      match ThrowIfDisposed _impl with
      | Raise e => Some (returned (Raise e), _impl, false)
      | Ok _ =>
          state ← _impl;
          match client state with
          | Some _ => Some (at_cas cb, _impl, false)
          | None => Some (at_build cb, _impl, false)
          end
      end
  | at_build cb =>
      state ← _impl;
      match build_client state with
      | Returns c => Some (at_store_client cb c, _impl, false)
      | Throws (StdException what) =>
          Some (returned (Raise (InvalidOperationException what)), _impl,
                false)
      | Throws UnknownException =>
          Some (returned
                  (Raise (InvalidOperationException
                            "Failed to create Databento live client.")),
                _impl, false)
      end
  | at_store_client cb c =>
      state ← _impl;
      Some (at_cas cb, Some (set_client (Some c) state), false)
  | at_cas cb =>
      state ← _impl;
      let '(won, flag) :=
        compare_exchange_strong false true (running state) in
      let state := set_running flag state in
      if negb won then
        Some (returned
                (Raise (InvalidOperationException
                          "The live client is already running.")),
              Some state, false)
      else Some (at_store_stop_requested cb, Some state, false)
  | at_store_stop_requested cb =>
      state ← _impl;
      Some (at_store_callback cb, Some (set_stop_requested false state),
            false)
  | at_store_callback cb =>
      state ← _impl;
      Some (at_store_symbol_map, Some (set_callback (Some cb) state),
            false)
  | at_store_symbol_map =>
      state ← _impl;
      Some (at_engine_start, Some (set_symbol_map ∅ state), false)
  | at_engine_start =>
      state ← _impl;
      c ← client state;
      let '(r, c) :=
              LiveThreaded_Start (recordHandler, exceptionHandler) c in
      let state := set_client (Some c) state in
      match r with
      | Returns _ => Some (returned (Ok ()), Some state, true)
      | Throws (StdException what) =>
          Some (at_catch (InvalidOperationException what), Some state,
                false)
      | Throws UnknownException =>
          Some (at_catch
                  (InvalidOperationException
                     "Failed to start live stream."), Some state, false)
      end
  | at_catch e =>
      state ← _impl;
      Some (returned (Raise e), Some (set_running false state), false)
  | returned r => Some (returned r, _impl, false)
  end.

(** The statement at [pc] is the store to [state.client]. *)
Definition stores_client (pc : start_pc) : bool :=
  match pc with
  | at_store_client _ _ => true
  | _ => false
  end.

(** A thread running alone for [fuel] statements. *)
Fixpoint start_run (fuel : nat) (callback : option RecordCallback)
    (pc : start_pc) (_impl : option NativeState)
  : option (start_pc * option NativeState) :=
  match fuel with
  | O => Some (pc, _impl)
  | S fuel =>
      match start_step callback pc _impl with
      | Some (pc, _impl, _) => start_run fuel callback pc _impl
      | None => None
      end
  end.

(** *** The handlers statement by statement

    While a delivery loop is active the engine's thread runs the two
    handlers that [Start] gave it, on the same [NativeState].  The
    record handler is cut at its accesses to the flags and to the
    callback: the load of [stop_requested] at its entry, the read of
    [callback], the [try] block (one step: it touches the symbol map
    only), the load of [stop_requested] at its exit, and the store of
    [false] to [running] that precedes each [return Stop].  The
    exception handler is its one store.  The engine's position: *)
Inductive handler_pc :=
| in_engine
| at_read_callback (record : Record)
| at_try (record : Record) (cb : RecordCallback)
| at_exit_check
| at_store_running.

(** What the engine does next when it is between two handler calls: it
    hands a record to the record handler, or an exception to the
    exception handler. *)
Inductive handler_call :=
| on_record (record : Record)
| on_exception (what : string).

(** One statement of the engine's thread: its next position, the shared
    state, and whether the statement stored [false] to the running
    flag. *)
Definition handler_step (call : handler_call) (pc : handler_pc)
    (nativeState : NativeState) : handler_pc * NativeState * bool :=
  match pc with
  | in_engine =>
      match call with
      | on_record record =>
          if stop_requested nativeState
          then (at_store_running, nativeState, false)
          else (at_read_callback record, nativeState, false)
      | on_exception _ => (in_engine, set_running false nativeState, true)
      end
  | at_read_callback record =>
      match callback nativeState with
      | None => (at_store_running, nativeState, false)
      | Some cb => (at_try record cb, nativeState, false)
      end
  | at_try record cb =>
      let '(_, nativeState, _) := dispatch cb record nativeState in
      (at_exit_check, nativeState, false)
  | at_exit_check =>
      if stop_requested nativeState
      then (at_store_running, nativeState, false)
      else (in_engine, nativeState, false)
  | at_store_running => (in_engine, set_running false nativeState, true)
  end.

(** The engine's thread running one handler alone for [fuel]
    statements; the last component tells whether it stored to the
    running flag. *)
Fixpoint handler_run (fuel : nat) (call : handler_call) (pc : handler_pc)
    (nativeState : NativeState) : handler_pc * NativeState * bool :=
  match fuel with
  | O => (pc, nativeState, false)
  | S fuel =>
      let '(pc, nativeState, stored) := handler_step call pc nativeState in
      let '(pc, nativeState, later) :=
        handler_run fuel call pc nativeState in
      (pc, nativeState, stored || later)
  end.

(** *** Overlapping calls

    Two threads of the host calling [Start] on the same [LiveClient],
    and the engine's thread.  Counted along the way: the delivery loops
    begun ([loops]: calls of the engine's [Start] that returned), the
    stores of [false] to the running flag made by the engine's thread
    ([resets]), and the stores to [state.client] made by
    [EnsureClient] ([stores]). *)
Record race := {
  shared : option NativeState;
  first : start_pc;
  second : start_pc;
  engine_thread : handler_pc;
  loops : nat;
  resets : nat;
  stores : nat;
}.

Definition race_begin (_impl : option NativeState) : race :=
  {| shared := _impl; first := at_entry; second := at_entry;
     engine_thread := in_engine; loops := 0; resets := 0; stores := 0 |}.

(** Whose statement comes next.  The model does not say when the engine
    runs a handler: any moment is allowed; it runs one handler call at
    a time. *)
Inductive turn :=
| first_call
| second_call
| engine_runs (call : handler_call).

(** The scheduler lets the first caller, the second caller or the
    engine's thread execute its next statement. *)
Definition race_step (cb1 cb2 : option RecordCallback) (who : turn)
    (r : race) : option race :=
  let bump (began : bool) (n : nat) := if began then S n else n in
  match who with
  | first_call =>
      match start_step cb1 (first r) (shared r) with
      | Some (pc, _impl, began) =>
          Some {| shared := _impl; first := pc; second := second r;
                  engine_thread := engine_thread r;
                  loops := bump began (loops r); resets := resets r;
                  stores := bump (stores_client (first r)) (stores r) |}
      | None => None
      end
  | second_call =>
      match start_step cb2 (second r) (shared r) with
      | Some (pc, _impl, began) =>
          Some {| shared := _impl; first := first r; second := pc;
                  engine_thread := engine_thread r;
                  loops := bump began (loops r); resets := resets r;
                  stores := bump (stores_client (second r)) (stores r) |}
      | None => None
      end
  | engine_runs call =>
      match shared r with
      | Some state =>
          let '(pc, state, stored) :=
            handler_step call (engine_thread r) state in
          Some {| shared := Some state; first := first r;
                  second := second r; engine_thread := pc;
                  loops := loops r; resets := bump stored (resets r);
                  stores := stores r |}
      | None => Some r
      end
  end.

Fixpoint race_run (cb1 cb2 : option RecordCallback) (schedule : list turn)
    (r : race) : option race :=
  match schedule with
  | [] => Some r
  | who :: schedule =>
      r ← race_step cb1 cb2 who r;
      race_run cb1 cb2 schedule r
  end.

End WithEngine.
End Wrapper.

(** ** An engine double for concrete runs

    A builder is the list of settings made on it (newest first), a
    session the list of symbol lists subscribed (newest first).  Every
    member function returns normally, except [SetKeyFromEnv], which ends
    as scripted: the environment decides. *)

Module Scripted.

Definition note (setting value : string)
  : method (list (string * string)) () :=
  λ b, (Returns (), (setting, value) :: b).

Definition quiet {T : Type} : method T () := λ t, (Returns (), t).

Definition engine (key_from_env : result ()) : Engine :=
  {| LiveBuilder := list (string * string);
     LiveThreaded := list (list string);
     Metadata := string;
     Builder := [];
     SetKey k := note "key" k;
     SetKeyFromEnv := λ b, (key_from_env, b);
     SetDataset d := note "dataset" d;
     SetDatasetEnum d := note "dataset" "enum";
     SetSendTsOut f := note "send_ts_out" (if f then "1" else "0");
     SetUpgradePolicy p := note "upgrade_policy" "set";
     SetHeartbeatInterval n := note "heartbeat_interval" "set";
     SetAddress a p := note "address" a;
     SetBufferSize n := note "buffer_size" "set";
     BuildThreaded := λ b, (Returns [], b);
     Subscribe l _ _ := λ c, (Returns (), l :: c);
     SubscribeFromUnix l _ _ _ := λ c, (Returns (), l :: c);
     SubscribeFromStr l _ _ _ := λ c, (Returns (), l :: c);
     SubscribeWithSnapshot l _ _ := λ c, (Returns (), l :: c);
     LiveThreaded_Start := λ CB cbs, quiet;
     Reconnect := quiet;
     Resubscribe := quiet;
     BlockForStop := quiet;
     BlockForStopFor n := λ c, (Returns KeepGoing.Stop, c);
     MetadataToString m := m;
     ToString r := Returns "record";
     HexOfRType n := "rtype" |}.

(** The environment variable is set. *)
Definition cooperative : Engine := engine (Returns ()).

(** The cooperative engine, except that its [Start] throws: the gateway
    refuses the session. *)
Definition refusing : Engine :=
  {| LiveBuilder := list (string * string);
     LiveThreaded := list (list string);
     Metadata := string;
     Builder := [];
     SetKey k := note "key" k;
     SetKeyFromEnv := λ b, (Returns (), b);
     SetDataset d := note "dataset" d;
     SetDatasetEnum d := note "dataset" "enum";
     SetSendTsOut f := note "send_ts_out" (if f then "1" else "0");
     SetUpgradePolicy p := note "upgrade_policy" "set";
     SetHeartbeatInterval n := note "heartbeat_interval" "set";
     SetAddress a p := note "address" a;
     SetBufferSize n := note "buffer_size" "set";
     BuildThreaded := λ b, (Returns [], b);
     Subscribe l _ _ := λ c, (Returns (), l :: c);
     SubscribeFromUnix l _ _ _ := λ c, (Returns (), l :: c);
     SubscribeFromStr l _ _ _ := λ c, (Returns (), l :: c);
     SubscribeWithSnapshot l _ _ := λ c, (Returns (), l :: c);
     LiveThreaded_Start :=
       λ CB cbs c, (Throws (StdException "gateway refused"), c);
     Reconnect := quiet;
     Resubscribe := quiet;
     BlockForStop := quiet;
     BlockForStopFor n := λ c, (Returns KeepGoing.Stop, c);
     MetadataToString m := m;
     ToString r := Returns "record";
     HexOfRType n := "rtype" |}.

(** Reading the key from the environment throws an exception whose
    [what()] is the empty string. *)
Definition mute : Engine := engine (Throws (StdException "")).

Definition header (rtype instrument_id : Z) : RecordHeader :=
  {| databento.length := 20; databento.rtype := rtype;
     databento.publisher_id := 1; databento.instrument_id := instrument_id;
     databento.ts_event := 1700000000000000000 |}.

Definition mapping (instrument_id : Z) (symbol : string) : Record :=
  {| Header := header 22 instrument_id; address := 4096; Size := 80;
     msg := SymbolMappingMsg symbol |}.

Definition trade (instrument_id : Z) : Record :=
  {| Header := header 0 instrument_id; address := 8192; Size := 48;
     msg := TradeMsg |}.

(** A managed callback that always throws. *)
Definition throwing : Wrapper.RecordCallback :=
  λ _, Wrapper.Raise (Wrapper.InvalidOperationException "handler failed").

(** A managed callback that always returns. *)
Definition listening : Wrapper.RecordCallback := λ _, Wrapper.Ok ().

(** A session of the cooperative engine in the middle of a run. *)
Definition streaming (cb : Wrapper.RecordCallback)
  : @Wrapper.NativeState cooperative :=
  @Wrapper.Build_NativeState cooperative "K" "GLBX.MDP3"
    (Some [["ES.FUT"]]) ∅ (Some cb) true false.

(** A session of the cooperative engine that has subscribed and has
    not been started. *)
Definition subscribed : @Wrapper.NativeState cooperative :=
  @Wrapper.Build_NativeState cooperative "K" "GLBX.MDP3"
    (Some [["ES.FUT"]]) ∅ None false false.

(** The same session over the engine whose [Start] throws. *)
Definition refused : @Wrapper.NativeState refusing :=
  @Wrapper.Build_NativeState refusing "K" "GLBX.MDP3"
    (Some [["ES.FUT"]]) ∅ None false false.

(** A session of the cooperative engine as the constructor leaves it:
    no native client yet. *)
Definition fresh : @Wrapper.NativeState cooperative :=
  @Wrapper.NativeState_new cooperative "K" "GLBX.MDP3".

(** A session of the cooperative engine whose run has ended on an
    engine exception: the flag is down, the callback and the mappings of
    that run are still there. *)
Definition halted : @Wrapper.NativeState cooperative :=
  @Wrapper.Build_NativeState cooperative "K" "GLBX.MDP3"
    (Some [["ES.FUT"]]) {[ 100 := "ESM4" ]} (Some listening) false false.

(** Handles of the C ABI over the cooperative engine. *)
Definition session (subscriptions : list (list string))
  : @CApi.db_c_live_threaded cooperative :=
  @CApi.Build_db_c_live_threaded cooperative (Some subscriptions).

Definition configured (settings : list (string * string))
  : @CApi.db_c_live_builder cooperative :=
  @CApi.Build_db_c_live_builder cooperative settings.

(** A foreign record callback and a foreign metadata callback that
    throw. *)
Definition faulty_record_callback : CApi.db_c_record_callback_t :=
  λ _ _ _ _, Throws (StdException "callback failed").
Definition faulty_metadata_callback : CApi.db_c_metadata_callback_t :=
  λ _ _, Throws UnknownException.

End Scripted.

(** ** Vocabulary of the properties *)

(** The native header's fields fit their widths. *)
Definition header_in_range (h : RecordHeader) : Prop :=
  0 ≤ databento.length h < 2 ^ 8 ∧
  0 ≤ databento.rtype h < 2 ^ 8 ∧
  0 ≤ databento.publisher_id h < 2 ^ 16 ∧
  0 ≤ databento.instrument_id h < 2 ^ 32 ∧
  0 ≤ databento.ts_event h < 2 ^ 64.

(** The entry the copy loop reads at index [i] of the symbol array: null
    when the array itself is null. *)
Definition entry_at (symbols : option (list (option string))) (i : nat)
  : option string :=
  match symbols with
  | Some l => default None (l !! i)
  | None => None
  end.

(** Among the first [count] entries of the array one is null: the
    array itself is null and [count] is positive, or the array holds a
    null at an index below [count]. *)
Definition has_null_entry (symbols : option (list (option string)))
    (count : nat) : Prop :=
  (symbols = None ∧ (0 < count)%nat) ∨
  ∃ l i, symbols = Some l ∧ (i < count)%nat ∧ l !! i = Some None.

(** A managed symbol array that is null, empty, or holds an entry that is
    null, empty or all white space. *)
Definition blank_symbols (symbols : option (list (option string))) : Prop :=
  symbols = None ∨ symbols = Some [] ∨
  ∃ l e, symbols = Some l ∧ e ∈ l ∧ Wrapper.IsNullOrWhiteSpace e = true.

Definition is_argument_error (e : Wrapper.ManagedException) : Prop :=
  match e with
  | Wrapper.ArgumentException _ _ | Wrapper.ArgumentNullException _ => True
  | _ => False
  end.

(** [record] is a mapping record for instrument [id]. *)
Definition is_mapping_for (id : Z) (record : Record) : bool :=
  match msg record with
  | SymbolMappingMsg _ =>
      bool_decide (databento.instrument_id (Header record) = id)
  | _ => false
  end.

(** The symbol known for [id] after [records], read in arrival order,
    when it was [current] before them. *)
Fixpoint last_mapped (id : Z) (records : list Record) (current : string)
  : string :=
  match records with
  | [] => current
  | record :: rest =>
      last_mapped id rest
        (match msg record with
         | SymbolMappingMsg symbol =>
             if is_mapping_for id record then symbol else current
         | _ => current
         end)
  end.

(** The symbol of the most recent mapping record for [id] among
    [prior], the empty string when there is none. *)
Definition most_recent_mapping (id : Z) (prior : list Record) : string :=
  last_mapped id prior "".

(** What a lookup in the symbol map resolves to in a trade event. *)
Definition resolved (map : gmap Z string) (id : Z) : string :=
  default "" (map !! id).

(** A session on which [Start] has not been called since it was
    constructed or last stopped. *)
Definition never_started `{Engine} (state : Wrapper.NativeState) : Prop :=
  Wrapper.running state = false ∧ Wrapper.stop_requested state = false ∧
  Wrapper.callback state = None ∧ Wrapper.symbol_map state = ∅.

(** The exception of a [Start] that found the session running. *)
Definition already_running : Wrapper.ManagedException :=
  Wrapper.InvalidOperationException "The live client is already running.".

(** Where a thread inside [Start] stands with respect to the running
    flag: it has not yet tried the compare-and-set, it has won it (and
    has not failed since), it has lost it, or it has failed otherwise. *)
Inductive phase := before | winning | lost | failed.

Definition phase_of `{Engine} (pc : Wrapper.start_pc) : phase :=
  match pc with
  | Wrapper.at_entry | Wrapper.at_ensure _ | Wrapper.at_build _
  | Wrapper.at_store_client _ _ | Wrapper.at_cas _ => before
  | Wrapper.at_store_stop_requested _ | Wrapper.at_store_callback _
  | Wrapper.at_store_symbol_map | Wrapper.at_engine_start => winning
  | Wrapper.returned (Wrapper.Ok _) => winning
  | Wrapper.returned
      (Wrapper.Raise (Wrapper.InvalidOperationException message)) =>
      if decide (message = "The live client is already running.")
      then lost else failed
  | Wrapper.returned (Wrapper.Raise _) => failed
  | Wrapper.at_catch _ => failed
  end.

Definition successes `{Engine} (pc : Wrapper.start_pc) : nat :=
  match pc with
  | Wrapper.returned (Wrapper.Ok _) => 1
  | _ => 0
  end.

(** The thread holds the running flag: it has set it and has not yet
    given it back. *)
Definition holds_flag `{Engine} (pc : Wrapper.start_pc) : bool :=
  match pc with
  | Wrapper.at_store_stop_requested _ | Wrapper.at_store_callback _
  | Wrapper.at_store_symbol_map | Wrapper.at_engine_start
  | Wrapper.at_catch _ | Wrapper.returned (Wrapper.Ok _) => true
  | _ => false
  end.

Definition holders `{Engine} (pc : Wrapper.start_pc) : nat :=
  if holds_flag pc then 1 else 0.

(** The thread is inside the [try] block of [EnsureClient]. *)
Definition building `{Engine} (pc : Wrapper.start_pc) : bool :=
  match pc with
  | Wrapper.at_build _ | Wrapper.at_store_client _ _ => true
  | _ => false
  end.

(** An upper bound on the statements a thread still has to execute. *)
Definition remaining `{Engine} (pc : Wrapper.start_pc) : nat :=
  match pc with
  | Wrapper.at_entry => 10
  | Wrapper.at_ensure _ => 9
  | Wrapper.at_build _ => 8
  | Wrapper.at_store_client _ _ => 7
  | Wrapper.at_cas _ => 6
  | Wrapper.at_store_stop_requested _ => 5
  | Wrapper.at_store_callback _ => 4
  | Wrapper.at_store_symbol_map => 3
  | Wrapper.at_engine_start => 2
  | Wrapper.at_catch _ => 1
  | Wrapper.returned _ => 0
  end.

(** How often the schedule lets the first ([true]) or the second
    ([false]) caller run. *)
Definition is_turn_of (who : bool) (t : Wrapper.turn) : bool :=
  match t with
  | Wrapper.first_call => who
  | Wrapper.second_call => negb who
  | Wrapper.engine_runs _ => false
  end.

Fixpoint turns (who : bool) (schedule : list Wrapper.turn) : nat :=
  match schedule with
  | [] => 0
  | t :: rest => (if is_turn_of who t then 1 else 0) + turns who rest
  end.

(** [EnsureClient] will find or build a native client. *)
Definition can_ensure `{Engine} (state : Wrapper.NativeState) : Prop :=
  is_Some (Wrapper.client state) ∨
  ∃ c, Wrapper.build_client state = Returns c.

(** The engine's [Start] returns normally when given the wrapper's
    handlers. *)
Definition engine_starts `{Engine} : Prop :=
  ∀ c, (LiveThreaded_Start (Wrapper.recordHandler, Wrapper.exceptionHandler)
          c).1 = Returns ().

(** What holds at every point of a race of two [Start] calls and the
    engine's thread on a session that holds its native client, whatever
    the engine does: the client stays, [EnsureClient] never stores, and
    the callers that hold the running flag are at most one more than
    the stores of [false] that the engine's thread has made ([n]
    delivery loops begun, [k] such stores, [s] stores to the client). *)
Definition race_safe `{Engine} (state : Wrapper.NativeState)
    (a b : Wrapper.start_pc) (n k s : nat) : Prop :=
  is_Some (Wrapper.client state) ∧
  building a = false ∧ building b = false ∧ s = 0%nat ∧
  (holders a + holders b ≤
   (if Wrapper.running state then 1 else 0) + k)%nat ∧
  n = (successes a + successes b)%nat.

(** What holds in addition as long as the engine's thread has made no
    such store, when the engine's [Start] returns normally and the
    running flag was [r0] at the beginning: no call fails for another
    reason than the flag, the flag is set exactly when it was set at
    the beginning or a call has won it, and a call that lost the
    compare-and-set lost it to the other or to the flag found set. *)
Definition race_inv `{Engine} (r0 : bool) (state : Wrapper.NativeState)
    (a b : Wrapper.start_pc) (n k s : nat) : Prop :=
  race_safe state a b n k s ∧
  (k = 0%nat →
   phase_of a ≠ failed ∧ phase_of b ≠ failed ∧
   (Wrapper.running state = true ↔
    r0 = true ∨ phase_of a = winning ∨ phase_of b = winning) ∧
   (r0 = true → phase_of a ≠ winning ∧ phase_of b ≠ winning) ∧
   ¬ (phase_of a = winning ∧ phase_of b = winning) ∧
   (phase_of a = lost → r0 = true ∨ phase_of b = winning) ∧
   (phase_of b = lost → r0 = true ∨ phase_of a = winning)).

(** ** Vocabulary of the further properties *)

(** The [kind] literal the record handler sends for a payload. *)
Definition kind_of_msg (m : Msg) : string :=
  match m with
  | SymbolMappingMsg _ => "mapping"
  | TradeMsg => "trade"
  | SystemMsg _ => "system"
  | ErrorMsg => "error"
  | OtherMsg => "unknown"
  end.

(** What every session function of the C ABI does with its handle: it
    answers 0 or -1, a handle that passes the null checks still passes
    them afterwards, and one that does not is refused and handed back. *)
Definition keeps_handle `{Engine} (client : option CApi.db_c_live_threaded)
    (out : Z * string * option CApi.db_c_live_threaded) : Prop :=
  (out.1.1 = 0 ∨ out.1.1 = -1) ∧
  (is_Some (CApi.deref client) → is_Some (CApi.deref out.2)) ∧
  (CApi.deref client = None → out = (-1, "client pointer is null", client)).

(** The same for the setters of the builder. *)
Definition keeps_builder `{Engine} (builder : option CApi.db_c_live_builder)
    (out : Z * string * option CApi.db_c_live_builder) : Prop :=
  (out.1.1 = 0 ∨ out.1.1 = -1) ∧
  (is_Some builder → is_Some out.2) ∧
  (builder = None → out = (-1, "builder pointer is null", None)).

(** *** Handles shared between threads

    The functions of [c_api.h] take pointers, and threads may hold the
    same ones: what a call does depends on the object that is behind its
    handle when the call is made, whichever thread brought it to that
    state.  A handle is an address, or null.  The store holds the object
    behind every address that [db_c_live_builder_new] or
    [db_c_live_builder_build_threaded] returned and that was not freed
    since.  Calls arrive one after the other. *)
Module Shared.
Section WithEngine.
Context `{Engine}.

Record store := {
  builders : gmap nat CApi.db_c_live_builder;
  sessions : gmap nat CApi.db_c_live_threaded;
}.

(** One call of a function of [c_api.h], with the handles as the caller
    holds them. *)
Inductive call :=
| builder_new (alloc : result ())
| builder_free (builder : option nat)
| builder_set_key (builder : option nat) (api_key : option string)
| builder_set_key_from_env (builder : option nat)
| builder_set_dataset (builder : option nat) (dataset_code : option string)
| builder_set_dataset_enum (builder : option nat) (dataset : Z)
| builder_set_send_ts_out (builder : option nat) (send_ts_out : Z)
| builder_set_upgrade_policy (builder : option nat) (policy : Z)
| builder_set_heartbeat_interval (builder : option nat) (seconds : Z)
| builder_set_address (builder : option nat) (gateway : option string)
    (port : Z)
| builder_set_buffer_size (builder : option nat) (size : Z)
| builder_build_threaded (builder : option nat)
| threaded_free (client : option nat)
| threaded_subscribe (client : option nat)
    (symbols : option (list (option string))) (symbol_count : nat)
    (schema stype_in : Z)
| threaded_subscribe_from_unix (client : option nat)
    (symbols : option (list (option string))) (symbol_count : nat)
    (schema stype_in start_unix_nanos : Z)
| threaded_subscribe_from_str (client : option nat)
    (symbols : option (list (option string))) (symbol_count : nat)
    (schema stype_in : Z) (start : option string)
| threaded_subscribe_with_snapshot (client : option nat)
    (symbols : option (list (option string))) (symbol_count : nat)
    (schema stype_in : Z)
| threaded_start (client : option nat)
    (record_callback : option CApi.db_c_record_callback_t)
    (record_user_data : Z)
| threaded_start_with_metadata (client : option nat)
    (metadata_callback : option CApi.db_c_metadata_callback_t)
    (metadata_user_data : Z)
    (record_callback : option CApi.db_c_record_callback_t)
    (record_user_data : Z)
| threaded_start_with_exceptions (client : option nat)
    (metadata_callback : option CApi.db_c_metadata_callback_t)
    (metadata_user_data : Z)
    (record_callback : option CApi.db_c_record_callback_t)
    (record_user_data : Z)
    (exception_callback : option CApi.db_c_exception_callback_t)
    (exception_user_data : Z)
| threaded_reconnect (client : option nat)
| threaded_resubscribe (client : option nat)
| threaded_block_for_stop (client : option nat)
| threaded_block_for_stop_with_timeout (client : option nat)
    (timeout_millis : Z) (result : option Z).

(** What a pointer designates: null, the object at a live address, or
    nothing at all ([None]) for an address that is not live, the use of
    which is undefined. *)
Definition target {A : Type} (objects : gmap nat A) (pointer : option nat)
  : option (option A) :=
  match pointer with
  | None => Some None
  | Some address => Some <$> objects !! address
  end.

(** The object that a call leaves behind the pointer it was given. *)
Definition put {A : Type} (objects : gmap nat A) (pointer : option nat)
    (object : option A) : gmap nat A :=
  match pointer, object with
  | Some address, Some object => <[address := object]> objects
  | _, _ => objects
  end.

(** [delete]: the address is no longer live; freeing null does nothing. *)
Definition release {A : Type} (objects : gmap nat A)
    (pointer : option nat) : gmap nat A :=
  match pointer with
  | Some address => delete address objects
  | None => objects
  end.

(** [new]: the object, when one was made, is at an address that was not
    live. *)
Definition allocate {A : Type} (objects : gmap nat A) (object : option A)
  : gmap nat A :=
  match object with
  | Some object => <[fresh (dom objects) := object]> objects
  | None => objects
  end.

Definition with_builders (objects : gmap nat CApi.db_c_live_builder)
    (m : store) : store :=
  {| builders := objects; sessions := sessions m |}.

Definition with_sessions (objects : gmap nat CApi.db_c_live_threaded)
    (m : store) : store :=
  {| builders := builders m; sessions := objects |}.

(** A setter called through a handle. *)
Definition on_builder (pointer : option nat)
    (f : option CApi.db_c_live_builder → string →
         Z * string * option CApi.db_c_live_builder)
    (m : store) (g_last_error : string)
  : option (CApi.api_return * string * store) :=
  b ← target (builders m) pointer;
  let '(z, g, b) := f b g_last_error in
  Some (CApi.status z, g, with_builders (put (builders m) pointer b) m).

(** A session function called through a handle. *)
Definition on_session (pointer : option nat)
    (f : option CApi.db_c_live_threaded → string →
         Z * string * option CApi.db_c_live_threaded)
    (m : store) (g_last_error : string)
  : option (CApi.api_return * string * store) :=
  c ← target (sessions m) pointer;
  let '(z, g, c) := f c g_last_error in
  Some (CApi.status z, g, with_sessions (put (sessions m) pointer c) m).

(** The return value, the calling thread's error slot and the store
    after the call; [None] when the call uses an address that is not
    live. *)
Definition run_call (c : call) (m : store) (g_last_error : string)
  : option (CApi.api_return * string * store) :=
  match c with
  | builder_new alloc =>
      let '(h, g) := CApi.db_c_live_builder_new alloc g_last_error in
      Some (CApi.handle (bool_decide (is_Some h)), g,
            with_builders (allocate (builders m) h) m)
  | builder_free p =>
      b ← target (builders m) p;
      Some (CApi.nothing, CApi.db_c_live_builder_free b g_last_error,
            with_builders (release (builders m) p) m)
  | builder_set_key p k =>
      on_builder p (λ b, CApi.db_c_live_builder_set_key b k) m g_last_error
  | builder_set_key_from_env p =>
      on_builder p CApi.db_c_live_builder_set_key_from_env m g_last_error
  | builder_set_dataset p d =>
      on_builder p (λ b, CApi.db_c_live_builder_set_dataset b d) m
        g_last_error
  | builder_set_dataset_enum p d =>
      on_builder p (λ b, CApi.db_c_live_builder_set_dataset_enum b d) m
        g_last_error
  | builder_set_send_ts_out p f =>
      on_builder p (λ b, CApi.db_c_live_builder_set_send_ts_out b f) m
        g_last_error
  | builder_set_upgrade_policy p policy =>
      on_builder p
        (λ b, CApi.db_c_live_builder_set_upgrade_policy b policy) m
        g_last_error
  | builder_set_heartbeat_interval p n =>
      on_builder p
        (λ b, CApi.db_c_live_builder_set_heartbeat_interval b n) m
        g_last_error
  | builder_set_address p a port =>
      on_builder p (λ b, CApi.db_c_live_builder_set_address b a port) m
        g_last_error
  | builder_set_buffer_size p n =>
      on_builder p (λ b, CApi.db_c_live_builder_set_buffer_size b n) m
        g_last_error
  | builder_build_threaded p =>
      b ← target (builders m) p;
      let '(h, g, b) :=
        CApi.db_c_live_builder_build_threaded b g_last_error in
      Some (CApi.handle (bool_decide (is_Some h)), g,
            {| builders := put (builders m) p b;
               sessions := allocate (sessions m) h |})
  | threaded_free p =>
      c ← target (sessions m) p;
      Some (CApi.nothing, CApi.db_c_live_threaded_free c g_last_error,
            with_sessions (release (sessions m) p) m)
  | threaded_subscribe p l n sc st =>
      on_session p (λ c, CApi.db_c_live_threaded_subscribe c l n sc st) m
        g_last_error
  | threaded_subscribe_from_unix p l n sc st t =>
      on_session p
        (λ c, CApi.db_c_live_threaded_subscribe_from_unix c l n sc st t) m
        g_last_error
  | threaded_subscribe_from_str p l n sc st t =>
      on_session p
        (λ c, CApi.db_c_live_threaded_subscribe_from_str c l n sc st t) m
        g_last_error
  | threaded_subscribe_with_snapshot p l n sc st =>
      on_session p
        (λ c, CApi.db_c_live_threaded_subscribe_with_snapshot c l n sc st)
        m g_last_error
  | threaded_start p rc ru =>
      on_session p (λ c, CApi.db_c_live_threaded_start c rc ru) m
        g_last_error
  | threaded_start_with_metadata p mc mu rc ru =>
      on_session p
        (λ c, CApi.db_c_live_threaded_start_with_metadata c mc mu rc ru) m
        g_last_error
  | threaded_start_with_exceptions p mc mu rc ru ec eu =>
      on_session p
        (λ c, CApi.db_c_live_threaded_start_with_exceptions c mc mu rc ru
                ec eu) m g_last_error
  | threaded_reconnect p =>
      on_session p CApi.db_c_live_threaded_reconnect m g_last_error
  | threaded_resubscribe p =>
      on_session p CApi.db_c_live_threaded_resubscribe m g_last_error
  | threaded_block_for_stop p =>
      on_session p CApi.db_c_live_threaded_block_for_stop m g_last_error
  | threaded_block_for_stop_with_timeout p t r =>
      c ← target (sessions m) p;
      let '(z, g, c, _) :=
        CApi.db_c_live_threaded_block_for_stop_with_timeout c t r
          g_last_error in
      Some (CApi.status z, g, with_sessions (put (sessions m) p c) m)
  end.

(** The two [void] functions, which do not report. *)
Definition reports_nothing (c : call) : bool :=
  match c with
  | builder_free _ | threaded_free _ => true
  | _ => false
  end.

(** The call made on thread [t]: it reads and writes the slot of [t]. *)
Definition call_on_thread (t : nat) (c : call) (m : store)
    (slots : gmap nat string)
  : option (CApi.api_return * store * gmap nat string) :=
  match run_call c m (CApi.slot_of t slots) with
  | Some (r, g, m) => Some (r, m, <[t := g]> slots)
  | None => None
  end.

(** Calls made by several threads, in the order in which they happen;
    the store and the error slots they leave. *)
Fixpoint run_history (history : list (nat * call)) (m : store)
    (slots : gmap nat string) : option (store * gmap nat string) :=
  match history with
  | [] => Some (m, slots)
  | (t, c) :: rest =>
      match call_on_thread t c m slots with
      | Some (_, m, slots) => run_history rest m slots
      | None => None
      end
  end.

(** Thread [t] makes no call that reports in [history]. *)
Definition silent (t : nat) (history : list (nat * call)) : Prop :=
  Forall (λ entry, entry.1 = t → reports_nothing entry.2 = true) history.

End WithEngine.
End Shared.

(** What can happen to a managed session, one thing after the other:
    the host calls a public member function, or the engine invokes one
    of the two handlers given to it. *)
Inductive session_event :=
| subscribes (symbols : option (list (option string))) (symbolType : Z)
| starts (callback : option Wrapper.RecordCallback)
| stops
| delivers (record : Record)
| engine_fails (what : string)
| finalizes.

Definition apply_event `{Engine} (event : session_event)
    (_impl : option Wrapper.NativeState) : option Wrapper.NativeState :=
  match event with
  | subscribes symbols symbolType =>
      (Wrapper.SubscribeTrades symbols symbolType _impl).2
  | starts callback => (Wrapper.Start callback _impl).2
  | stops => Wrapper.Stop _impl
  | delivers record =>
      (λ state, (Wrapper.recordHandler record state).1.2) <$> _impl
  | engine_fails what =>
      (λ state, (Wrapper.exceptionHandler what state).2) <$> _impl
  | finalizes => Wrapper.Finalize _impl
  end.

Fixpoint apply_events `{Engine} (events : list session_event)
    (_impl : option Wrapper.NativeState) : option Wrapper.NativeState :=
  match events with
  | [] => _impl
  | event :: rest => apply_events rest (apply_event event _impl)
  end.

(** What holds of a session between any two such events. *)
Definition lifecycle_ok `{Engine} (key dataset : string)
    (state : Wrapper.NativeState) : Prop :=
  Wrapper.api_key state = key ∧ Wrapper.dataset state = dataset ∧
  Wrapper.stop_requested state = false ∧
  (Wrapper.running state = true →
   is_Some (Wrapper.client state) ∧ is_Some (Wrapper.callback state)) ∧
  (Wrapper.callback state = None → Wrapper.symbol_map state = ∅).

(** How the function called [name] reports the outcome of what it ran
    inside its [try] block: status and error slot. *)
Definition reports (name : string) {A : Type} (outcome : result A)
    (status : Z) (slot : string) : Prop :=
  match outcome with
  | Returns _ => status = 0 ∧ slot = ""
  | Throws (StdException what) => status = -1 ∧ slot = what
  | Throws UnknownException =>
      status = -1 ∧ slot = "unexpected error in " +:+ name
  end.

(** * Properties *)

(** ** Record view handed to the C record callback *)

Section RecordView.

Lemma wrap_small w x : 0 ≤ x < 2 ^ w → wrap w x = x.
Proof. intros Hx. unfold wrap. by apply Z.mod_small. Qed.

Lemma ToCHeader_fields h :
  header_in_range h →
  CApi.length_words (CApi.ToCHeader h) = databento.length h ∧
  CApi.rtype (CApi.ToCHeader h) = databento.rtype h ∧
  CApi.publisher_id (CApi.ToCHeader h) = databento.publisher_id h ∧
  CApi.instrument_id (CApi.ToCHeader h) = databento.instrument_id h ∧
  CApi.ts_event (CApi.ToCHeader h) = databento.ts_event h.
Proof.
  intros (Hl & Hr & Hp & Hi & Ht). cbn.
  by rewrite !wrap_small.
Qed.

(** C7.  For every record handed to the record trampoline, whatever the
    foreign callback and its context pointer, the callback is invoked
    once with a header whose five fields equal those of the record's
    native header, with the address just past the native header as
    body, and with a body length that is the record's size minus the
    header size, or zero when the record is not larger than its header;
    the length is never negative. *)
Theorem record_trampoline_view (record : Record) :
  header_in_range (Header record) →
  0 ≤ Size record < 2 ^ 64 →
  ∃ header body body_size,
    (∀ callback user_data,
       CApi.MakeRecordCallback callback user_data record =
       (keep_going ← callback user_data header body body_size;
        mret (CApi.ToKeepGoing keep_going))) ∧
    CApi.length_words header = databento.length (Header record) ∧
    CApi.rtype header = databento.rtype (Header record) ∧
    CApi.publisher_id header = databento.publisher_id (Header record) ∧
    CApi.instrument_id header = databento.instrument_id (Header record) ∧
    CApi.ts_event header = databento.ts_event (Header record) ∧
    body = address record + sizeof_RecordHeader ∧
    (Size record > sizeof_RecordHeader →
     body_size = Size record - sizeof_RecordHeader) ∧
    (Size record ≤ sizeof_RecordHeader → body_size = 0) ∧
    0 ≤ body_size ≤ Size record.
Proof.
  intros Hh Hs.
  destruct (ToCHeader_fields _ Hh) as (Hl & Hr & Hp & Hi & Ht).
  unfold sizeof_RecordHeader in *.
  destruct (decide (Size record > 16)) as [Hgt | Hle].
  - exists (CApi.ToCHeader (Header record)), (address record + 16),
      (Size record - 16).
    repeat split; try done; try lia.
    intros callback user_data. unfold CApi.MakeRecordCallback.
    unfold sizeof_RecordHeader. rewrite decide_True by done.
    rewrite wrap_small by lia. done.
  - exists (CApi.ToCHeader (Header record)), (address record + 16), 0.
    repeat split; try done; try lia.
    intros callback user_data. unfold CApi.MakeRecordCallback.
    unfold sizeof_RecordHeader. by rewrite decide_False.
Qed.

Lemma record_trampoline_view_example :
  ∃ header body body_size,
    (∀ callback user_data,
       CApi.MakeRecordCallback callback user_data (Scripted.trade 100) =
       (keep_going ← callback user_data header body body_size;
        mret (CApi.ToKeepGoing keep_going))) ∧
    CApi.length_words header = 20 ∧
    CApi.rtype header = 0 ∧
    CApi.publisher_id header = 1 ∧
    CApi.instrument_id header = 100 ∧
    CApi.ts_event header = 1700000000000000000 ∧
    body = 8192 + 16 ∧
    (48 > 16 → body_size = 48 - 16) ∧
    (48 ≤ 16 → body_size = 0) ∧
    0 ≤ body_size ≤ 48.
Proof.
  apply (record_trampoline_view (Scripted.trade 100)).
  - unfold header_in_range; cbn; lia.
  - cbn; lia.
Defined.

End RecordView.

(** ** Faults raised inside callbacks *)

Section Trampolines.
Context `{Engine}.

Lemma send_returns cb kind instrument symbol text :
  (Wrapper.send cb kind instrument symbol text).1 = Returns ().
Proof. unfold Wrapper.send. cbn. by destruct (cb _). Qed.

Lemma dispatch_keeps_flags cb record (state : Wrapper.NativeState) :
  let state' := (Wrapper.dispatch cb record state).1.2 in
  Wrapper.stop_requested state' = Wrapper.stop_requested state ∧
  Wrapper.callback state' = Wrapper.callback state ∧
  Wrapper.running state' = Wrapper.running state ∧
  Wrapper.client state' = Wrapper.client state.
Proof.
  unfold Wrapper.dispatch.
  destruct (msg record) as [sym| |hb| |]; cbn;
    try destruct hb; try destruct (ToString record); cbn; done.
Qed.

Lemma recordHandler_verdict cb record (state : Wrapper.NativeState) :
  Wrapper.callback state = Some cb →
  (Wrapper.recordHandler record state).1.1 =
  Returns (if Wrapper.stop_requested state then KeepGoing.Stop
           else KeepGoing.Continue).
Proof.
  intros Hcb. unfold Wrapper.recordHandler, Wrapper.recordHandler_among.
  destruct (Wrapper.stop_requested state) eqn:Hstop; [done|].
  rewrite Hcb.
  pose proof (dispatch_keeps_flags cb record state) as (Hs & _).
  destruct (Wrapper.dispatch cb record state) as [[r state'] events].
  cbn in *. rewrite Hs, Hstop. done.
Qed.

(** C1, as the code has it.  The record and metadata trampolines of the
    C ABI do not catch: when the foreign callback throws, the closure
    throws the same exception to the engine.  In the managed wrapper a
    throw of the managed callback, if any, is caught inside [send],
    which always returns normally; the record handler then answers as
    if the callback had returned: continue, unless stop was
    requested. *)
Theorem trampoline_fault_handling
    (record_callback : CApi.db_c_record_callback_t)
    (metadata_callback : CApi.db_c_metadata_callback_t)
    (managed_callback : Wrapper.RecordCallback) (e1 e2 : exn) :
  (∀ user_data header body body_size,
     record_callback user_data header body body_size = Throws e1) →
  (∀ user_data metadata_text,
     metadata_callback user_data metadata_text = Throws e2) →
  (∀ user_data record,
     CApi.MakeRecordCallback record_callback user_data record =
     Throws e1) ∧
  (∀ user_data metadata,
     CApi.MakeMetadataCallback (Some metadata_callback) user_data metadata =
     Throws e2) ∧
  (∀ kind instrument symbol text,
     (Wrapper.send managed_callback kind instrument symbol text).1 =
     Returns ()) ∧
  (∀ record (state : Wrapper.NativeState),
     Wrapper.callback state = Some managed_callback →
     (Wrapper.recordHandler record state).1.1 =
     Returns (if Wrapper.stop_requested state then KeepGoing.Stop
              else KeepGoing.Continue)).
Proof.
  intros Hrec Hmeta. repeat split.
  - intros user_data record. unfold CApi.MakeRecordCallback.
    by rewrite Hrec.
  - intros user_data metadata. unfold CApi.MakeMetadataCallback.
    by rewrite Hmeta.
  - intros. apply send_returns.
  - intros record state Hcb.
    by apply (recordHandler_verdict managed_callback).
Qed.

End Trampolines.

Lemma trampoline_fault_handling_example :
  (∀ user_data record,
     CApi.MakeRecordCallback Scripted.faulty_record_callback user_data record =
     Throws (StdException "callback failed")) ∧
  (∀ user_data metadata,
     CApi.MakeMetadataCallback (H := Scripted.cooperative)
       (Some Scripted.faulty_metadata_callback) user_data metadata =
     Throws UnknownException) ∧
  (∀ kind instrument symbol text,
     (Wrapper.send Scripted.throwing kind instrument symbol text).1 =
     Returns ()) ∧
  (∀ record (state : @Wrapper.NativeState Scripted.cooperative),
     Wrapper.callback state = Some Scripted.throwing →
     (Wrapper.recordHandler record state).1.1 =
     Returns (if Wrapper.stop_requested state then KeepGoing.Stop
              else KeepGoing.Continue)).
Proof.
  apply (trampoline_fault_handling (H := Scripted.cooperative)
           Scripted.faulty_record_callback Scripted.faulty_metadata_callback
           Scripted.throwing).
  - reflexivity.
  - reflexivity.
Defined.

(** The claim of C1 fails on the code: a throwing foreign record callback
    does not yield the stop verdict, a throwing foreign metadata callback
    is not absorbed, and a throwing managed callback leaves the record
    handler answering continue. *)
Lemma callback_fault_is_not_stop :
  CApi.MakeRecordCallback Scripted.faulty_record_callback 7
    (Scripted.trade 100) ≠ Returns KeepGoing.Stop ∧
  CApi.MakeMetadataCallback (H := Scripted.cooperative)
    (Some Scripted.faulty_metadata_callback) 7 "metadata" ≠ Returns () ∧
  (Wrapper.recordHandler (Scripted.trade 100)
     (Scripted.streaming Scripted.throwing)).1.1 ≠ Returns KeepGoing.Stop.
Proof. repeat split; discriminate. Qed.

(** ** The per-thread error slot *)

Section ErrorChannel.
Context `{Engine}.

(** The message a caught exception leaves in the slot. *)
Lemma try_status_throws u e g :
  CApi.try_status u (Throws e) g =
  (-1, match e with StdException what => what | UnknownException => u end).
Proof. by destruct e. Qed.

Lemma try_status_returns u g : CApi.try_status u (Returns ()) g = (0, "").
Proof. done. Qed.

Ltac unfold_api :=
  unfold CApi.db_c_live_builder_new, CApi.db_c_live_builder_free,
    CApi.db_c_live_builder_set_key,
    CApi.db_c_live_builder_set_key_from_env,
    CApi.db_c_live_builder_set_dataset,
    CApi.db_c_live_builder_set_dataset_enum,
    CApi.db_c_live_builder_set_send_ts_out,
    CApi.db_c_live_builder_set_upgrade_policy,
    CApi.db_c_live_builder_set_heartbeat_interval,
    CApi.db_c_live_builder_set_address,
    CApi.db_c_live_builder_set_buffer_size,
    CApi.db_c_live_builder_build_threaded,
    CApi.db_c_live_threaded_free,
    CApi.db_c_live_threaded_subscribe,
    CApi.db_c_live_threaded_subscribe_from_unix,
    CApi.db_c_live_threaded_subscribe_from_str,
    CApi.db_c_live_threaded_subscribe_with_snapshot,
    CApi.db_c_live_threaded_start,
    CApi.db_c_live_threaded_start_with_metadata,
    CApi.db_c_live_threaded_start_with_exceptions,
    CApi.db_c_live_threaded_reconnect,
    CApi.db_c_live_threaded_resubscribe,
    CApi.db_c_live_threaded_block_for_stop,
    CApi.db_c_live_threaded_block_for_stop_with_timeout,
    CApi.set_on, CApi.call_on, CApi.null_client, CApi.try_status,
    CApi.SetError, CApi.ClearError in *.

(** A call that returns a status or a handle reports through the slot
    and overwrites whatever the slot held; a [void] function leaves the
    slot alone. *)
Lemma run_call_protocol (c : CApi.api_call) (g : string) r g' :
  CApi.run_call c g = (r, g') →
  (CApi.succeeded r → g' = "") ∧
  (r ≠ CApi.nothing →
   (CApi.succeeded r ∨ CApi.failed r) ∧
   ∀ stale, CApi.run_call c stale = (r, g')) ∧
  (r = CApi.nothing → g' = g).
Proof.
  intros E. destruct c; cbn in E; unfold_api.
  all: repeat case_match; simplify_eq; cbn.
  all: split_and!; try done; try lia.
  all: try (intros _; split; [first [by left | right; cbn; lia | by right]|]).
  all: try (intros stale; cbn; unfold_api;
            repeat match goal with
                   | E : _ = _ |- _ => rewrite E
                   end; done).
Qed.

Lemma slot_of_insert t g (slots : gmap nat string) :
  CApi.slot_of t (<[t := g]> slots) = g.
Proof. unfold CApi.slot_of. by rewrite lookup_insert_eq. Qed.

Lemma slot_of_insert_ne t t' g (slots : gmap nat string) :
  t' ≠ t → CApi.slot_of t' (<[t := g]> slots) = CApi.slot_of t' slots.
Proof.
  intros Hne. unfold CApi.slot_of. by rewrite lookup_insert_ne.
Qed.

(** X23.  The error-slot protocol as far as the code keeps it.  For a
    call on thread [t] that returns a status or a handle: if it succeeds, the slot of [t] is empty and
    [db_c_last_error] on [t] answers null; if it fails, the slot of [t]
    has been overwritten, whatever it held before, and
    [db_c_last_error] on [t] answers the stored message provided the
    message is not the empty string.  [SetError] followed by
    [db_c_last_error] answers the message set unless it is empty, in
    which case it answers null.  The slot of every other thread is as
    it was. *)
Theorem error_slot_protocol (c : CApi.api_call) (t : nat)
    (slots : gmap nat string) r slots' :
  CApi.call_on_thread t c slots = (r, slots') →
  (CApi.succeeded r →
   CApi.slot_of t slots' = "" ∧ CApi.last_error_on_thread t slots' = None) ∧
  (CApi.failed r →
   (∀ stale, CApi.call_on_thread t c (<[t := stale]> slots) = (r, slots')) ∧
   (CApi.slot_of t slots' ≠ "" →
    CApi.last_error_on_thread t slots' = Some (CApi.slot_of t slots'))) ∧
  (∀ message g,
     CApi.db_c_last_error (CApi.SetError (Some message) g).2 =
     if decide (message = "") then None else Some message) ∧
  (∀ t', t' ≠ t → CApi.slot_of t' slots' = CApi.slot_of t' slots).
Proof.
  unfold CApi.call_on_thread, CApi.last_error_on_thread.
  destruct (CApi.run_call c (CApi.slot_of t slots)) as [r0 g'] eqn:E.
  intros [= <- <-].
  destruct (run_call_protocol _ _ _ _ E) as (Hok & Hover & _).
  rewrite slot_of_insert. split_and!.
  - intros Hs. rewrite (Hok Hs). done.
  - intros Hf. assert (r0 ≠ CApi.nothing) as Hr by (by destruct r0).
    destruct (Hover Hr) as [_ Hstale]. split.
    + intros stale. rewrite slot_of_insert, (Hstale stale).
      by rewrite insert_insert_eq.
    + intros Hne. unfold CApi.db_c_last_error. by rewrite decide_False.
  - intros message g. done.
  - intros t' Hne. by apply slot_of_insert_ne.
Qed.

End ErrorChannel.

Lemma error_slot_protocol_example :
  let c := CApi.builder_set_key (H := Scripted.cooperative) None (Some "K") in
  let slots : gmap nat string := {[ 1%nat := "older failure" ]} in
  let slots' : gmap nat string :=
    <[ 0%nat := "builder pointer is null" ]> slots in
  (CApi.succeeded (CApi.status (-1)) →
   CApi.slot_of 0 slots' = "" ∧ CApi.last_error_on_thread 0 slots' = None) ∧
  (CApi.failed (CApi.status (-1)) →
   (∀ stale,
      CApi.call_on_thread 0 c (<[0%nat := stale]> slots) =
      (CApi.status (-1), slots')) ∧
   (CApi.slot_of 0 slots' ≠ "" →
    CApi.last_error_on_thread 0 slots' = Some (CApi.slot_of 0 slots'))) ∧
  (∀ message g,
     CApi.db_c_last_error (CApi.SetError (Some message) g).2 =
     if decide (message = "") then None else Some message) ∧
  (∀ t', t' ≠ 0%nat → CApi.slot_of t' slots' = CApi.slot_of t' slots).
Proof.
  intros c slots slots'.
  apply (error_slot_protocol (H := Scripted.cooperative) c 0 slots).
  reflexivity.
Defined.

(** C2 at the input where the code departs from it: a failing call
    whose exception carries an empty [what()].  With the key read from an
    environment whose failure has an empty message, the setter returns
    -1, yet the slot of the thread is empty and [db_c_last_error] answers
    null on it, as after a success. *)
Lemma failure_with_empty_message_reads_as_no_error :
  let '(r, slots') :=
    CApi.call_on_thread 0
      (CApi.builder_set_key_from_env (H := Scripted.mute)
         (Some {| CApi.builder := Builder |}))
      ∅ in
  r = CApi.status (-1) ∧ CApi.failed r ∧
  CApi.slot_of 0 slots' = "" ∧
  CApi.last_error_on_thread 0 slots' = None.
Proof. cbn. repeat split; try done. Qed.

(** ** Validation of symbol lists *)

Section SymbolValidation.
Context `{Engine}.

Lemma CopyStrings_loop_null symbols count :
  ∀ i acc,
    (∃ j, (i ≤ j < i + count)%nat ∧ entry_at symbols j = None) →
    CApi.CopyStrings_loop symbols i count acc =
    Throws (StdException "symbol list contains a null entry").
Proof.
  induction count as [|count IH]; intros i acc (j & Hj & Hnull).
  - lia.
  - cbn. fold (entry_at symbols i).
    destruct (entry_at symbols i) as [v|] eqn:Ei; [|done].
    apply IH. exists j. split; [|done].
    destruct (decide (j = i)) as [->|]; [congruence | lia].
Qed.

Lemma CopyStrings_null symbols count :
  has_null_entry symbols count →
  CApi.CopyStrings symbols count =
  Throws (StdException "symbol list contains a null entry").
Proof.
  intros Hnull. apply CopyStrings_loop_null.
  destruct Hnull as [[-> Hpos]|(l & i & -> & Hi & Hnull)].
  - exists 0%nat. split; [lia | done].
  - exists i. split; [lia|]. cbn. by rewrite Hnull.
Qed.

Lemma CopyStrings_loop_all (l : list string) :
  ∀ (pre : list string) acc,
    CApi.CopyStrings_loop (Some (Some <$> (pre ++ l)))
      (List.length pre) (List.length l) acc = Returns (acc ++ l).
Proof.
  induction l as [|v l IH]; intros pre acc; cbn.
  - by rewrite app_nil_r.
  - rewrite list_lookup_fmap, lookup_app_r by done.
    rewrite Nat.sub_diag. cbn.
    specialize (IH (pre ++ [v]) (acc ++ [v])).
    rewrite <- !app_assoc in IH. cbn in IH.
    rewrite length_app in IH. cbn in IH.
    replace (List.length pre + 1)%nat with (S (List.length pre)) in IH
      by lia.
    exact IH.
Qed.

(** Every entry non-null: the copy succeeds, also for the empty list
    and for empty strings. *)
Lemma CopyStrings_all (l : list string) :
  CApi.CopyStrings (Some (Some <$> l)) (List.length l) = Returns l.
Proof. exact (CopyStrings_loop_all l [] []). Qed.

Lemma deref_eta (client : option CApi.db_c_live_threaded) c :
  CApi.deref client = Some c →
  client = Some {| CApi.client := Some c |}.
Proof. destruct client as [[[c0|]]|]; cbn; congruence. Qed.

Lemma call_on_rejected {A} u (e : exn) (m : A → method LiveThreaded ())
    c g :
  CApi.call_on u (Throws e) m c g =
  (-1, match e with StdException what => what | UnknownException => u end,
   Some {| CApi.client := Some c |}).
Proof. unfold CApi.call_on. by destruct e. Qed.

Lemma any_blank_elem (l : list (option string)) e :
  e ∈ l → Wrapper.IsNullOrWhiteSpace e = true → Wrapper.any_blank l = true.
Proof.
  induction 1 as [e l|e e' l _ IH]; intros He; cbn.
  - by rewrite He.
  - rewrite IH by done. by rewrite orb_true_r.
Qed.

Lemma ValidateSymbols_rejects symbols :
  blank_symbols symbols →
  ∃ e, Wrapper.ValidateSymbols symbols = Wrapper.Raise e ∧
       is_argument_error e.
Proof.
  intros [-> | [-> | (l & e & -> & Hin & Hblank)]];
    [cbn; eexists; split; [reflexivity | exact I]..|].
  unfold Wrapper.ValidateSymbols.
  destruct (decide (List.length l = 0%nat));
    [eexists; split; [reflexivity | exact I]|].
  rewrite (any_blank_elem l e) by done.
  eexists; split; [reflexivity | exact I].
Qed.

(** C4, as the code has it.  A symbol array with a null entry among
    its first [count] entries makes each subscribe function of the C
    ABI return -1 and leave the session object as it was, the engine
    not having been called; on a valid session handle the slot reads
    "symbol list contains a null entry".  The C ABI checks nothing
    else: an array of non-null entries, empty or with empty strings, is
    copied and handed on.  The managed [SubscribeTrades] throws an
    argument exception and leaves the client untouched for an array
    that is null or empty or holds a null, empty or white-space
    entry. *)
Theorem symbol_validation (symbols : option (list (option string)))
    (count : nat) :
  (has_null_entry symbols count →
   ∀ client schema stype_in start_unix_nanos start g,
     let rejected (out : Z * string * option CApi.db_c_live_threaded) :=
       out.1.1 = -1 ∧ out.2 = client ∧
       (is_Some (CApi.deref client) →
        out.1.2 = "symbol list contains a null entry") in
     rejected
       (CApi.db_c_live_threaded_subscribe client symbols count schema
          stype_in g) ∧
     rejected
       (CApi.db_c_live_threaded_subscribe_from_unix client symbols count
          schema stype_in start_unix_nanos g) ∧
     rejected
       (CApi.db_c_live_threaded_subscribe_from_str client symbols count
          schema stype_in (Some start) g) ∧
     rejected
       (CApi.db_c_live_threaded_subscribe_with_snapshot client symbols
          count schema stype_in g)) ∧
  (blank_symbols symbols →
   ∀ symbolType _impl,
     ∃ e, Wrapper.SubscribeTrades symbols symbolType _impl =
          (Wrapper.Raise e, _impl) ∧ is_argument_error e) ∧
  (∀ l : list string,
     CApi.CopyStrings (Some (Some <$> l)) (List.length l) = Returns l).
Proof.
  split_and!.
  - intros Hnull client schema stype_in start_unix_nanos start g rejected.
    pose proof (CopyStrings_null _ _ Hnull) as Hcopy.
    unfold rejected, CApi.db_c_live_threaded_subscribe,
      CApi.db_c_live_threaded_subscribe_from_unix,
      CApi.db_c_live_threaded_subscribe_from_str,
      CApi.db_c_live_threaded_subscribe_with_snapshot.
    rewrite Hcopy.
    destruct (CApi.deref client) as [c|] eqn:Hd.
    + rewrite !call_on_rejected. rewrite (deref_eta _ _ Hd). cbn.
      by split_and!.
    + cbn. split_and!; try done; by intros [? ?].
  - intros Hblank symbolType _impl.
    destruct (ValidateSymbols_rejects _ Hblank) as (e & He & Harg).
    exists e. unfold Wrapper.SubscribeTrades. by rewrite He.
  - apply CopyStrings_all.
Qed.

End SymbolValidation.

Lemma symbol_validation_example :
  let symbols := Some [Some "ES.FUT"; None] in
  let session := Some (Scripted.session [["NQ.FUT"]]) in
  has_null_entry symbols 2 ∧ blank_symbols symbols ∧
  CApi.db_c_live_threaded_subscribe session symbols 2 4 1 "" =
  (-1, "symbol list contains a null entry", session) ∧
  ∃ e, Wrapper.SubscribeTrades (H := Scripted.cooperative) symbols 1
         (Some (Wrapper.NativeState_new "K" "GLBX.MDP3")) =
       (Wrapper.Raise e, Some (Wrapper.NativeState_new "K" "GLBX.MDP3")) ∧
       is_argument_error e.
Proof.
  intros symbols session.
  assert (has_null_entry symbols 2) as Hnull.
  { right. exists [Some "ES.FUT"; None], 1%nat.
    split_and!; [reflexivity | lia | reflexivity]. }
  assert (blank_symbols symbols) as Hblank.
  { right; right. exists [Some "ES.FUT"; None], None.
    split_and!; [reflexivity | | reflexivity].
    apply list_elem_of_further, list_elem_of_here. }
  destruct (symbol_validation (H := Scripted.cooperative) symbols 2)
    as (HC & HW & _).
  split_and!; [done | done | | by apply HW].
  destruct (HC Hnull session 4 1 0 "" "") as ((Hz & Hobj & Hmsg) & _).
  destruct (CApi.db_c_live_threaded_subscribe session symbols 2 4 1 "")
    as [[z g] o].
  cbn in Hz, Hobj, Hmsg. rewrite Hz, Hobj, Hmsg; [reflexivity | by eexists].
Defined.

(** The claim of C4 fails on the code for the C ABI: an empty symbol
    list, and a list holding an empty string, pass the copy and reach the
    engine, and the call returns 0. *)
Lemma c_api_subscribes_blank_symbols :
  CApi.db_c_live_threaded_subscribe (Some (Scripted.session [])) (Some [])
    0 4 1 "" =
  (0, "", Some (Scripted.session [[]])) ∧
  CApi.db_c_live_threaded_subscribe (Some (Scripted.session []))
    (Some [Some ""]) 1 4 1 "" =
  (0, "", Some (Scripted.session [[""]])).
Proof. split; reflexivity. Qed.

(** ** Building a session from a builder *)

Section BuildSession.
Context `{Engine}.

(** C5, as the code has it.  [db_c_live_builder_build_threaded] keeps
    no mark of consumption.  On a non-null builder it returns a session
    exactly when the engine's [BuildThreaded] returns one, and the
    builder behind the handle is as the engine left it.  So when the
    engine builds a session and leaves the builder as it was, a second
    call on the same builder returns a session again, with the error
    slot empty. *)
Theorem build_threaded_keeps_builder (b : CApi.db_c_live_builder)
    (session : LiveThreaded) (g : string) :
  BuildThreaded (CApi.builder b) = (Returns session, CApi.builder b) →
  let '(handle1, g1, builder1) :=
    CApi.db_c_live_builder_build_threaded (Some b) g in
  let '(handle2, g2, builder2) :=
    CApi.db_c_live_builder_build_threaded builder1 g1 in
  handle1 = Some {| CApi.client := Some session |} ∧ builder1 = Some b ∧
  handle2 = Some {| CApi.client := Some session |} ∧ builder2 = Some b ∧
  g2 = "" ∧ CApi.db_c_last_error g2 = None.
Proof.
  intros Hbuild. unfold CApi.db_c_live_builder_build_threaded.
  unfold CApi.native_builder. rewrite Hbuild. cbn.
  destruct b as [lb]. cbn in *. rewrite Hbuild. cbn. done.
Qed.

End BuildSession.

Lemma build_threaded_keeps_builder_example :
  let b := Scripted.configured [("dataset", "GLBX.MDP3"); ("key", "K")] in
  let '(handle1, g1, builder1) :=
    CApi.db_c_live_builder_build_threaded (Some b) "stale" in
  let '(handle2, g2, builder2) :=
    CApi.db_c_live_builder_build_threaded builder1 g1 in
  handle1 = Some (Scripted.session []) ∧ builder1 = Some b ∧
  handle2 = Some (Scripted.session []) ∧ builder2 = Some b ∧
  g2 = "" ∧ CApi.db_c_last_error g2 = None.
Proof.
  intros b.
  apply (build_threaded_keeps_builder (H := Scripted.cooperative) b []
           "stale").
  reflexivity.
Defined.

(** The claim of C5 fails on the code: after a builder configured with
    key and dataset has produced a session, a second build on the same
    builder returns a second session and records no error. *)
Lemma second_build_is_not_rejected :
  let '(r0, g0, b0) :=
    CApi.db_c_live_builder_set_key (H := Scripted.cooperative)
      (CApi.db_c_live_builder_new (Returns ()) "").1 (Some "K") "" in
  let '(r1, g1, b1) :=
    CApi.db_c_live_builder_set_dataset b0 (Some "GLBX.MDP3") g0 in
  let '(session1, g2, b2) := CApi.db_c_live_builder_build_threaded b1 g1 in
  let '(session2, g3, b3) := CApi.db_c_live_builder_build_threaded b2 g2 in
  r0 = 0 ∧ r1 = 0 ∧ is_Some session1 ∧ is_Some session2 ∧
  CApi.db_c_last_error g3 = None.
Proof. cbn. split_and!; try done; by eexists. Qed.

(** ** Record dispatch and symbol resolution *)

Section Dispatch.
Context `{Engine}.

Lemma ToManagedString_id value : Wrapper.ToManagedString value = value.
Proof. unfold Wrapper.ToManagedString. by case_decide. Qed.

Lemma last_mapped_none id records current :
  Forall (λ r, is_mapping_for id r = false) records →
  last_mapped id records current = current.
Proof.
  induction 1 as [|r rest Hr _ IH] in current |- *; [done|].
  cbn. rewrite Hr. rewrite IH. by destruct (msg r).
Qed.

Lemma last_mapped_app id l1 l2 current :
  last_mapped id (l1 ++ l2) current =
  last_mapped id l2 (last_mapped id l1 current).
Proof. induction l1 as [|r l1 IH] in current |- *; [done|]. apply IH. Qed.

(** [most_recent_mapping] is what its name says. *)
Lemma most_recent_mapping_found id before mapping symbol between :
  msg mapping = SymbolMappingMsg symbol →
  databento.instrument_id (Header mapping) = id →
  Forall (λ r, is_mapping_for id r = false) between →
  most_recent_mapping id (before ++ mapping :: between) = symbol.
Proof.
  intros Hmsg Hid Hnone. unfold most_recent_mapping.
  rewrite last_mapped_app. cbn. rewrite last_mapped_none by done.
  unfold is_mapping_for. rewrite Hmsg. by rewrite bool_decide_eq_true_2.
Qed.

Lemma most_recent_mapping_absent id prior :
  Forall (λ r, is_mapping_for id r = false) prior →
  most_recent_mapping id prior = "".
Proof. apply last_mapped_none. Qed.

Lemma dispatch_resolved cb record (state : Wrapper.NativeState) id :
  resolved (Wrapper.symbol_map (Wrapper.dispatch cb record state).1.2) id =
  last_mapped id [record] (resolved (Wrapper.symbol_map state) id).
Proof.
  unfold Wrapper.dispatch, is_mapping_for. cbn.
  unfold is_mapping_for.
  destruct (msg record) as [sym| |hb| |]; cbn;
    try destruct hb; try destruct (ToString record); cbn; try done.
  all: unfold resolved, PitSymbolMap.OnSymbolMapping;
    case_bool_decide as Hid;
    [rewrite Hid; by rewrite lookup_insert_eq
    |by rewrite lookup_insert_ne].
Qed.

(** While no stop is requested and a callback is set, the record
    handler dispatches and answers continue. *)
Lemma recordHandler_in_run cb record (state : Wrapper.NativeState) :
  Wrapper.stop_requested state = false →
  Wrapper.callback state = Some cb →
  Wrapper.recordHandler record state =
  (Returns KeepGoing.Continue, (Wrapper.dispatch cb record state).1.2,
   (Wrapper.dispatch cb record state).2).
Proof.
  intros Hstop Hcb.
  unfold Wrapper.recordHandler, Wrapper.recordHandler_among.
  rewrite Hstop, Hcb.
  pose proof (dispatch_keeps_flags cb record state) as (Hs & _).
  destruct (Wrapper.dispatch cb record state) as [[r state'] events].
  cbn in *. by rewrite Hs, Hstop.
Qed.

Lemma deliver_in_run cb records (state : Wrapper.NativeState) :
  Wrapper.stop_requested state = false →
  Wrapper.callback state = Some cb →
  let final := (Wrapper.deliver records state).1 in
  Wrapper.stop_requested final = false ∧
  Wrapper.callback final = Some cb ∧
  ∀ id, resolved (Wrapper.symbol_map final) id =
        last_mapped id records (resolved (Wrapper.symbol_map state) id).
Proof.
  induction records as [|r rest IH] in state |- *; intros Hstop Hcb.
  - done.
  - cbn. rewrite (recordHandler_in_run cb) by done.
    pose proof (dispatch_keeps_flags cb r state) as (Hs & Hc & _).
    pose proof (dispatch_resolved cb r state) as Hres.
    destruct (Wrapper.dispatch cb r state) as [[o state'] events].
    cbn in *.
    destruct (IH state') as (Hs' & Hc' & Hres'); [congruence..|].
    destruct (Wrapper.deliver rest state') as [final more]. cbn in *.
    split_and!; [done..|]. intros id. by rewrite Hres', Hres.
Qed.

Lemma deliver_app cb l1 l2 (state : Wrapper.NativeState) :
  Wrapper.stop_requested state = false →
  Wrapper.callback state = Some cb →
  Wrapper.deliver (l1 ++ l2) state =
  ((Wrapper.deliver l2 (Wrapper.deliver l1 state).1).1,
   (Wrapper.deliver l1 state).2 ++
   (Wrapper.deliver l2 (Wrapper.deliver l1 state).1).2).
Proof.
  induction l1 as [|r l1 IH] in state |- *; intros Hstop Hcb.
  - cbn. by destruct (Wrapper.deliver l2 state).
  - cbn. rewrite (recordHandler_in_run cb) by done.
    pose proof (dispatch_keeps_flags cb r state) as (Hs & Hc & _).
    destruct (Wrapper.dispatch cb r state) as [[o state'] events].
    cbn in *. rewrite IH by congruence.
    destruct (Wrapper.deliver l1 state') as [mid ev1]. cbn.
    destruct (Wrapper.deliver l2 mid) as [final ev2]. cbn.
    by rewrite app_assoc.
Qed.

(** The events of one trade record. *)
Lemma dispatch_trade cb trade (state : Wrapper.NativeState) :
  msg trade = TradeMsg →
  (Wrapper.dispatch cb trade state).2 =
  match ToString trade with
  | Returns text =>
      [{| Wrapper.kind := "trade";
          Wrapper.instrumentId := databento.instrument_id (Header trade);
          Wrapper.symbol :=
            resolved (Wrapper.symbol_map state)
              (databento.instrument_id (Header trade));
          Wrapper.text := text |}]
  | Throws _ => []
  end.
Proof.
  intros Hmsg. unfold Wrapper.dispatch. rewrite Hmsg.
  destruct (ToString trade) as [text|e]; [|done].
  cbn. rewrite !ToManagedString_id.
  unfold resolved, PitSymbolMap.At.
  by destruct (Wrapper.symbol_map state !! _).
Qed.

(** C6.  In a run that starts with an empty symbol map, with a
    callback set and no stop requested, the records before a trade
    record are all dispatched, and the trade record is dispatched too:
    the handler answers continue, and the event sent for it (one
    event, when the record serialises) is a "trade" event with the
    record's instrument id and, as symbol, the symbol of the most
    recent mapping record for that id among the records before it, the
    empty string when there is none.  The lookup failing never fails
    the dispatch. *)
Theorem trade_symbol_resolution cb (state : Wrapper.NativeState)
    (prior later : list Record) (trade : Record) :
  Wrapper.stop_requested state = false →
  Wrapper.callback state = Some cb →
  Wrapper.symbol_map state = ∅ →
  msg trade = TradeMsg →
  let id := databento.instrument_id (Header trade) in
  let reached := (Wrapper.deliver prior state).1 in
  (Wrapper.deliver (prior ++ trade :: later) state).2 =
  (Wrapper.deliver prior state).2 ++
  match ToString trade with
  | Returns text =>
      [{| Wrapper.kind := "trade"; Wrapper.instrumentId := id;
          Wrapper.symbol := most_recent_mapping id prior;
          Wrapper.text := text |}]
  | Throws _ => []
  end ++
  (Wrapper.deliver later (Wrapper.deliver (prior ++ [trade]) state).1).2 ∧
  (Wrapper.recordHandler trade reached).1.1 = Returns KeepGoing.Continue ∧
  (Forall (λ r, is_mapping_for id r = false) prior →
   most_recent_mapping id prior = "") ∧
  (∀ before mapping symbol between,
     prior = before ++ mapping :: between →
     msg mapping = SymbolMappingMsg symbol →
     databento.instrument_id (Header mapping) = id →
     Forall (λ r, is_mapping_for id r = false) between →
     most_recent_mapping id prior = symbol).
Proof.
  intros Hstop Hcb Hmap Htrade id reached.
  destruct (deliver_in_run cb prior state Hstop Hcb) as (Hs & Hc & Hres).
  fold reached in Hs, Hc, Hres.
  split_and!.
  - replace (prior ++ trade :: later) with ((prior ++ [trade]) ++ later)
      by (by rewrite <- app_assoc).
    rewrite (deliver_app cb (prior ++ [trade]) later) by done. cbn.
    rewrite (deliver_app cb prior [trade]) by done. cbn.
    fold reached.
    rewrite (recordHandler_in_run cb trade reached) by done.
    rewrite <- app_assoc. f_equal.
    rewrite (surjective_pairing (Wrapper.dispatch cb trade reached)).
    rewrite (surjective_pairing (Wrapper.dispatch cb trade reached).1).
    cbn. rewrite app_nil_r. f_equal.
    rewrite (dispatch_trade cb trade reached Htrade).
    rewrite Hres, Hmap. unfold resolved. rewrite lookup_empty.
    done.
  - by rewrite (recordHandler_in_run cb trade reached).
  - apply most_recent_mapping_absent.
  - intros before mapping symbol between -> Hm Hid Hnone.
    by apply most_recent_mapping_found.
Qed.

End Dispatch.

Lemma trade_symbol_resolution_example :
  (Wrapper.deliver
     ([Scripted.mapping 100 "ESM4"; Scripted.mapping 7 "CLZ4";
       Scripted.mapping 100 "ESZ4"] ++ Scripted.trade 100 :: [])
     (Scripted.streaming Scripted.listening)).2 =
  [{| Wrapper.kind := "mapping"; Wrapper.instrumentId := 0;
      Wrapper.symbol := ""; Wrapper.text := "record" |};
   {| Wrapper.kind := "mapping"; Wrapper.instrumentId := 0;
      Wrapper.symbol := ""; Wrapper.text := "record" |};
   {| Wrapper.kind := "mapping"; Wrapper.instrumentId := 0;
      Wrapper.symbol := ""; Wrapper.text := "record" |};
   {| Wrapper.kind := "trade"; Wrapper.instrumentId := 100;
      Wrapper.symbol := "ESZ4"; Wrapper.text := "record" |}].
Proof.
  pose proof (trade_symbol_resolution (H := Scripted.cooperative)
                Scripted.listening (Scripted.streaming Scripted.listening)
                [Scripted.mapping 100 "ESM4"; Scripted.mapping 7 "CLZ4";
                 Scripted.mapping 100 "ESZ4"] [] (Scripted.trade 100)
                eq_refl eq_refl eq_refl eq_refl) as (Hevents & _).
  rewrite Hevents. reflexivity.
Defined.

(** ** Cooperative cancellation *)

Section StopRequest.
Context `{Engine}.

Lemma recordHandler_stop_requested others record
    (state : Wrapper.NativeState) :
  Wrapper.stop_requested state = true →
  Wrapper.recordHandler_among others record state =
  (Returns KeepGoing.Stop, Wrapper.set_running false state, []).
Proof.
  intros Hstop. unfold Wrapper.recordHandler_among. by rewrite Hstop.
Qed.

Lemma verdicts_all_stop records (state : Wrapper.NativeState) :
  Wrapper.stop_requested state = true →
  Forall (λ v, v = Returns KeepGoing.Stop) (Wrapper.verdicts records state).
Proof.
  induction records as [|r rest IH] in state |- *; intros Hstop; cbn.
  - constructor.
  - unfold Wrapper.recordHandler.
    rewrite recordHandler_stop_requested by done.
    constructor; [done|]. by apply IH.
Qed.

Lemma recordHandler_keeps_flag record (state : Wrapper.NativeState) :
  Wrapper.stop_requested (Wrapper.recordHandler record state).1.2 =
  Wrapper.stop_requested state.
Proof.
  unfold Wrapper.recordHandler, Wrapper.recordHandler_among.
  destruct (Wrapper.stop_requested state) eqn:Hstop; [done|].
  destruct (Wrapper.callback state) as [cb|] eqn:Hcb; [|done].
  pose proof (dispatch_keeps_flags cb record state) as (Hs & _).
  destruct (Wrapper.dispatch cb record state) as [[r state'] events].
  cbn in *. rewrite Hs, Hstop. cbn. congruence.
Qed.

(** C8.  The record handler loads the stop-requested flag first, for
    every record: when the flag is set it answers stop whatever the
    record and without dispatching, and leaves the flag set, so every
    later invocation answers stop as well.  When the flag becomes set
    while a record is being dispatched, by a store of another thread
    that lands before the second load, the handler answers stop
    although the record's events were sent.  It answers continue only
    if both loads found the flag clear.  The handler itself never
    changes the flag. *)
Theorem stop_request_observed (others : Wrapper.NativeState →
                                        Wrapper.NativeState)
    (record : Record) (state : Wrapper.NativeState) :
  (Wrapper.stop_requested state = true →
   Wrapper.recordHandler_among others record state =
   (Returns KeepGoing.Stop, Wrapper.set_running false state, []) ∧
   Wrapper.stop_requested (Wrapper.set_running false state) = true ∧
   ∀ records,
     Forall (λ v, v = Returns KeepGoing.Stop)
       (Wrapper.verdicts records state)) ∧
  (∀ cb,
     Wrapper.stop_requested state = false →
     Wrapper.callback state = Some cb →
     let dispatched := Wrapper.dispatch cb record state in
     Wrapper.stop_requested (others dispatched.1.2) = true →
     Wrapper.recordHandler_among others record state =
     (Returns KeepGoing.Stop,
      Wrapper.set_running false (others dispatched.1.2), dispatched.2)) ∧
  ((Wrapper.recordHandler_among others record state).1.1 =
   Returns KeepGoing.Continue →
   Wrapper.stop_requested state = false ∧
   ∃ cb, Wrapper.callback state = Some cb ∧
         Wrapper.stop_requested
           (others (Wrapper.dispatch cb record state).1.2) = false) ∧
  Wrapper.stop_requested (Wrapper.recordHandler record state).1.2 =
  Wrapper.stop_requested state.
Proof.
  split_and!; [| | |by apply recordHandler_keeps_flag].
  - intros Hstop. split_and!.
    + by apply recordHandler_stop_requested.
    + done.
    + intros records. by apply verdicts_all_stop.
  - intros cb Hstop Hcb dispatched Hlate.
    unfold Wrapper.recordHandler_among. rewrite Hstop, Hcb.
    fold dispatched. destruct dispatched as [[r state'] events].
    cbn in *. by rewrite Hlate.
  - unfold Wrapper.recordHandler_among.
    destruct (Wrapper.stop_requested state) eqn:Hstop; [done|].
    destruct (Wrapper.callback state) as [cb|] eqn:Hcb; [|done].
    destruct (Wrapper.dispatch cb record state) as [[r state'] events]
      eqn:Ed.
    cbn.
    destruct (Wrapper.stop_requested (others state')) eqn:Hlate; [done|].
    intros _. split; [done|]. exists cb. by rewrite Ed.
Qed.

End StopRequest.

Lemma stop_request_observed_example :
  let idle := Scripted.streaming Scripted.listening in
  let asked := Wrapper.set_stop_requested true idle in
  Wrapper.recordHandler (Scripted.trade 100) asked =
  (Returns KeepGoing.Stop, Wrapper.set_running false asked, []) ∧
  Wrapper.verdicts [Scripted.trade 100; Scripted.mapping 100 "ESZ4"] asked =
  [Returns KeepGoing.Stop; Returns KeepGoing.Stop] ∧
  (Wrapper.recordHandler_among (Wrapper.set_stop_requested true)
     (Scripted.trade 100) idle).1.1 = Returns KeepGoing.Stop ∧
  (Wrapper.recordHandler_among (Wrapper.set_stop_requested true)
     (Scripted.trade 100) idle).2 =
  [{| Wrapper.kind := "trade"; Wrapper.instrumentId := 100;
      Wrapper.symbol := ""; Wrapper.text := "record" |}].
Proof.
  intros idle asked.
  destruct (stop_request_observed (H := Scripted.cooperative) id
              (Scripted.trade 100) asked) as (Hset & _).
  destruct (Hset eq_refl) as (Hfirst & _).
  destruct (stop_request_observed (H := Scripted.cooperative)
              (Wrapper.set_stop_requested true) (Scripted.trade 100) idle)
    as (_ & Hlate & _).
  specialize (Hlate Scripted.listening eq_refl eq_refl eq_refl).
  split_and!; [exact Hfirst | reflexivity | by rewrite Hlate
              | by rewrite Hlate].
Defined.

(** ** Stop *)

Section StopSession.
Context `{Engine}.

Lemma Stop_resets (state : Wrapper.NativeState) :
  Wrapper.Stop (Some state) =
  Some (Wrapper.NativeState_new (Wrapper.api_key state)
          (Wrapper.dataset state)).
Proof.
  unfold Wrapper.Stop. cbn.
  destruct (Wrapper.client state) as [c|] eqn:Ec.
  - by destruct (BlockForStopFor 0 c).
  - unfold Wrapper.NativeState_new, Wrapper.set_stop_requested,
      Wrapper.set_symbol_map, Wrapper.set_callback, Wrapper.set_running.
    cbn. by rewrite Ec.
Qed.

Lemma LiveClient_new_never_started apiKey dataset state :
  Wrapper.LiveClient_new apiKey dataset = Wrapper.Ok (Some state) →
  never_started state ∧ Wrapper.client state = None.
Proof.
  unfold Wrapper.LiveClient_new. repeat case_match; try done.
  by intros [= <-].
Qed.

Lemma SubscribeTrades_never_started symbols symbolType
    (state : Wrapper.NativeState) r state' :
  never_started state →
  Wrapper.SubscribeTrades symbols symbolType (Some state) =
  (r, Some state') →
  never_started state'.
Proof.
  intros Hn. unfold Wrapper.SubscribeTrades, Wrapper.EnsureClient,
    Wrapper.EnsureClient_on.
  repeat case_match; simplify_eq; intros [= <- <-]; try done.
Qed.

(** C10, as the code has it.  [Stop] leaves a live session exactly as
    its constructor made it: running and stop-requested false, no
    callback, empty symbol map, no native client; a disposed session
    stays disposed.  Hence stopping twice is stopping once.  Before any
    [Start], [Stop] leaves the session idle and changes nothing but
    the native client, which it releases: it is a no-op when there is
    no native client. *)
Theorem stop_resets_and_is_idempotent (_impl : option Wrapper.NativeState) :
  Wrapper.Stop (Wrapper.Stop _impl) = Wrapper.Stop _impl ∧
  (_impl = None → Wrapper.Stop _impl = None) ∧
  (∀ state, _impl = Some state →
     Wrapper.Stop _impl =
     Some (Wrapper.NativeState_new (Wrapper.api_key state)
             (Wrapper.dataset state))) ∧
  (∀ state, _impl = Some state → never_started state →
     Wrapper.Stop _impl = Some (Wrapper.set_client None state) ∧
     (Wrapper.client state = None → Wrapper.Stop _impl = _impl)).
Proof.
  split_and!.
  - destruct _impl as [state|]; [|done]. by rewrite !Stop_resets.
  - by intros ->.
  - intros state ->. apply Stop_resets.
  - intros state -> (Hr & Hs & Hc & Hm). rewrite Stop_resets.
    destruct state as [k d c m cb r s]. cbn in *. subst.
    split; [done|]. by intros ->.
Qed.

End StopSession.

Lemma stop_resets_and_is_idempotent_example :
  let started := Scripted.streaming Scripted.listening in
  let fresh : @Wrapper.NativeState Scripted.cooperative :=
    Wrapper.NativeState_new "K" "GLBX.MDP3" in
  Wrapper.Stop (Some started) = Some fresh ∧
  Wrapper.Stop (Wrapper.Stop (Some started)) = Wrapper.Stop (Some started) ∧
  Wrapper.Stop (Some fresh) = Some fresh.
Proof.
  intros started fresh.
  destruct (stop_resets_and_is_idempotent (H := Scripted.cooperative)
              (Some started)) as (Htwice & _ & Hreset & _).
  destruct (stop_resets_and_is_idempotent (H := Scripted.cooperative)
              (Some fresh)) as (_ & _ & _ & Hidle).
  split_and!; [exact (Hreset started eq_refl) | exact Htwice |].
  apply (Hidle fresh eq_refl); [by repeat split | reflexivity].
Defined.

(** The claim of C10 fails on the code where the session has subscribed
    before any start: [Stop] is then not a no-op, it releases the native
    client and with it the subscription. *)
Lemma stop_before_start_releases_client :
  Wrapper.SubscribeTrades (H := Scripted.cooperative) (Some [Some "ES.FUT"])
    1 (Some (Wrapper.NativeState_new "K" "GLBX.MDP3")) =
  (Wrapper.Ok (), Some Scripted.subscribed) ∧
  Wrapper.Stop (Some Scripted.subscribed) =
  Some (Wrapper.NativeState_new "K" "GLBX.MDP3") ∧
  Wrapper.Stop (Some Scripted.subscribed) ≠ Some Scripted.subscribed.
Proof. split_and!; [reflexivity | reflexivity | discriminate]. Qed.

(** ** Start *)

Section StartSession.
Context `{Engine}.

(** [Start] run alone is its statements executed in order. *)
Lemma Start_as_steps callback (_impl : option Wrapper.NativeState) :
  Wrapper.start_run 10 callback Wrapper.at_entry _impl =
  Some (Wrapper.returned (Wrapper.Start callback _impl).1,
        (Wrapper.Start callback _impl).2).
Proof.
  destruct _impl as [state|], callback as [cb|]; try done.
  cbn. unfold Wrapper.EnsureClient_on.
  destruct (Wrapper.client state) as [c|] eqn:Ec; cbn.
  - unfold Wrapper.compare_exchange_strong.
    destruct (decide (Wrapper.running state = false)) as [Hr|Hr]; cbn.
    + rewrite Ec. cbn.
      destruct (LiveThreaded_Start _ c) as [[[]|[what|]] c']; by cbn.
    + done.
  - destruct (Wrapper.build_client state) as [c|[what|]]; cbn; try done.
    unfold Wrapper.compare_exchange_strong.
    destruct (decide (Wrapper.running state = false)) as [Hr|Hr]; cbn.
    + destruct (LiveThreaded_Start _ c) as [[[]|[what|]] c']; by cbn.
    + done.
Qed.

(** The engine's [Start] is reached only through the store that empties
    the symbol map. *)
Lemma reaches_engine_start callback pc (shared : option Wrapper.NativeState)
    pc' shared' began :
  Wrapper.start_step callback pc shared = Some (pc', shared', began) →
  pc' = Wrapper.at_engine_start →
  ∃ state, shared' = Some state ∧ Wrapper.symbol_map state = ∅.
Proof.
  unfold Wrapper.start_step, Wrapper.compare_exchange_strong.
  destruct pc; intros Hstep ->; destruct shared as [state|];
    cbn in Hstep; repeat case_match; simplify_eq.
  all: try by eexists.
  destruct (Wrapper.client state) as [c|]; cbn in Hstep; [|done].
  by repeat case_match.
Qed.

Lemma engine_start_sees_empty_map n callback pc
    (shared shared' : option Wrapper.NativeState) :
  Wrapper.start_run n callback pc shared =
  Some (Wrapper.at_engine_start, shared') →
  (n = 0%nat ∧ pc = Wrapper.at_engine_start ∧ shared' = shared) ∨
  ∃ state, shared' = Some state ∧ Wrapper.symbol_map state = ∅.
Proof.
  induction n as [|n IH] in pc, shared |- *; cbn.
  - intros [= -> ->]. by left.
  - destruct (Wrapper.start_step callback pc shared)
      as [[[pc1 shared1] began]|] eqn:Hstep; [|done].
    intros Hrun. right.
    destruct (IH _ _ Hrun) as [(_ & -> & ->)|Hdone]; [|done].
    by eapply reaches_engine_start.
Qed.

(** The events of a run up to and including a trade record. *)
Lemma deliver_then_trade cb (state : Wrapper.NativeState) prior trade :
  Wrapper.stop_requested state = false →
  Wrapper.callback state = Some cb →
  msg trade = TradeMsg →
  (Wrapper.deliver (prior ++ [trade]) state).2 =
  (Wrapper.deliver prior state).2 ++
  match ToString trade with
  | Returns text =>
      [{| Wrapper.kind := "trade";
          Wrapper.instrumentId := databento.instrument_id (Header trade);
          Wrapper.symbol :=
            last_mapped (databento.instrument_id (Header trade)) prior
              (resolved (Wrapper.symbol_map state)
                 (databento.instrument_id (Header trade)));
          Wrapper.text := text |}]
  | Throws _ => []
  end.
Proof.
  intros Hstop Hcb Htrade.
  destruct (deliver_in_run cb prior state Hstop Hcb) as (Hs & Hc & Hres).
  rewrite (deliver_app cb prior [trade]) by done. cbn. f_equal.
  rewrite (recordHandler_in_run cb trade _ Hs Hc).
  rewrite (surjective_pairing (Wrapper.dispatch cb trade _)).
  rewrite (surjective_pairing (Wrapper.dispatch cb trade _).1).
  cbn. rewrite app_nil_r.
  rewrite (dispatch_trade cb trade _ Htrade). by rewrite Hres.
Qed.

(** C9.  When [Start] succeeds, the session it leaves has an empty
    symbol map (and the new callback, no stop request, the running flag
    set), whatever the map held before; the statement that calls the
    engine's [Start] is only ever reached with the map already emptied;
    and in the new run a trade record resolves its symbol from the
    mapping records of this run alone. *)
Theorem start_resets_symbol_map cb (_impl _impl' : option Wrapper.NativeState) :
  Wrapper.Start (Some cb) _impl = (Wrapper.Ok (), _impl') →
  ∃ state',
    _impl' = Some state' ∧
    Wrapper.symbol_map state' = ∅ ∧
    Wrapper.callback state' = Some cb ∧
    Wrapper.stop_requested state' = false ∧
    Wrapper.running state' = true ∧
    (∀ n shared,
       Wrapper.start_run n (Some cb) Wrapper.at_entry _impl =
       Some (Wrapper.at_engine_start, shared) →
       ∃ state, shared = Some state ∧ Wrapper.symbol_map state = ∅) ∧
    (∀ prior trade,
       msg trade = TradeMsg →
       (Wrapper.deliver (prior ++ [trade]) state').2 =
       (Wrapper.deliver prior state').2 ++
       match ToString trade with
       | Returns text =>
           [{| Wrapper.kind := "trade";
               Wrapper.instrumentId := databento.instrument_id (Header trade);
               Wrapper.symbol :=
                 most_recent_mapping
                   (databento.instrument_id (Header trade)) prior;
               Wrapper.text := text |}]
       | Throws _ => []
       end).
Proof.
  intros Hstart.
  assert (∃ state',
            _impl' = Some state' ∧ Wrapper.symbol_map state' = ∅ ∧
            Wrapper.callback state' = Some cb ∧
            Wrapper.stop_requested state' = false ∧
            Wrapper.running state' = true)
    as (state' & -> & Hmap & Hcb & Hstop & Hrun).
  { destruct _impl as [state|]; [|done]. cbn in Hstart.
    destruct (Wrapper.EnsureClient_on state) as [[c|e] state1];
      [|done].
    unfold Wrapper.compare_exchange_strong in Hstart.
    destruct (decide (Wrapper.running state1 = false)); [|done].
    cbn in Hstart.
    destruct (LiveThreaded_Start _ c) as [[[]|[what|]] c']; [|done..].
    injection Hstart as <-. by eexists. }
  exists state'. split_and!; try done.
  - intros n shared Hreach.
    destruct (engine_start_sees_empty_map _ _ _ _ _ Hreach)
      as [(_ & [=] & _)|Hdone]; done.
  - intros prior trade Htrade.
    rewrite (deliver_then_trade cb state' prior trade) by done.
    unfold most_recent_mapping, resolved. by rewrite Hmap, lookup_empty.
Qed.

End StartSession.

Lemma start_resets_symbol_map_example :
  ∃ state',
    Wrapper.Start (Some Scripted.listening) (Some Scripted.halted) =
    (Wrapper.Ok (), Some state') ∧
    Wrapper.symbol_map state' = ∅ ∧
    (Wrapper.deliver ([] ++ [Scripted.trade 100]) state').2 =
    [{| Wrapper.kind := "trade"; Wrapper.instrumentId := 100;
        Wrapper.symbol := ""; Wrapper.text := "record" |}].
Proof.
  destruct (start_resets_symbol_map (H := Scripted.cooperative)
              Scripted.listening (Some Scripted.halted) _ eq_refl)
    as (state' & Heq & Hmap & _ & _ & _ & _ & Hrun).
  exists state'. split_and!.
  - by rewrite <- Heq.
  - exact Hmap.
  - by rewrite (Hrun [] (Scripted.trade 100) eq_refl).
Defined.

(** ** Two overlapping calls of Start *)

Section StartRace.
Context `{Engine}.

Lemma race_safe_sym (state : Wrapper.NativeState) a b n k s :
  race_safe state a b n k s → race_safe state b a n k s.
Proof. unfold race_safe. intuition lia. Qed.

Lemma race_inv_sym r0 (state : Wrapper.NativeState) a b n k s :
  race_inv r0 state a b n k s → race_inv r0 state b a n k s.
Proof.
  intros [Hsafe Hk]. split; [by apply race_safe_sym|].
  intros Hz. specialize (Hk Hz). intuition.
Qed.

Lemma successes_holders pc : (successes pc ≤ holders pc)%nat.
Proof. destruct pc as [| | | | | | | | | |[[]|]]; cbn; lia. Qed.

(** One statement of one caller keeps the count of the holders of the
    flag, whatever the engine answers, is never a null dereference nor a
    store to the client, and brings the caller closer to its return. *)
Lemma thread_step_safe cb (state : Wrapper.NativeState) a b n k s :
  race_safe state a b n k s →
  ∃ a' state' began,
    Wrapper.start_step (Some cb) a (Some state) =
    Some (a', Some state', began) ∧
    Wrapper.stores_client a = false ∧
    race_safe state' a' b (if began then S n else n) k s ∧
    (remaining a' < remaining a ∨ remaining a = 0 ∧ remaining a' = 0)%nat.
Proof.
  intros (Hcl & Hba & Hbb & Hs & Hh & Hn).
  destruct a as [|cb'|cb'|cb' built|cb'|cb'|cb'| | |e|r];
    try discriminate Hba.
  - eexists _, _, _. split; [reflexivity|]. split; [done|].
    split; [|cbn; lia]. unfold race_safe. cbn in *. by split_and!.
  - cbn. destruct Hcl as [c Ec]. rewrite Ec.
    eexists _, _, _. split; [reflexivity|]. split; [done|].
    split; [|cbn; lia]. unfold race_safe. cbn in *. rewrite Ec.
    by split_and!.
  - cbn. unfold Wrapper.compare_exchange_strong.
    destruct (Wrapper.running state) eqn:Er; cbn.
    + eexists _, _, _. split; [reflexivity|]. split; [done|].
      split; [|cbn; lia]. unfold race_safe, holders in *. cbn in *.
      split_and!; first [done | lia].
    + eexists _, _, _. split; [reflexivity|]. split; [done|].
      split; [|cbn; lia]. unfold race_safe, holders in *. cbn in *.
      split_and!; first [done | lia].
  - eexists _, _, _. split; [reflexivity|]. split; [done|].
    split; [|cbn; lia]. unfold race_safe. cbn in *. by split_and!.
  - eexists _, _, _. split; [reflexivity|]. split; [done|].
    split; [|cbn; lia]. unfold race_safe. cbn in *. by split_and!.
  - eexists _, _, _. split; [reflexivity|]. split; [done|].
    split; [|cbn; lia]. unfold race_safe. cbn in *. by split_and!.
  - cbn. destruct Hcl as [c Ec]. rewrite Ec. cbn.
    destruct (LiveThreaded_Start _ c) as [[[]|[what|]] c'];
      (eexists _, _, _; split; [reflexivity|]; split; [done|];
       split; [|cbn; lia]);
      unfold race_safe, holders in *; cbn in *;
      (split_and!; first [done | by eexists | lia]).
  - eexists _, _, _. split; [reflexivity|]. split; [done|].
    split; [|cbn; lia]. unfold race_safe, holders in *. cbn in *.
    destruct (Wrapper.running state);
      split_and!; first [done | lia].
  - eexists _, _, _. split; [reflexivity|]. split; [done|].
    split; [|cbn; lia]. done.
Qed.

(** A statement of the engine's thread never touches the native client,
    and touches the running flag only by storing [false] to it. *)
Lemma handler_step_frame call pc (state : Wrapper.NativeState) :
  let out := Wrapper.handler_step call pc state in
  Wrapper.client out.1.2 = Wrapper.client state ∧
  Wrapper.running out.1.2 =
  (if out.2 then false else Wrapper.running state).
Proof.
  destruct pc as [|record|record cb| |]; cbn.
  - destruct call as [record|what]; cbn; [|done].
    by destruct (Wrapper.stop_requested state).
  - by destruct (Wrapper.callback state).
  - pose proof (dispatch_keeps_flags cb record state)
      as (_ & _ & Hr & Hc).
    by destruct (Wrapper.dispatch cb record state) as [[r state'] events].
  - by destruct (Wrapper.stop_requested state).
  - done.
Qed.

Lemma engine_step_safe call pc (state : Wrapper.NativeState) a b n k s :
  race_safe state a b n k s →
  let out := Wrapper.handler_step call pc state in
  race_safe out.1.2 a b n (if out.2 then S k else k) s.
Proof.
  intros (Hcl & Hba & Hbb & Hs & Hh & Hn) out.
  destruct (handler_step_frame call pc state) as [Hc Hr].
  fold out in Hc, Hr. unfold race_safe. rewrite Hc, Hr.
  split_and!; try done.
  destruct out.2, (Wrapper.running state); lia.
Qed.

(** Every schedule of the two callers and the engine's thread can be
    run to its end, and the count holds there. *)
Lemma race_run_safe c1 c2 schedule (r : Wrapper.race) state :
  Wrapper.shared r = Some state →
  race_safe state (Wrapper.first r) (Wrapper.second r) (Wrapper.loops r)
    (Wrapper.resets r) (Wrapper.stores r) →
  ∃ r' state',
    Wrapper.race_run (Some c1) (Some c2) schedule r = Some r' ∧
    Wrapper.shared r' = Some state' ∧
    race_safe state' (Wrapper.first r') (Wrapper.second r')
      (Wrapper.loops r') (Wrapper.resets r') (Wrapper.stores r').
Proof.
  induction schedule as [|who schedule IH] in r, state |- *;
    intros Hshared Hsafe.
  - by exists r, state.
  - cbn. unfold Wrapper.race_step. rewrite Hshared.
    destruct who as [| |call].
    + destruct (thread_step_safe c1 _ _ _ _ _ _ Hsafe)
        as (a' & state' & began & -> & -> & Hsafe' & _).
      cbn. by apply (IH _ state').
    + apply race_safe_sym in Hsafe.
      destruct (thread_step_safe c2 _ _ _ _ _ _ Hsafe)
        as (a' & state' & began & -> & -> & Hsafe' & _).
      cbn. apply (IH _ state'); [done|]. by apply race_safe_sym.
    + pose proof (engine_step_safe call (Wrapper.engine_thread r) _ _ _ _
                    _ _ Hsafe) as Hsafe'.
      destruct (Wrapper.handler_step call (Wrapper.engine_thread r) state)
        as [[pc state'] stored].
      cbn. by apply (IH _ state').
Qed.

(** One statement of one caller keeps the invariant of the undisturbed
    race. *)
Lemma thread_step_inv r0 cb (state : Wrapper.NativeState) a b n k s :
  engine_starts →
  race_inv r0 state a b n k s →
  ∃ a' state' began,
    Wrapper.start_step (Some cb) a (Some state) =
    Some (a', Some state', began) ∧
    Wrapper.stores_client a = false ∧
    race_inv r0 state' a' b (if began then S n else n) k s ∧
    (remaining a' < remaining a ∨ remaining a = 0 ∧ remaining a' = 0)%nat.
Proof.
  intros Hengine [Hsafe Hk].
  destruct (thread_step_safe cb _ _ _ _ _ _ Hsafe)
    as (a' & state' & began & Hstep & Hst & Hsafe' & Hrem).
  exists a', state', began. split_and!; try done. split; [done|].
  intros Hz. specialize (Hk Hz) as (Ha & Hb & Hrun & Hr0 & Hexcl & Hla & Hlb).
  destruct Hsafe as (Hcl & Hba & Hbb & _).
  destruct a as [|cb'|cb'|cb' built|cb'|cb'|cb'| | |e|r];
    try discriminate Hba.
  - cbn in Hstep. simplify_eq. cbn in *. by split_and!.
  - cbn in Hstep. destruct Hcl as [c Ec]. rewrite Ec in Hstep.
    simplify_eq. cbn in *. by split_and!.
  - cbn in Hstep. unfold Wrapper.compare_exchange_strong in Hstep.
    destruct (Wrapper.running state) eqn:Er; case_decide; try done;
      cbn in Hstep; simplify_eq; cbn in *.
    + destruct Hrun as [Hrun _]. specialize (Hrun eq_refl).
      rewrite decide_True by done.
      split_and!.
      * done.
      * done.
      * split; [intros _|done].
        destruct Hrun as [?|[?|?]]; [by left | done | by right; right].
      * intros Hr. split; [done | by destruct (Hr0 Hr)].
      * by intros [? ?].
      * intros _. destruct Hrun as [?|[?|?]]; [by left | done | by right].
      * intros Hl. destruct (Hlb Hl) as [?|?]; [by left | done].
    + destruct Hrun as [_ Hrun].
      assert (r0 ≠ true) as Hnot0 by (intros ->; discriminate Hrun; tauto).
      assert (phase_of b ≠ winning) as Hnw
        by (intros Hw; discriminate Hrun; tauto).
      split_and!; first [done | tauto].
  - cbn in Hstep. simplify_eq. cbn in *. by split_and!.
  - cbn in Hstep. simplify_eq. cbn in *. by split_and!.
  - cbn in Hstep. simplify_eq. cbn in *. by split_and!.
  - cbn in Hstep. destruct Hcl as [c Ec]. rewrite Ec in Hstep.
    cbn in Hstep. specialize (Hengine c).
    destruct (LiveThreaded_Start _ c) as [[[]|err] c']; [|done].
    simplify_eq. cbn in *. by split_and!.
  - by cbn in Ha.
  - cbn in Hstep. simplify_eq. by split_and!.
Qed.

Lemma engine_step_inv r0 call pc (state : Wrapper.NativeState) a b n k s :
  race_inv r0 state a b n k s →
  let out := Wrapper.handler_step call pc state in
  race_inv r0 out.1.2 a b n (if out.2 then S k else k) s.
Proof.
  intros [Hsafe Hk] out. split; [by apply engine_step_safe|].
  destruct (handler_step_frame call pc state) as [_ Hr].
  fold out in Hr. rewrite Hr.
  destruct out.2; [done|]. exact Hk.
Qed.

(** Every schedule can be run to its end; the invariant holds there, and
    each caller is as many statements closer to its return as it had
    turns. *)
Lemma race_run_inv r0 c1 c2 schedule (r : Wrapper.race) state :
  engine_starts →
  Wrapper.shared r = Some state →
  race_inv r0 state (Wrapper.first r) (Wrapper.second r) (Wrapper.loops r)
    (Wrapper.resets r) (Wrapper.stores r) →
  ∃ r' state',
    Wrapper.race_run (Some c1) (Some c2) schedule r = Some r' ∧
    Wrapper.shared r' = Some state' ∧
    race_inv r0 state' (Wrapper.first r') (Wrapper.second r')
      (Wrapper.loops r') (Wrapper.resets r') (Wrapper.stores r') ∧
    (remaining (Wrapper.first r') ≤
     remaining (Wrapper.first r) - turns true schedule)%nat ∧
    (remaining (Wrapper.second r') ≤
     remaining (Wrapper.second r) - turns false schedule)%nat.
Proof.
  intros Hengine.
  induction schedule as [|who schedule IH] in r, state |- *;
    intros Hshared Hinv.
  - exists r, state. cbn. split_and!; try done; lia.
  - cbn. unfold Wrapper.race_step. rewrite Hshared.
    destruct who as [| |call].
    + destruct (thread_step_inv r0 c1 _ _ _ _ _ _ Hengine Hinv)
        as (a' & state1 & began & -> & -> & Hinv1 & Hless).
      cbn.
      match goal with
      | |- context [Wrapper.race_run _ _ schedule ?r1] =>
          destruct (IH r1 state1 eq_refl Hinv1)
            as (r' & state' & Hrun & Hshared' & Hinv' & H1 & H2)
      end.
      exists r', state'. cbn in *. split_and!; try done; lia.
    + apply race_inv_sym in Hinv.
      destruct (thread_step_inv r0 c2 _ _ _ _ _ _ Hengine Hinv)
        as (a' & state1 & began & -> & -> & Hinv1 & Hless).
      cbn. apply race_inv_sym in Hinv1.
      match goal with
      | |- context [Wrapper.race_run _ _ schedule ?r1] =>
          destruct (IH r1 state1 eq_refl Hinv1)
            as (r' & state' & Hrun & Hshared' & Hinv' & H1 & H2)
      end.
      exists r', state'. cbn in *. split_and!; try done; lia.
    + pose proof (engine_step_inv r0 call (Wrapper.engine_thread r) _ _ _
                    _ _ _ Hinv) as Hinv1.
      destruct (Wrapper.handler_step call (Wrapper.engine_thread r) state)
        as [[pc state1] stored].
      cbn.
      match goal with
      | |- context [Wrapper.race_run _ _ schedule ?r1] =>
          destruct (IH r1 state1 eq_refl Hinv1)
            as (r' & state' & Hrun & Hshared' & Hinv' & H1 & H2)
      end.
      exists r', state'. cbn in *. by split_and!.
Qed.

Lemma remaining_0 pc : remaining pc = 0%nat → ∃ r, pc = Wrapper.returned r.
Proof. destruct pc; cbn; try lia. by eexists. Qed.

(** A thread that has returned without failing otherwise has either
    succeeded or been told that the session is already running. *)
Lemma returned_phase r :
  phase_of (Wrapper.returned r) ≠ failed →
  (r = Wrapper.Ok () ∧ phase_of (Wrapper.returned r) = winning) ∨
  (r = Wrapper.Raise already_running ∧
   phase_of (Wrapper.returned r) = lost).
Proof.
  destruct r as [[]|[m p|p|m|o]]; cbn; try done.
  - by left.
  - case_decide as Hm; [|done]. intros _. right. by rewrite Hm.
Qed.

Lemma Start_while_running cb (state : Wrapper.NativeState) :
  can_ensure state →
  Wrapper.running state = true →
  ∃ state',
    Wrapper.Start (Some cb) (Some state) =
    (Wrapper.Raise already_running, Some state') ∧
    Wrapper.running state' = true ∧
    (is_Some (Wrapper.client state) → state' = state).
Proof.
  intros Hens Hrun. cbn. unfold Wrapper.EnsureClient_on.
  destruct (Wrapper.client state) as [c|] eqn:Ec.
  - unfold Wrapper.compare_exchange_strong. rewrite Hrun. cbn.
    exists (Wrapper.set_running true state). split_and!; try done.
    intros _. destruct state. cbn in *. by subst.
  - destruct Hens as [[c Hc]|(c & Hbuild)]; [congruence|].
    rewrite Hbuild. unfold Wrapper.compare_exchange_strong. cbn.
    rewrite Hrun. cbn. eexists. by split_and!.
Qed.

(** The record handler run alone is its statements executed in order:
    at most five of them. *)
Lemma recordHandler_as_steps record (state : Wrapper.NativeState) :
  ∃ n, (n ≤ 5)%nat ∧
    Wrapper.handler_run n (Wrapper.on_record record) Wrapper.in_engine
      state =
    (Wrapper.in_engine, (Wrapper.recordHandler record state).1.2,
     match (Wrapper.recordHandler record state).1.1 with
     | Returns KeepGoing.Stop => true
     | _ => false
     end).
Proof.
  unfold Wrapper.recordHandler, Wrapper.recordHandler_among.
  destruct (Wrapper.stop_requested state) eqn:Es.
  { exists 2%nat. split; [lia|]. cbn. by rewrite Es. }
  destruct (Wrapper.callback state) as [cb|] eqn:Ecb.
  2:{ exists 3%nat. split; [lia|].
      by repeat (progress (cbn; rewrite ?Es, ?Ecb)). }
  destruct (Wrapper.dispatch cb record state) as [[r state'] events] eqn:Ed.
  cbn. destruct (Wrapper.stop_requested state') eqn:Es'.
  - exists 5%nat. split; [lia|].
    by repeat (progress (cbn; rewrite ?Es, ?Ecb, ?Ed, ?Es')).
  - exists 4%nat. split; [lia|].
    by repeat (progress (cbn; rewrite ?Es, ?Ecb, ?Ed, ?Es')).
Qed.

(** C3.  [Start] on a session whose running flag is set throws
    "already running" and leaves the flag set (and the whole session as
    it was, when the client existed), provided the native client exists
    or can be built.  For two overlapping [Start] calls on a session
    that holds its native client, whatever the order in which their
    statements and those of the engine's handlers are executed, and
    whatever the engine does: no statement faults, [EnsureClient] never
    stores, and the delivery loops begun are at most one more than the
    stores of [false] that the engine's thread has made to the running
    flag; as long as it has made none, the two calls never both
    succeed.  When moreover the engine's own [Start] returns normally,
    the engine's thread has made no such store, and each call has had
    the turns to finish, then on a session whose flag was set both calls
    have thrown "already running" and no loop has been begun, and on an
    idle session exactly one call has succeeded and the other has thrown
    "already running", one loop having been begun.  The decision is the
    single compare-and-set of the running flag.  The statements
    interleaved are those of the code: a caller left alone for ten of
    them has executed [Start], the engine's thread left alone for at
    most five has executed the record handler, and the exception
    handler is one statement. *)
Theorem start_is_exclusive (c1 c2 : Wrapper.RecordCallback)
    (state : Wrapper.NativeState) :
  (can_ensure state →
   Wrapper.running state = true →
   ∃ state',
     Wrapper.Start (Some c1) (Some state) =
     (Wrapper.Raise already_running, Some state') ∧
     Wrapper.running state' = true ∧
     (is_Some (Wrapper.client state) → state' = state)) ∧
  (is_Some (Wrapper.client state) →
   ∀ schedule,
     ∃ final,
       Wrapper.race_run (Some c1) (Some c2) schedule
         (Wrapper.race_begin (Some state)) = Some final ∧
       Wrapper.stores final = 0%nat ∧
       (Wrapper.loops final ≤ 1 + Wrapper.resets final)%nat ∧
       (Wrapper.resets final = 0%nat →
        ¬ (Wrapper.first final = Wrapper.returned (Wrapper.Ok ()) ∧
           Wrapper.second final = Wrapper.returned (Wrapper.Ok ()))) ∧
       (engine_starts →
        Wrapper.resets final = 0%nat →
        (10 ≤ turns true schedule)%nat →
        (10 ≤ turns false schedule)%nat →
        if Wrapper.running state
        then Wrapper.loops final = 0%nat ∧
             Wrapper.first final =
             Wrapper.returned (Wrapper.Raise already_running) ∧
             Wrapper.second final =
             Wrapper.returned (Wrapper.Raise already_running)
        else Wrapper.loops final = 1%nat ∧
             ((Wrapper.first final = Wrapper.returned (Wrapper.Ok ()) ∧
               Wrapper.second final =
               Wrapper.returned (Wrapper.Raise already_running)) ∨
              (Wrapper.first final =
               Wrapper.returned (Wrapper.Raise already_running) ∧
               Wrapper.second final = Wrapper.returned (Wrapper.Ok ()))))) ∧
  (∀ callback _impl,
     Wrapper.start_run 10 callback Wrapper.at_entry _impl =
     Some (Wrapper.returned (Wrapper.Start callback _impl).1,
           (Wrapper.Start callback _impl).2)) ∧
  (∀ record nativeState,
     ∃ n, (n ≤ 5)%nat ∧
       Wrapper.handler_run n (Wrapper.on_record record) Wrapper.in_engine
         nativeState =
       (Wrapper.in_engine,
        (Wrapper.recordHandler record nativeState).1.2,
        match (Wrapper.recordHandler record nativeState).1.1 with
        | Returns KeepGoing.Stop => true
        | _ => false
        end)) ∧
  (∀ what nativeState,
     Wrapper.handler_step (Wrapper.on_exception what) Wrapper.in_engine
       nativeState =
     (Wrapper.in_engine, (Wrapper.exceptionHandler what nativeState).2,
      true)).
Proof.
  split_and!; [| |apply Start_as_steps|apply recordHandler_as_steps|done].
  - intros Hens Hrun. by apply Start_while_running.
  - intros Hclient schedule.
    assert (race_safe state Wrapper.at_entry Wrapper.at_entry 0 0 0)
      as Hbegin.
    { unfold race_safe. cbn. split_and!; first [done | lia]. }
    destruct (race_run_safe c1 c2 schedule (Wrapper.race_begin (Some state))
                state eq_refl Hbegin)
      as (final & state' & Hrun & _ & Hsafe).
    destruct Hsafe as (_ & _ & _ & Hstores & Hcount & Hn).
    pose proof (successes_holders (Wrapper.first final)) as Hle1.
    pose proof (successes_holders (Wrapper.second final)) as Hle2.
    exists final. split_and!; [done|done| | |].
    + destruct (Wrapper.running state'); lia.
    + intros Hz [Hr1 Hr2]. rewrite Hr1, Hr2 in *. cbn in *.
      destruct (Wrapper.running state'); lia.
    + intros Hengine Hz Ht1 Ht2.
      assert (race_inv (Wrapper.running state) state Wrapper.at_entry
                Wrapper.at_entry 0 0 0) as Hinit.
      { split; [done|]. intros _. cbn. split_and!; try done.
        - split; [by left | by intros [?|[?|?]]].
        - by intros [? ?]. }
      destruct (race_run_inv (Wrapper.running state) c1 c2 schedule
                  (Wrapper.race_begin (Some state)) state Hengine eq_refl
                  Hinit)
        as (final' & state'' & Hrun' & _ & Hinv & Hfirst & Hsecond).
      assert (final' = final) as -> by congruence.
      destruct Hinv as [_ Hinv].
      destruct (Hinv Hz) as (Ha & Hb & _ & Hr0 & Hex & Hla & Hlb).
      cbn in Hfirst, Hsecond.
      destruct (remaining_0 (Wrapper.first final)) as [r1 Hr1]; [lia|].
      destruct (remaining_0 (Wrapper.second final)) as [r2 Hr2]; [lia|].
      rewrite Hr1, Hr2 in *.
      destruct (returned_phase r1 Ha) as [[-> Hp1]|[-> Hp1]];
        destruct (returned_phase r2 Hb) as [[-> Hp2]|[-> Hp2]];
        destruct (Wrapper.running state) eqn:Er.
      * exfalso. by apply Hex.
      * exfalso. by apply Hex.
      * exfalso. by destruct (Hr0 eq_refl).
      * split; [by rewrite Hn | by left].
      * exfalso. by destruct (Hr0 eq_refl).
      * split; [by rewrite Hn | by right].
      * by rewrite Hn.
      * exfalso. destruct (Hla Hp1) as [?|Hw]; [done|]. congruence.
Qed.

End StartRace.

Lemma start_is_exclusive_example :
  let state := Scripted.subscribed in
  let schedule :=
    [Wrapper.first_call; Wrapper.first_call; Wrapper.second_call;
     Wrapper.first_call; Wrapper.first_call; Wrapper.first_call;
     Wrapper.first_call; Wrapper.second_call; Wrapper.second_call;
     Wrapper.first_call;
     Wrapper.engine_runs
       (Wrapper.on_record (Scripted.mapping 100 "ESM4"));
     Wrapper.engine_runs
       (Wrapper.on_record (Scripted.mapping 100 "ESM4"));
     Wrapper.engine_runs
       (Wrapper.on_record (Scripted.mapping 100 "ESM4"));
     Wrapper.engine_runs
       (Wrapper.on_record (Scripted.mapping 100 "ESM4"));
     Wrapper.first_call; Wrapper.first_call; Wrapper.first_call;
     Wrapper.second_call; Wrapper.second_call; Wrapper.second_call;
     Wrapper.second_call; Wrapper.second_call; Wrapper.second_call;
     Wrapper.second_call] in
  ∃ final,
    Wrapper.race_run (Some Scripted.listening) (Some Scripted.throwing)
      schedule (Wrapper.race_begin (Some state)) = Some final ∧
    Wrapper.resets final = 0%nat ∧
    Wrapper.loops final = 1%nat ∧
    ((Wrapper.first final = Wrapper.returned (Wrapper.Ok ()) ∧
      Wrapper.second final =
      Wrapper.returned (Wrapper.Raise already_running)) ∨
     (Wrapper.first final =
      Wrapper.returned (Wrapper.Raise already_running) ∧
      Wrapper.second final = Wrapper.returned (Wrapper.Ok ()))).
Proof.
  intros state schedule.
  assert (engine_starts (H := Scripted.cooperative)) as Hengine
    by (intros c; reflexivity).
  assert (is_Some (Wrapper.client state)) as Hclient by (by eexists).
  destruct (start_is_exclusive (H := Scripted.cooperative)
              Scripted.listening Scripted.throwing state)
    as (_ & Hrace & _).
  destruct (Hrace Hclient schedule) as (final & Hrun & _ & _ & _ & Hdone).
  assert (Wrapper.resets final = 0%nat) as Hquiet.
  { vm_compute in Hrun. injection Hrun as <-. reflexivity. }
  exists final. split; [exact Hrun|]. split; [exact Hquiet|].
  apply (Hdone Hengine Hquiet); cbn; lia.
Defined.

(** The claim of C3 fails on the code: of two overlapping [Start]
    calls it is not always exactly one that succeeds.
    With the engine's thread clearing the running flag between the
    winner's return and the other call's compare-and-set (here through
    the exception handler), both calls succeed and the engine's [Start]
    is called twice.  With an engine whose [Start] throws, neither call
    succeeds: the loser of the compare-and-set is told that the client
    is already running, the winner reports the engine's error and gives
    the flag back, and the session is left idle. *)
Lemma overlapping_starts_are_not_exclusive :
  (∃ final,
     Wrapper.race_run (Some Scripted.listening) (Some Scripted.listening)
       ([Wrapper.second_call; Wrapper.second_call]
        ++ replicate 8 Wrapper.first_call
        ++ [Wrapper.engine_runs (Wrapper.on_exception "connection lost")]
        ++ replicate 8 Wrapper.second_call)
       (Wrapper.race_begin (Some Scripted.subscribed)) = Some final ∧
     Wrapper.first final = Wrapper.returned (Wrapper.Ok ()) ∧
     Wrapper.second final = Wrapper.returned (Wrapper.Ok ()) ∧
     Wrapper.loops final = 2%nat ∧ Wrapper.resets final = 1%nat) ∧
  (∃ final,
     Wrapper.race_run (Some Scripted.listening) (Some Scripted.listening)
       (replicate 7 Wrapper.first_call
        ++ replicate 3 Wrapper.second_call
        ++ [Wrapper.first_call])
       (Wrapper.race_begin (Some Scripted.refused)) = Some final ∧
     Wrapper.first final =
     Wrapper.returned
       (Wrapper.Raise (Wrapper.InvalidOperationException "gateway refused")) ∧
     Wrapper.second final =
     Wrapper.returned (Wrapper.Raise already_running) ∧
     Wrapper.loops final = 0%nat ∧ Wrapper.resets final = 0%nat ∧
     Wrapper.running <$> Wrapper.shared final = Some false).
Proof.
  split;
    match goal with
    | |- ∃ final, ?run = Some final ∧ _ =>
        let outcome := eval vm_compute in run in
        match outcome with
        | Some ?final => exists final
        end
    end;
    (split; [vm_compute; reflexivity|]); by repeat split.
Qed.

(** [EnsureClient] is not atomic.  On a session that holds no native
    client yet, two overlapping [Start] calls can both find
    [state.client] null, both build a client and both store theirs,
    before either reaches the compare-and-set: the second store replaces
    the client that the first call stored. *)
Lemma overlapping_starts_both_store_a_client :
  ∃ final,
    Wrapper.race_run (Some Scripted.listening) (Some Scripted.listening)
      [Wrapper.first_call; Wrapper.second_call;
       Wrapper.first_call; Wrapper.second_call;
       Wrapper.first_call; Wrapper.second_call;
       Wrapper.first_call; Wrapper.second_call]
      (Wrapper.race_begin (Some Scripted.fresh)) = Some final ∧
    Wrapper.stores final = 2%nat ∧
    Wrapper.first final = Wrapper.at_cas Scripted.listening ∧
    Wrapper.second final = Wrapper.at_cas Scripted.listening.
Proof.
  match goal with
  | |- ∃ final, ?run = Some final ∧ _ =>
      let outcome := eval vm_compute in run in
      match outcome with
      | Some ?final => exists final
      end
  end.
  split; [vm_compute; reflexivity|]. by repeat split.
Qed.

(** * Further properties of the C ABI *)

Section MoreCApi.
Context `{Engine}.

Ltac unfold_capi :=
  unfold CApi.db_c_live_builder_new, CApi.db_c_live_builder_free,
    CApi.db_c_live_builder_set_key,
    CApi.db_c_live_builder_set_key_from_env,
    CApi.db_c_live_builder_set_dataset,
    CApi.db_c_live_builder_set_dataset_enum,
    CApi.db_c_live_builder_set_send_ts_out,
    CApi.db_c_live_builder_set_upgrade_policy,
    CApi.db_c_live_builder_set_heartbeat_interval,
    CApi.db_c_live_builder_set_address,
    CApi.db_c_live_builder_set_buffer_size,
    CApi.db_c_live_builder_build_threaded,
    CApi.db_c_live_threaded_free,
    CApi.db_c_live_threaded_subscribe,
    CApi.db_c_live_threaded_subscribe_from_unix,
    CApi.db_c_live_threaded_subscribe_from_str,
    CApi.db_c_live_threaded_subscribe_with_snapshot,
    CApi.db_c_live_threaded_start,
    CApi.db_c_live_threaded_start_with_metadata,
    CApi.db_c_live_threaded_start_with_exceptions,
    CApi.db_c_live_threaded_reconnect,
    CApi.db_c_live_threaded_resubscribe,
    CApi.db_c_live_threaded_block_for_stop,
    CApi.db_c_live_threaded_block_for_stop_with_timeout,
    CApi.set_on, CApi.call_on, CApi.null_client, CApi.try_status,
    CApi.SetError, CApi.ClearError, CApi.native_builder in *.

(** A call through a handle that returns a status or a handle reports
    through the slot and does the same whatever the slot held; a [void]
    function leaves the slot alone. *)
Lemma shared_call_protocol (c : Shared.call) (m : Shared.store)
    (g : string) r g' m' :
  Shared.run_call c m g = Some (r, g', m') →
  (CApi.succeeded r → g' = "") ∧
  (Shared.reports_nothing c = false →
   (CApi.succeeded r ∨ CApi.failed r) ∧
   ∀ stale, Shared.run_call c m stale = Some (r, g', m')) ∧
  (Shared.reports_nothing c = true → g' = g).
Proof.
  intros E.
  destruct c; cbn in E;
    unfold Shared.on_builder, Shared.on_session, Shared.target in E;
    repeat match type of E with
           | context [match ?p with Some _ => _ | None => _ end] =>
               is_var p; destruct p; cbn in E
           end.
  all: repeat match type of E with
              | context [?objects !! ?a] =>
                  destruct (objects !! a) as [object|] eqn:Eo; cbn in E
              end; try discriminate E.
  all: unfold_capi; cbn in E.
  all: repeat case_match; simplify_eq; cbn.
  all: split_and!; try done; try lia.
  all: try (intros _; split; [first [by left | right; cbn; lia | by right]|]).
  all: try (intros stale; cbn;
            unfold Shared.on_builder, Shared.on_session, Shared.target;
            cbn; rewrite ?Eo; cbn; unfold_capi;
            repeat match goal with
                   | E : _ = _ |- _ => rewrite E
                   end; done).
Qed.

Lemma shared_call_other_thread t t' c (m : Shared.store)
    (slots : gmap nat string) r m' slots' :
  t' ≠ t →
  Shared.call_on_thread t' c m slots = Some (r, m', slots') →
  CApi.slot_of t slots' = CApi.slot_of t slots.
Proof.
  intros Hne. unfold Shared.call_on_thread.
  destruct (Shared.run_call c m _) as [[[r1 g1] m1]|]; [|done].
  intros [= <- <- <-]. by apply slot_of_insert_ne.
Qed.

(** The slot of a thread is as it was after any calls among which the
    thread's own report nothing. *)
Lemma silent_history_keeps_slot t history (m : Shared.store)
    (slots : gmap nat string) m' slots' :
  Shared.silent t history →
  Shared.run_history history m slots = Some (m', slots') →
  CApi.slot_of t slots' = CApi.slot_of t slots.
Proof.
  induction history as [|[t' c] rest IH] in m, slots |- *;
    intros Hsilent Hrun.
  - by injection Hrun as <- <-.
  - cbn in Hrun. apply Forall_cons in Hsilent as [Hhead Hrest].
    destruct (Shared.call_on_thread t' c m slots) as [[[r m1] slots1]|]
      eqn:Ecall; [|done].
    rewrite (IH _ _ Hrest Hrun).
    destruct (decide (t' = t)) as [->|Hne].
    + cbn in Hhead. specialize (Hhead eq_refl).
      unfold Shared.call_on_thread in Ecall.
      destruct (Shared.run_call c m _) as [[[r1 g1] m2]|] eqn:Erun;
        [|done].
      injection Ecall as <- <- <-.
      destruct (shared_call_protocol _ _ _ _ _ _ Erun) as (_ & _ & Hsame).
      rewrite (Hsame Hhead). unfold CApi.slot_of.
      rewrite lookup_insert_eq. done.
    + by eapply shared_call_other_thread.
Qed.

Lemma run_history_app before after (m : Shared.store)
    (slots : gmap nat string) :
  Shared.run_history (before ++ after) m slots =
  match Shared.run_history before m slots with
  | Some (m, slots) => Shared.run_history after m slots
  | None => None
  end.
Proof.
  induction before as [|[t c] rest IH] in m, slots |- *; [done|].
  cbn. by destruct (Shared.call_on_thread t c m slots) as [[[r m1] s1]|].
Qed.

(** X1.  Threads that share handles keep their error slots apart.  In
    any sequence of calls made by any number of threads through handles
    they may share, as long as no call uses a handle that is not live:
    a thread whose own calls in the sequence are only the two [free]
    functions ends with its slot as it was; otherwise the slot the
    thread ends with is the one written by its last call other than a
    [free], and that call's return value and slot are determined by the
    call and by the objects behind the handles at the moment it was
    made, whoever brought them to that state: not by what the slot held,
    and not by any call made afterwards.  If that call succeeded,
    [db_c_last_error] on the thread answers null; if it failed with a
    message that is not empty, it answers that message. *)
Theorem error_slot_is_per_thread (t : nat) (m : Shared.store)
    (slots : gmap nat string) :
  (∀ history m' slots',
     Shared.silent t history →
     Shared.run_history history m slots = Some (m', slots') →
     CApi.slot_of t slots' = CApi.slot_of t slots) ∧
  (∀ before c after m' slots',
     Shared.reports_nothing c = false →
     Shared.silent t after →
     Shared.run_history (before ++ (t, c) :: after) m slots =
     Some (m', slots') →
     ∃ m1 slots1 r g m2,
       Shared.run_history before m slots = Some (m1, slots1) ∧
       (∀ stale, Shared.run_call c m1 stale = Some (r, g, m2)) ∧
       Shared.run_history after m2 (<[t := g]> slots1) =
       Some (m', slots') ∧
       CApi.slot_of t slots' = g ∧
       (CApi.succeeded r ∨ CApi.failed r) ∧
       (CApi.succeeded r → CApi.last_error_on_thread t slots' = None) ∧
       (CApi.failed r → g ≠ "" →
        CApi.last_error_on_thread t slots' = Some g)).
Proof.
  split; [intros history m' slots'; apply silent_history_keeps_slot|].
  intros before c after m' slots' Hreports Hsilent Hrun.
  rewrite run_history_app in Hrun.
  destruct (Shared.run_history before m slots) as [[m1 slots1]|]; [|done].
  cbn in Hrun. unfold Shared.call_on_thread in Hrun.
  destruct (Shared.run_call c m1 _) as [[[r g] m2]|] eqn:Erun; [|done].
  destruct (shared_call_protocol _ _ _ _ _ _ Erun)
    as (Hok & Hover & _).
  destruct (Hover Hreports) as [Hstatus Hstale].
  pose proof (silent_history_keeps_slot _ _ _ _ _ _ Hsilent Hrun) as Hslot.
  rewrite slot_of_insert in Hslot.
  exists m1, slots1, r, g, m2. split_and!; try done.
  - intros Hsucc. unfold CApi.last_error_on_thread. rewrite Hslot.
    by rewrite (Hok Hsucc).
  - intros _ Hne. unfold CApi.last_error_on_thread. rewrite Hslot.
    unfold CApi.db_c_last_error. by rewrite decide_False.
Qed.

Lemma CopyStrings_loop_spec (l : list (option string)) count :
  ∀ i acc v,
    (i + count ≤ List.length l)%nat →
    CApi.CopyStrings_loop (Some l) i count acc = Returns v ↔
    ∃ w, take count (drop i l) = Some <$> w ∧ v = acc ++ w.
Proof.
  induction count as [|count IH]; intros i acc v Hlen.
  - cbn. rewrite take_0. split.
    + intros [= <-]. exists []. by rewrite app_nil_r.
    + intros (w & Hw & ->). destruct w; [|done]. by rewrite app_nil_r.
  - cbn.
    destruct (l !! i) as [entry|] eqn:Hi;
      [|apply lookup_ge_None in Hi; lia].
    rewrite (drop_S l entry i Hi). cbn.
    destruct entry as [name|]; cbn.
    + rewrite IH by lia. split.
      * intros (w & Hw & ->). exists (name :: w). cbn.
        rewrite Hw. by rewrite <- app_assoc.
      * intros (w & Hw & ->). destruct w as [|name' w]; [done|].
        cbn in Hw. injection Hw as <- Hw. exists w.
        by rewrite <- app_assoc.
    + split; [done|]. intros (w & Hw & _). by destruct w.
Qed.

Lemma null_or_all_names (k : list (option string)) :
  None ∈ k ∨ ∃ v : list string, k = Some <$> v.
Proof.
  induction k as [|[name|] k IH].
  - right. by exists [].
  - destruct IH as [Hin|(v & ->)].
    + left. by apply list_elem_of_further.
    + right. by exists (name :: v).
  - left. apply list_elem_of_here.
Qed.

(** X2.  On an array of at least [count] entries, [CopyStrings] returns
    a vector exactly when none of the first [count] entries is null, and
    the vector then holds those entries, in order and unaltered; it
    throws "symbol list contains a null entry" exactly when one of them
    is null. *)
Theorem CopyStrings_spec (l : list (option string)) (count : nat) :
  (count ≤ List.length l)%nat →
  (∀ v, CApi.CopyStrings (Some l) count = Returns v ↔
        take count l = Some <$> v) ∧
  (CApi.CopyStrings (Some l) count =
   Throws (StdException "symbol list contains a null entry") ↔
   None ∈ take count l).
Proof.
  intros Hlen.
  assert (∀ v, CApi.CopyStrings (Some l) count = Returns v ↔
               take count l = Some <$> v) as Hiff.
  { intros v. unfold CApi.CopyStrings.
    rewrite CopyStrings_loop_spec by (cbn; lia).
    rewrite drop_0. split.
    - by intros (w & Hw & ->).
    - intros Hv. by exists v. }
  split; [done|]. split.
  - intros Hthrow.
    destruct (null_or_all_names (take count l)) as [Hin|(v & Hv)]; [done|].
    apply Hiff in Hv. congruence.
  - intros Hin. apply CopyStrings_null. right.
    apply list_elem_of_lookup in Hin as [i Hi].
    exists l, i. split; [done|].
    pose proof (lookup_lt_Some _ _ _ Hi) as Hlt.
    rewrite length_take in Hlt.
    rewrite lookup_take_lt in Hi by lia. split; [lia | done].
Qed.

End MoreCApi.

Lemma error_slot_is_per_thread_example :
  let m : @Shared.store Scripted.cooperative :=
    @Shared.Build_store Scripted.cooperative ∅ ∅ in
  let before :=
    [(0%nat, Shared.builder_new (Returns ()));
     (1%nat, Shared.builder_set_key (Some 0%nat) (Some "K"));
     (0%nat, Shared.builder_build_threaded (Some 0%nat))] in
  let c := Shared.builder_set_dataset (Some 0%nat) None in
  let after :=
    [(0%nat, Shared.threaded_reconnect (Some 0%nat));
     (1%nat, Shared.builder_free (Some 0%nat))] in
  ∃ m' slots',
    Shared.run_history (before ++ (1%nat, c) :: after) m ∅ =
    Some (m', slots') ∧
    CApi.last_error_on_thread 1 slots' =
    Some "dataset_code pointer is null" ∧
    CApi.last_error_on_thread 0 slots' = None.
Proof.
  intros m before c after.
  destruct (Shared.run_history (before ++ (1%nat, c) :: after) m ∅)
    as [[m' slots']|] eqn:Erun; [|by vm_compute in Erun].
  exists m', slots'. split; [done|].
  destruct (error_slot_is_per_thread (H := Scripted.cooperative) 1 m ∅)
    as [_ Hlast].
  assert (Shared.silent 1 after) as Hsilent.
  { repeat constructor; cbn; done. }
  destruct (Hlast before c after m' slots' eq_refl Hsilent Erun)
    as (m1 & slots1 & r & g & m2 & Hbefore & Hcall & _ & Hslot & _ & _
        & Hfailed).
  vm_compute in Hbefore. injection Hbefore as <- <-.
  specialize (Hcall ""). vm_compute in Hcall.
  injection Hcall as <- <- <-.
  split.
  - apply Hfailed; [cbn; lia | done].
  - vm_compute in Erun. by injection Erun as <- <-.
Defined.

Lemma CopyStrings_spec_example :
  CApi.CopyStrings (Some [Some "ES.FUT"; Some ""; None]) 2 =
  Returns ["ES.FUT"; ""] ∧
  CApi.CopyStrings (Some [Some "ES.FUT"; Some ""; None]) 3 =
  Throws (StdException "symbol list contains a null entry").
Proof.
  split.
  - apply (CopyStrings_spec [Some "ES.FUT"; Some ""; None] 2); [cbn; lia|].
    reflexivity.
  - apply (CopyStrings_spec [Some "ES.FUT"; Some ""; None] 3); [cbn; lia|].
    cbn. apply list_elem_of_further, list_elem_of_further, list_elem_of_here.
Defined.

Lemma milliseconds_spec timeout_millis :
  (0 ≤ timeout_millis < 2 ^ 63 →
   CApi.milliseconds timeout_millis = timeout_millis) ∧
  (2 ^ 63 ≤ timeout_millis < 2 ^ 64 →
   CApi.milliseconds timeout_millis = timeout_millis - 2 ^ 64 ∧
   CApi.milliseconds timeout_millis < 0).
Proof.
  unfold CApi.milliseconds, wrap. split; intros Hrange.
  - rewrite Z.mod_small by lia. by rewrite decide_True by lia.
  - rewrite Z.mod_small by lia. rewrite decide_False by lia. lia.
Qed.

Lemma milliseconds_range timeout_millis :
  - 2 ^ 63 ≤ CApi.milliseconds timeout_millis < 2 ^ 63 ∧
  (CApi.milliseconds timeout_millis < 0 ↔
   2 ^ 63 ≤ wrap 64 timeout_millis).
Proof.
  unfold CApi.milliseconds, wrap.
  pose proof (Z.mod_pos_bound timeout_millis (2 ^ 64)) as Hb.
  case_decide; lia.
Qed.

#[local] Arguments CApi.milliseconds : simpl never.

Section MoreCApiCalls.
Context `{Engine}.

Ltac unfold_capi :=
  unfold CApi.db_c_live_builder_new, CApi.db_c_live_builder_free,
    CApi.db_c_live_builder_set_key,
    CApi.db_c_live_builder_set_key_from_env,
    CApi.db_c_live_builder_set_dataset,
    CApi.db_c_live_builder_set_dataset_enum,
    CApi.db_c_live_builder_set_send_ts_out,
    CApi.db_c_live_builder_set_upgrade_policy,
    CApi.db_c_live_builder_set_heartbeat_interval,
    CApi.db_c_live_builder_set_address,
    CApi.db_c_live_builder_set_buffer_size,
    CApi.db_c_live_builder_build_threaded,
    CApi.db_c_live_threaded_free,
    CApi.db_c_live_threaded_subscribe,
    CApi.db_c_live_threaded_subscribe_from_unix,
    CApi.db_c_live_threaded_subscribe_from_str,
    CApi.db_c_live_threaded_subscribe_with_snapshot,
    CApi.db_c_live_threaded_start,
    CApi.db_c_live_threaded_start_with_metadata,
    CApi.db_c_live_threaded_start_with_exceptions,
    CApi.db_c_live_threaded_reconnect,
    CApi.db_c_live_threaded_resubscribe,
    CApi.db_c_live_threaded_block_for_stop,
    CApi.db_c_live_threaded_block_for_stop_with_timeout,
    CApi.set_on, CApi.call_on, CApi.null_client, CApi.try_status,
    CApi.SetError, CApi.ClearError, CApi.native_builder in *.

Lemma try_status_reports name {A} (outcome : result A) g :
  reports name outcome
    (CApi.try_status ("unexpected error in " +:+ name)
       (_ ← outcome; mret ()) g).1
    (CApi.try_status ("unexpected error in " +:+ name)
       (_ ← outcome; mret ()) g).2.
Proof. by destruct outcome as [a|[what|]]. Qed.

(** X3.  Called with non-null arguments, every setter of the builder
    runs the engine's member function of the same purpose on the
    builder, leaves behind the handle the builder as that function left
    it, and reports its outcome: 0 and an empty slot when it returned,
    -1 and the exception's [what()] when it threw a [std::exception], -1
    and "unexpected error in" followed by the setter's own name when it
    threw anything else. *)
Theorem setters_report_the_engine (b : CApi.db_c_live_builder)
    (g : string) :
  let told name (m : method LiveBuilder ())
      (out : Z * string * option CApi.db_c_live_builder) :=
    reports name (m (CApi.builder b)).1 out.1.1 out.1.2 ∧
    out.2 = Some {| CApi.builder := (m (CApi.builder b)).2 |} in
  (∀ api_key,
     told "db_c_live_builder_set_key" (SetKey api_key)
       (CApi.db_c_live_builder_set_key (Some b) (Some api_key) g)) ∧
  told "db_c_live_builder_set_key_from_env" SetKeyFromEnv
    (CApi.db_c_live_builder_set_key_from_env (Some b) g) ∧
  (∀ dataset_code,
     told "db_c_live_builder_set_dataset" (SetDataset dataset_code)
       (CApi.db_c_live_builder_set_dataset (Some b) (Some dataset_code) g)) ∧
  (∀ dataset,
     told "db_c_live_builder_set_dataset_enum"
       (SetDatasetEnum (CApi.ToDataset dataset))
       (CApi.db_c_live_builder_set_dataset_enum (Some b) dataset g)) ∧
  (∀ send_ts_out,
     told "db_c_live_builder_set_send_ts_out"
       (SetSendTsOut (bool_decide (send_ts_out ≠ 0)))
       (CApi.db_c_live_builder_set_send_ts_out (Some b) send_ts_out g)) ∧
  (∀ policy,
     told "db_c_live_builder_set_upgrade_policy"
       (SetUpgradePolicy (CApi.ToUpgradePolicy policy))
       (CApi.db_c_live_builder_set_upgrade_policy (Some b) policy g)) ∧
  (∀ seconds,
     told "db_c_live_builder_set_heartbeat_interval"
       (SetHeartbeatInterval seconds)
       (CApi.db_c_live_builder_set_heartbeat_interval (Some b) seconds g)) ∧
  (∀ gateway port,
     told "db_c_live_builder_set_address" (SetAddress gateway port)
       (CApi.db_c_live_builder_set_address (Some b) (Some gateway) port g)) ∧
  (∀ size,
     told "db_c_live_builder_set_buffer_size" (SetBufferSize size)
       (CApi.db_c_live_builder_set_buffer_size (Some b) size g)).
Proof.
  intros told. unfold told, reports. unfold_capi.
  split_and!; intros;
    match goal with
    | |- context [?m (CApi.builder b)] =>
        destruct (m (CApi.builder b)) as [[[]|[what|]] b']
    end; by cbn.
Qed.

(** X4.  Called on a session handle that passes the null checks, every
    session function runs the engine's member function on the native
    client and reports its outcome in the same way, the unexpected-error
    message naming the function called; the subscribe functions run the
    engine only when the copy of the symbol array succeeded, and report
    the copy's exception otherwise.  The timed wait hands the engine its
    timeout as a signed 64-bit count of milliseconds: the timeout itself
    below 2^63, and the negative count [timeout - 2^64] from 2^63 on. *)
Theorem session_calls_report_the_engine (c : LiveThreaded) (g : string) :
  let session := Some {| CApi.client := Some c |} in
  let told name {A} (outcome : result A)
      (out : Z * string * option CApi.db_c_live_threaded) :=
    reports name outcome out.1.1 out.1.2 in
  (∀ symbols count schema stype_in,
     told "db_c_live_threaded_subscribe"
       (v ← CApi.CopyStrings symbols count;
        (Subscribe v (CApi.ToSchema schema) (CApi.ToSType stype_in) c).1)
       (CApi.db_c_live_threaded_subscribe session symbols count schema
          stype_in g)) ∧
  (∀ symbols count schema stype_in start,
     told "db_c_live_threaded_subscribe_from_unix"
       (v ← CApi.CopyStrings symbols count;
        (SubscribeFromUnix v (CApi.ToSchema schema) (CApi.ToSType stype_in)
           start c).1)
       (CApi.db_c_live_threaded_subscribe_from_unix session symbols count
          schema stype_in start g)) ∧
  (∀ symbols count schema stype_in start,
     told "db_c_live_threaded_subscribe_from_str"
       (v ← CApi.CopyStrings symbols count;
        (SubscribeFromStr v (CApi.ToSchema schema) (CApi.ToSType stype_in)
           start c).1)
       (CApi.db_c_live_threaded_subscribe_from_str session symbols count
          schema stype_in (Some start) g)) ∧
  (∀ symbols count schema stype_in,
     told "db_c_live_threaded_subscribe_with_snapshot"
       (v ← CApi.CopyStrings symbols count;
        (SubscribeWithSnapshot v (CApi.ToSchema schema)
           (CApi.ToSType stype_in) c).1)
       (CApi.db_c_live_threaded_subscribe_with_snapshot session symbols
          count schema stype_in g)) ∧
  (∀ record_callback user_data,
     told "db_c_live_threaded_start"
       (LiveThreaded_Start
          (CApi.MakeRecordCallback record_callback user_data) c).1
       (CApi.db_c_live_threaded_start session (Some record_callback)
          user_data g)) ∧
  (∀ metadata_callback metadata_data record_callback record_data,
     told "db_c_live_threaded_start_with_metadata"
       (LiveThreaded_Start
          (CApi.MakeMetadataCallback metadata_callback metadata_data,
           CApi.MakeRecordCallback record_callback record_data) c).1
       (CApi.db_c_live_threaded_start_with_metadata session
          metadata_callback metadata_data (Some record_callback)
          record_data g)) ∧
  (∀ metadata_callback metadata_data record_callback record_data
     exception_callback exception_data,
     told "db_c_live_threaded_start_with_exceptions"
       (LiveThreaded_Start
          (CApi.MakeMetadataCallback metadata_callback metadata_data,
           CApi.MakeRecordCallback record_callback record_data,
           CApi.MakeExceptionCallback exception_callback exception_data)
          c).1
       (CApi.db_c_live_threaded_start_with_exceptions session
          metadata_callback metadata_data (Some record_callback)
          record_data exception_callback exception_data g)) ∧
  told "db_c_live_threaded_reconnect" (Reconnect c).1
    (CApi.db_c_live_threaded_reconnect session g) ∧
  told "db_c_live_threaded_resubscribe" (Resubscribe c).1
    (CApi.db_c_live_threaded_resubscribe session g) ∧
  told "db_c_live_threaded_block_for_stop" (BlockForStop c).1
    (CApi.db_c_live_threaded_block_for_stop session g) ∧
  (∀ timeout_millis cell,
     told "db_c_live_threaded_block_for_stop_with_timeout"
       (BlockForStopFor (CApi.milliseconds timeout_millis) c).1
       (CApi.db_c_live_threaded_block_for_stop_with_timeout session
          timeout_millis (Some cell) g).1) ∧
  (∀ timeout_millis,
     (0 ≤ timeout_millis < 2 ^ 63 →
      CApi.milliseconds timeout_millis = timeout_millis) ∧
     (2 ^ 63 ≤ timeout_millis < 2 ^ 64 →
      CApi.milliseconds timeout_millis = timeout_millis - 2 ^ 64 ∧
      CApi.milliseconds timeout_millis < 0)).
Proof.
  intros session told. unfold told, reports.
  split_and!; [..|apply milliseconds_spec]; unfold_capi; cbn; intros;
    repeat match goal with
    | |- context [CApi.CopyStrings ?s ?n] =>
        destruct (CApi.CopyStrings s n) as [v|[what|]]; cbn
    | |- context [Subscribe ?v ?a ?b c] =>
        destruct (Subscribe v a b c) as [[[]|[what|]] c']; cbn
    | |- context [SubscribeFromUnix ?v ?a ?b ?d c] =>
        destruct (SubscribeFromUnix v a b d c) as [[[]|[what|]] c']; cbn
    | |- context [SubscribeFromStr ?v ?a ?b ?d c] =>
        destruct (SubscribeFromStr v a b d c) as [[[]|[what|]] c']; cbn
    | |- context [SubscribeWithSnapshot ?v ?a ?b c] =>
        destruct (SubscribeWithSnapshot v a b c) as [[[]|[what|]] c']; cbn
    | |- context [LiveThreaded_Start ?cb c] =>
        destruct (LiveThreaded_Start cb c) as [[[]|[what|]] c']; cbn
    | |- context [Reconnect c] =>
        destruct (Reconnect c) as [[[]|[what|]] c']; cbn
    | |- context [Resubscribe c] =>
        destruct (Resubscribe c) as [[[]|[what|]] c']; cbn
    | |- context [BlockForStop c] =>
        destruct (BlockForStop c) as [[[]|[what|]] c']; cbn
    | |- context [BlockForStopFor ?t c] =>
        destruct (BlockForStopFor t c) as [[k|[what|]] c']; cbn
    end; done.
Qed.

End MoreCApiCalls.

Section MoreCApiHandles.
Context `{Engine}.

Ltac unfold_capi :=
  unfold CApi.db_c_live_builder_new, CApi.db_c_live_builder_free,
    CApi.db_c_live_builder_set_key,
    CApi.db_c_live_builder_set_key_from_env,
    CApi.db_c_live_builder_set_dataset,
    CApi.db_c_live_builder_set_dataset_enum,
    CApi.db_c_live_builder_set_send_ts_out,
    CApi.db_c_live_builder_set_upgrade_policy,
    CApi.db_c_live_builder_set_heartbeat_interval,
    CApi.db_c_live_builder_set_address,
    CApi.db_c_live_builder_set_buffer_size,
    CApi.db_c_live_builder_build_threaded,
    CApi.db_c_live_threaded_free,
    CApi.db_c_live_threaded_subscribe,
    CApi.db_c_live_threaded_subscribe_from_unix,
    CApi.db_c_live_threaded_subscribe_from_str,
    CApi.db_c_live_threaded_subscribe_with_snapshot,
    CApi.db_c_live_threaded_start,
    CApi.db_c_live_threaded_start_with_metadata,
    CApi.db_c_live_threaded_start_with_exceptions,
    CApi.db_c_live_threaded_reconnect,
    CApi.db_c_live_threaded_resubscribe,
    CApi.db_c_live_threaded_block_for_stop,
    CApi.db_c_live_threaded_block_for_stop_with_timeout,
    CApi.set_on, CApi.call_on, CApi.null_client, CApi.try_status,
    CApi.SetError, CApi.ClearError, CApi.native_builder in *.

Ltac handle_cases :=
  repeat case_match; simplify_eq; cbn;
  repeat split;
  first [done | by left | by right | by eexists
        | by (intros _; eexists) | by intros [? ?] | idtac].

(** X5.  Every session function answers 0 or -1 and nothing else.  A
    handle that is null, or whose native client is null, is refused with
    -1 and "client pointer is null" and handed back as it was; a handle
    that passes these checks still passes them after the call, whatever
    the call's outcome: no session function ever releases or nulls the
    native client. *)
Theorem session_functions_keep_the_handle
    (client : option CApi.db_c_live_threaded) (g : string) :
  (∀ symbols count schema stype_in,
     keeps_handle client
       (CApi.db_c_live_threaded_subscribe client symbols count schema
          stype_in g)) ∧
  (∀ symbols count schema stype_in start,
     keeps_handle client
       (CApi.db_c_live_threaded_subscribe_from_unix client symbols count
          schema stype_in start g)) ∧
  (∀ symbols count schema stype_in start,
     keeps_handle client
       (CApi.db_c_live_threaded_subscribe_from_str client symbols count
          schema stype_in start g)) ∧
  (∀ symbols count schema stype_in,
     keeps_handle client
       (CApi.db_c_live_threaded_subscribe_with_snapshot client symbols
          count schema stype_in g)) ∧
  (∀ record_callback user_data,
     keeps_handle client
       (CApi.db_c_live_threaded_start client record_callback user_data g)) ∧
  (∀ metadata_callback metadata_data record_callback record_data,
     keeps_handle client
       (CApi.db_c_live_threaded_start_with_metadata client
          metadata_callback metadata_data record_callback record_data g)) ∧
  (∀ metadata_callback metadata_data record_callback record_data
     exception_callback exception_data,
     keeps_handle client
       (CApi.db_c_live_threaded_start_with_exceptions client
          metadata_callback metadata_data record_callback record_data
          exception_callback exception_data g)) ∧
  keeps_handle client (CApi.db_c_live_threaded_reconnect client g) ∧
  keeps_handle client (CApi.db_c_live_threaded_resubscribe client g) ∧
  keeps_handle client (CApi.db_c_live_threaded_block_for_stop client g) ∧
  (∀ timeout_millis cell,
     keeps_handle client
       (CApi.db_c_live_threaded_block_for_stop_with_timeout client
          timeout_millis cell g).1).
Proof.
  unfold keeps_handle. unfold_capi.
  destruct (CApi.deref client) as [c|] eqn:Hd.
  - apply deref_eta in Hd as ->. cbn.
    split_and!; intros; handle_cases.
  - split_and!; intros; cbn; handle_cases.
Qed.

(** X6.  Every setter of the builder answers 0 or -1 and nothing else,
    refuses a null builder with "builder pointer is null", and leaves a
    non-null builder handle non-null.  A null string argument is refused
    with a message naming it before the engine is touched: the builder
    is handed back as it was. *)
Theorem setters_keep_the_builder (builder : option CApi.db_c_live_builder)
    (g : string) :
  (∀ api_key,
     keeps_builder builder
       (CApi.db_c_live_builder_set_key builder api_key g)) ∧
  keeps_builder builder
    (CApi.db_c_live_builder_set_key_from_env builder g) ∧
  (∀ dataset_code,
     keeps_builder builder
       (CApi.db_c_live_builder_set_dataset builder dataset_code g)) ∧
  (∀ dataset,
     keeps_builder builder
       (CApi.db_c_live_builder_set_dataset_enum builder dataset g)) ∧
  (∀ send_ts_out,
     keeps_builder builder
       (CApi.db_c_live_builder_set_send_ts_out builder send_ts_out g)) ∧
  (∀ policy,
     keeps_builder builder
       (CApi.db_c_live_builder_set_upgrade_policy builder policy g)) ∧
  (∀ seconds,
     keeps_builder builder
       (CApi.db_c_live_builder_set_heartbeat_interval builder seconds g)) ∧
  (∀ gateway port,
     keeps_builder builder
       (CApi.db_c_live_builder_set_address builder gateway port g)) ∧
  (∀ size,
     keeps_builder builder
       (CApi.db_c_live_builder_set_buffer_size builder size g)) ∧
  (∀ b,
     CApi.db_c_live_builder_set_key (Some b) None g =
     (-1, "api_key pointer is null", Some b) ∧
     CApi.db_c_live_builder_set_dataset (Some b) None g =
     (-1, "dataset_code pointer is null", Some b) ∧
     (∀ port,
        CApi.db_c_live_builder_set_address (Some b) None port g =
        (-1, "gateway pointer is null", Some b))).
Proof.
  unfold keeps_builder. unfold_capi.
  destruct builder as [b|]; split_and!; intros; cbn; handle_cases.
Qed.

(** X7.  With a valid session handle, a null record callback is refused
    by each of the three start functions with "record_callback pointer
    is null", a null start string by the subscribe-from-string function
    with "start pointer is null", and a null result cell by the timed
    wait with "result pointer is null"; each time the status is -1 and
    the session handle is handed back as it was.  The null client check
    comes first: with a null client the message is "client pointer is
    null" whatever the other arguments. *)
Theorem null_arguments_are_refused (c : LiveThreaded) (g : string) :
  let session := Some {| CApi.client := Some c |} in
  (∀ user_data,
     CApi.db_c_live_threaded_start session None user_data g =
     (-1, "record_callback pointer is null", session)) ∧
  (∀ metadata_callback metadata_data record_data,
     CApi.db_c_live_threaded_start_with_metadata session metadata_callback
       metadata_data None record_data g =
     (-1, "record_callback pointer is null", session)) ∧
  (∀ metadata_callback metadata_data record_data exception_callback
     exception_data,
     CApi.db_c_live_threaded_start_with_exceptions session
       metadata_callback metadata_data None record_data exception_callback
       exception_data g =
     (-1, "record_callback pointer is null", session)) ∧
  (∀ symbols count schema stype_in,
     CApi.db_c_live_threaded_subscribe_from_str session symbols count
       schema stype_in None g =
     (-1, "start pointer is null", session)) ∧
  (∀ timeout_millis,
     CApi.db_c_live_threaded_block_for_stop_with_timeout session
       timeout_millis None g =
     (-1, "result pointer is null", session, None)) ∧
  (∀ user_data,
     CApi.db_c_live_threaded_start None None user_data g =
     (-1, "client pointer is null", None)) ∧
  (∀ symbols count schema stype_in,
     CApi.db_c_live_threaded_subscribe_from_str None symbols count schema
       stype_in None g =
     (-1, "client pointer is null", None)) ∧
  (∀ timeout_millis,
     CApi.db_c_live_threaded_block_for_stop_with_timeout None
       timeout_millis None g =
     (-1, "client pointer is null", None, None)).
Proof. intros session. by split_and!. Qed.

End MoreCApiHandles.

Section MoreCApiConversions.
Context `{Engine}.

(** X8.  The two conversions of the keep-going verdict are inverse to
    each other on the two codes of the header: a native verdict survives
    the trip to C and back, a C code survives the trip to native and
    back exactly when it is 0 or 1.  Every code other than
    [DB_C_KEEP_GOING_STOP], in or out of the enumeration, means
    continue, and so the record trampoline stops the engine exactly when
    the foreign callback returned 1. *)
Theorem keep_going_round_trip :
  (∀ k, CApi.ToKeepGoing (CApi.FromKeepGoing k) = k) ∧
  (∀ z, CApi.FromKeepGoing (CApi.ToKeepGoing z) = z ↔ z = 0 ∨ z = 1) ∧
  (∀ z, CApi.ToKeepGoing z = KeepGoing.Stop ↔ z = 1) ∧
  (∀ callback user_data record,
     CApi.MakeRecordCallback callback user_data record =
     Returns KeepGoing.Stop ↔
     callback user_data (CApi.ToCHeader (Header record))
       (address record + sizeof_RecordHeader)
       (if decide (Size record > sizeof_RecordHeader)
        then wrap 64 (Size record - sizeof_RecordHeader) else 0) =
     Returns 1).
Proof.
  split_and!.
  - by intros [].
  - intros z. unfold CApi.ToKeepGoing, CApi.DB_C_KEEP_GOING_STOP.
    case_decide; cbn; unfold CApi.DB_C_KEEP_GOING_STOP,
      CApi.DB_C_KEEP_GOING_CONTINUE; split; intros; lia.
  - intros z. unfold CApi.ToKeepGoing, CApi.DB_C_KEEP_GOING_STOP.
    by case_decide.
  - intros callback user_data record. unfold CApi.MakeRecordCallback.
    destruct (callback _ _ _ _) as [z|e]; cbn.
    + unfold CApi.ToKeepGoing, CApi.DB_C_KEEP_GOING_STOP.
      case_decide; split; intros; simplify_eq; done.
    + done.
Qed.

(** X9.  The optional callbacks.  With a null exception callback the
    exception policy is stop, without anything being called.  With one,
    the policy is restart exactly when the callback returned
    [DB_C_EXCEPTION_ACTION_RESTART]; any other code, 1 or not, is stop;
    the callback receives the context pointer and the exception's
    message unchanged.  With a null metadata callback the metadata
    closure returns at once; with one, it hands over the context pointer
    and the serialised metadata and ends as the callback ends. *)
Theorem optional_callbacks :
  (∀ user_data what,
     CApi.MakeExceptionCallback None user_data what =
     Returns ExceptionAction.Stop) ∧
  (∀ callback user_data what,
     CApi.MakeExceptionCallback (Some callback) user_data what =
     Returns ExceptionAction.Restart ↔
     callback user_data what = Returns 0) ∧
  (∀ callback user_data what,
     CApi.MakeExceptionCallback (Some callback) user_data what =
     Returns ExceptionAction.Stop ↔
     ∃ z, callback user_data what = Returns z ∧ z ≠ 0) ∧
  (∀ user_data metadata,
     CApi.MakeMetadataCallback None user_data metadata = Returns ()) ∧
  (∀ callback user_data metadata,
     CApi.MakeMetadataCallback (Some callback) user_data metadata =
     callback user_data (MetadataToString metadata)).
Proof.
  unfold CApi.MakeExceptionCallback, CApi.MakeMetadataCallback,
    CApi.DB_C_EXCEPTION_ACTION_RESTART.
  split_and!; try done.
  - intros callback user_data what.
    destruct (callback user_data what) as [z|e]; cbn; [|done].
    case_decide; split; intros; simplify_eq; done.
  - intros callback user_data what.
    destruct (callback user_data what) as [z|e]; cbn.
    + case_decide; split.
      * done.
      * intros (z' & [= <-] & Hz). done.
      * intros _. by exists z.
      * done.
    + split; [done|]. by intros (z & ? & _).
Qed.

(** X10.  The timed wait writes its out-parameter only on success: when
    it answers 0 the cell holds 0 or 1, the code of the verdict the
    engine gave for the timeout as converted to a signed 64-bit count of
    milliseconds; when it answers anything else the cell is as the
    caller left it.  The count handed to the engine is never out of the
    signed 64-bit range, and it is negative exactly when the timeout,
    read as a [uint64_t], is 2^63 or more. *)
Theorem timed_wait_writes_on_success_only
    (client : option CApi.db_c_live_threaded) (timeout_millis : Z)
    (result : option Z) (g : string) :
  let out :=
    CApi.db_c_live_threaded_block_for_stop_with_timeout client
      timeout_millis result g in
  (out.1.1.1 = 0 →
   ∃ c verdict,
     CApi.deref client = Some c ∧
     (BlockForStopFor (CApi.milliseconds timeout_millis) c).1 =
     Returns verdict ∧
     out.2 = Some (CApi.FromKeepGoing verdict) ∧
     (out.2 = Some 0 ∨ out.2 = Some 1)) ∧
  (out.1.1.1 ≠ 0 → out.2 = result) ∧
  - 2 ^ 63 ≤ CApi.milliseconds timeout_millis < 2 ^ 63 ∧
  (CApi.milliseconds timeout_millis < 0 ↔
   2 ^ 63 ≤ wrap 64 timeout_millis).
Proof.
  split_and!; [| |apply milliseconds_range..].
  all: unfold CApi.db_c_live_threaded_block_for_stop_with_timeout,
    CApi.null_client, CApi.try_status, CApi.SetError, CApi.ClearError.
  all: destruct (CApi.deref client) as [c|]; cbn; [|done].
  all: destruct result as [cell|]; cbn; [|done].
  all: destruct (BlockForStopFor (CApi.milliseconds timeout_millis) c)
         as [[verdict|[what|]] c'] eqn:E; cbn; try done.
  intros _. exists c, verdict. rewrite E. split_and!; try done.
  destruct verdict; [by left | by right].
Qed.

(** X11.  Creating and building.  [db_c_live_builder_new] returns a
    handle exactly when the allocation succeeds, the builder behind it
    being the engine's default one and the error slot cleared.
    [db_c_live_builder_build_threaded] on a non-null builder returns a
    session handle exactly when the engine's [BuildThreaded] returns a
    client; the handle then passes the null checks of every session
    function, and the slot is cleared; when the engine throws, the
    handle is null and the slot holds the message.  On a null builder it
    returns null with "builder pointer is null". *)
Theorem handles_are_born_valid (g : string) :
  (∀ alloc,
     let out := CApi.db_c_live_builder_new alloc g in
     (is_Some out.1 ↔ alloc = Returns ()) ∧
     (is_Some out.1 →
      out = (Some {| CApi.builder := Builder |}, ""))) ∧
  (∀ b,
     let out := CApi.db_c_live_builder_build_threaded (Some b) g in
     let engine := BuildThreaded (CApi.builder b) in
     (is_Some out.1.1 ↔ ∃ c, engine.1 = Returns c) ∧
     (∀ c, engine.1 = Returns c →
           CApi.deref out.1.1 = Some c ∧ out.1.2 = "") ∧
     (out.1.1 = None →
      reports "db_c_live_builder_build_threaded" engine.1 (-1) out.1.2) ∧
     out.2 = Some {| CApi.builder := engine.2 |}) ∧
  CApi.db_c_live_builder_build_threaded None g =
  (None, "builder pointer is null", None).
Proof.
  split_and!; [| |done].
  - intros [[]|[what|]]; cbn; repeat split;
      first [done | by eexists | by intros [? ?]].
  - intros b. cbn. unfold CApi.native_builder.
    destruct (BuildThreaded (CApi.builder b)) as [[c|[what|]] b'] eqn:E;
      cbn; repeat split;
      first [done | by eexists | by intros [? ?]
            | by (intros c' [= <-]) | by (intros ? [=])
            | by (intros [? [=]]) | congruence].
Qed.

(** X12.  The schema-upgrade policy of the C ABI is total: 0 is as-is, 1
    is upgrade-to-v2, and every other code, 2 or not, is
    upgrade-to-v3.  The setter therefore refuses no code: with any code
    other than 0 and 1 it does to the builder, and reports, exactly what
    it does with [DB_C_UPGRADE_TO_V3]. *)
Theorem upgrade_policy_defaults_to_v3 (policy : Z) :
  (CApi.ToUpgradePolicy policy = VersionUpgradePolicy.AsIs ↔ policy = 0) ∧
  (CApi.ToUpgradePolicy policy = VersionUpgradePolicy.UpgradeToV2 ↔
   policy = 1) ∧
  (CApi.ToUpgradePolicy policy = VersionUpgradePolicy.UpgradeToV3 ↔
   policy ≠ 0 ∧ policy ≠ 1) ∧
  (∀ builder g,
     policy ≠ 0 → policy ≠ 1 →
     CApi.db_c_live_builder_set_upgrade_policy builder policy g =
     CApi.db_c_live_builder_set_upgrade_policy builder
       CApi.DB_C_UPGRADE_TO_V3 g).
Proof.
  split_and!.
  4:{ intros builder g H0 H1.
      unfold CApi.db_c_live_builder_set_upgrade_policy,
        CApi.ToUpgradePolicy, CApi.DB_C_UPGRADE_AS_IS,
        CApi.DB_C_UPGRADE_TO_V2, CApi.DB_C_UPGRADE_TO_V3.
      by repeat case_decide. }
  all: unfold CApi.ToUpgradePolicy, CApi.DB_C_UPGRADE_AS_IS,
    CApi.DB_C_UPGRADE_TO_V2.
  all: repeat case_decide; split; intros; try done; lia.
Qed.

End MoreCApiConversions.

(** * Further properties of the managed wrapper *)

Section MoreWrapperValidation.
Context `{Engine}.

Lemma any_blank_false (l : list (option string)) :
  Wrapper.any_blank l = false ↔
  Forall (λ e, Wrapper.IsNullOrWhiteSpace e = false) l.
Proof.
  induction l as [|e l IH]; cbn.
  - split; [constructor | done].
  - rewrite orb_false_iff, IH. split.
    + intros [He Hl]. by constructor.
    + by inversion 1.
Qed.

Lemma all_white_false (s : string) :
  Wrapper.all_white s = false ↔
  ∃ c, c ∈ String.list_ascii_of_string s ∧ Wrapper.IsWhiteSpace c = false.
Proof.
  induction s as [|c s IH]; cbn.
  - split; [done|]. intros (c & Hc & _). by apply elem_of_nil in Hc.
  - rewrite andb_false_iff, IH. split.
    + intros [Hc|(c' & Hin & Hc')].
      * exists c. split; [apply list_elem_of_here | done].
      * exists c'. split; [by apply list_elem_of_further | done].
    + intros (c' & Hin & Hc'). apply elem_of_cons in Hin as [->|Hin].
      * by left.
      * right. by exists c'.
Qed.

(** X13.  [ValidateSymbols] accepts a symbol array exactly when it is
    non-null, has at least one entry, and every entry is a string with
    at least one character that is not white space; every other array
    makes it throw.  So [SubscribeTrades] answers with an argument
    exception for exactly the other arrays. *)
Theorem ValidateSymbols_accepts_iff
    (symbols : option (list (option string))) :
  (Wrapper.ValidateSymbols symbols = Wrapper.Ok () ↔
   ∃ l, symbols = Some l ∧ l ≠ [] ∧
        Forall (λ e, ∃ s c, e = Some s ∧
                            c ∈ String.list_ascii_of_string s ∧
                            Wrapper.IsWhiteSpace c = false) l) ∧
  (Wrapper.ValidateSymbols symbols ≠ Wrapper.Ok () ↔
   ∃ e, Wrapper.ValidateSymbols symbols = Wrapper.Raise e ∧
        is_argument_error e).
Proof.
  assert (∀ e : option string,
            Wrapper.IsNullOrWhiteSpace e = false ↔
            ∃ s c, e = Some s ∧ c ∈ String.list_ascii_of_string s ∧
                   Wrapper.IsWhiteSpace c = false) as Hentry.
  { intros [s|]; cbn.
    - rewrite all_white_false. split.
      + intros (c & Hin & Hc). by exists s, c.
      + intros (s' & c & [= <-] & Hin & Hc). by exists c.
    - split; [done|]. by intros (s & c & ? & _). }
  split.
  - unfold Wrapper.ValidateSymbols.
    destruct symbols as [l|]; [|split; [done | by intros (l & ? & _)]].
    destruct (decide (List.length l = 0%nat)) as [Hlen|Hlen].
    + split; [done|]. intros (l' & [= <-] & Hne & _).
      by destruct l.
    + destruct (Wrapper.any_blank l) eqn:Hblank.
      * split; [done|]. intros (l' & [= <-] & _ & Hall).
        assert (Wrapper.any_blank l = false); [|congruence].
        apply any_blank_false. eapply Forall_impl; [exact Hall|].
        intros e He. by apply Hentry.
      * split; [|done]. intros _. exists l. split_and!; [done| |].
        -- by destruct l.
        -- apply any_blank_false in Hblank.
           eapply Forall_impl; [exact Hblank|].
           intros e He. by apply Hentry.
  - unfold Wrapper.ValidateSymbols.
    destruct symbols as [l|]; [|split; [by eexists | done]].
    destruct (decide (List.length l = 0%nat));
      [split; [by eexists | done]|].
    destruct (Wrapper.any_blank l); [split; [by eexists | done]|].
    split; [done|]. by intros (e & ? & _).
Qed.

(** X14.  The constructor checks the API key first and the dataset
    second: a null, empty or white-space key is refused with an
    argument exception naming [apiKey], whatever the dataset; with a
    good key, such a dataset is refused naming [dataset]; and otherwise
    the client is created idle, holding the two strings as given, with
    no native client, no callback and an empty symbol map. *)
Theorem LiveClient_new_checks_key_then_dataset
    (apiKey dataset : option string) :
  (Wrapper.IsNullOrWhiteSpace apiKey = true →
   Wrapper.LiveClient_new apiKey dataset =
   Wrapper.Raise
     (Wrapper.ArgumentException "API key cannot be null or whitespace."
        "apiKey")) ∧
  (Wrapper.IsNullOrWhiteSpace apiKey = false →
   Wrapper.IsNullOrWhiteSpace dataset = true →
   Wrapper.LiveClient_new apiKey dataset =
   Wrapper.Raise
     (Wrapper.ArgumentException "Dataset cannot be null or whitespace."
        "dataset")) ∧
  (∀ created,
     Wrapper.LiveClient_new apiKey dataset = Wrapper.Ok created ↔
     ∃ key name,
       apiKey = Some key ∧ dataset = Some name ∧
       Wrapper.all_white key = false ∧ Wrapper.all_white name = false ∧
       created = Some (Wrapper.NativeState_new key name)).
Proof.
  unfold Wrapper.LiveClient_new. split_and!.
  - by intros ->.
  - by intros -> ->.
  - intros created.
    destruct apiKey as [key|], dataset as [name|]; cbn.
    + destruct (Wrapper.all_white key) eqn:Hk; cbn.
      * split; [done|]. intros (k & n & [= <-] & _ & ? & _). congruence.
      * destruct (Wrapper.all_white name) eqn:Hn; cbn.
        -- split; [done|].
           intros (k & n & _ & [= <-] & _ & ? & _). congruence.
        -- split.
           ++ intros [= <-]. by exists key, name.
           ++ by intros (k & n & [= <-] & [= <-] & _ & _ & ->).
    + destruct (Wrapper.all_white key); cbn;
        (split; [done | by intros (k & n & _ & ? & _)]).
    + split; [done | by intros (k & n & ? & _)].
    + split; [done | by intros (k & n & ? & _)].
Qed.

End MoreWrapperValidation.

Lemma LiveClient_new_checks_key_then_dataset_example :
  Wrapper.LiveClient_new (H := Scripted.cooperative) (Some "  ") None =
  Wrapper.Raise
    (Wrapper.ArgumentException "API key cannot be null or whitespace."
       "apiKey") ∧
  Wrapper.LiveClient_new (H := Scripted.cooperative) (Some "K") (Some "") =
  Wrapper.Raise
    (Wrapper.ArgumentException "Dataset cannot be null or whitespace."
       "dataset").
Proof.
  split.
  - by apply (LiveClient_new_checks_key_then_dataset
                (H := Scripted.cooperative) (Some "  ") None).
  - by apply (LiveClient_new_checks_key_then_dataset
                (H := Scripted.cooperative) (Some "K") (Some "")).
Defined.

Section MoreWrapperSession.
Context `{Engine}.

Lemma EnsureClient_on_frame (state : Wrapper.NativeState) :
  let state' := (Wrapper.EnsureClient_on state).2 in
  Wrapper.api_key state' = Wrapper.api_key state ∧
  Wrapper.dataset state' = Wrapper.dataset state ∧
  Wrapper.symbol_map state' = Wrapper.symbol_map state ∧
  Wrapper.callback state' = Wrapper.callback state ∧
  Wrapper.running state' = Wrapper.running state ∧
  Wrapper.stop_requested state' = Wrapper.stop_requested state ∧
  (is_Some (Wrapper.client state) → state' = state) ∧
  (∀ c, (Wrapper.EnsureClient_on state).1 = Wrapper.Ok c →
        Wrapper.client state' = Some c) ∧
  (∀ e, (Wrapper.EnsureClient_on state).1 = Wrapper.Raise e →
        state' = state).
Proof.
  unfold Wrapper.EnsureClient_on.
  destruct (Wrapper.client state) as [c|] eqn:Ec; cbn.
  - split_and!; try done. by intros c' [= <-].
  - destruct (Wrapper.build_client state) as [c|[what|]]; cbn;
      split_and!; try done; try (by intros [? ?]).
    by intros c' [= <-].
Qed.


Lemma SubscribeTrades_frame symbols symbolType
    (state : Wrapper.NativeState) :
  ∃ state',
    (Wrapper.SubscribeTrades symbols symbolType (Some state)).2 =
    Some state' ∧
    Wrapper.api_key state' = Wrapper.api_key state ∧
    Wrapper.dataset state' = Wrapper.dataset state ∧
    Wrapper.symbol_map state' = Wrapper.symbol_map state ∧
    Wrapper.callback state' = Wrapper.callback state ∧
    Wrapper.running state' = Wrapper.running state ∧
    Wrapper.stop_requested state' = Wrapper.stop_requested state ∧
    (is_Some (Wrapper.client state) → is_Some (Wrapper.client state')).
Proof.
  unfold Wrapper.SubscribeTrades.
  destruct (Wrapper.ValidateSymbols symbols); [|by exists state].
  unfold Wrapper.EnsureClient.
  pose proof (EnsureClient_on_frame state)
    as (Hk & Hd & Hm & Hcb & Hr & Hs & _ & Hok & Herr).
  destruct (Wrapper.EnsureClient_on state) as [[c|e] state1]; cbn in *.
  - destruct (Subscribe _ _ _ c) as [[[]|[what|]] c']; cbn;
      (eexists; split; [reflexivity|]); cbn;
      (split_and!; [done..|]); intros _; by eexists.
  - exists state1. rewrite (Herr e eq_refl). by split_and!.
Qed.

(** X16.  [SubscribeTrades] with an acceptable array of symbols on a
    session holding a native client calls the engine's [Subscribe]
    once, with the symbols as given and in order, the trades schema, and
    the symbol type translated ([InstrumentId] and [Parent] kept, every
    other value taken as [RawSymbol]).  It returns when the engine
    returns and throws an invalid-operation exception carrying the
    engine's message when it throws.  Whatever the outcome it touches
    nothing of the session but the native client: key, dataset, symbol
    map, callback and both flags are as before.  The overload without a
    symbol type subscribes with [RawSymbol]. *)
Theorem SubscribeTrades_forwards (names : list string) (symbolType : Z)
    (state : Wrapper.NativeState) (c : LiveThreaded) :
  Wrapper.ValidateSymbols (Some (Some <$> names)) = Wrapper.Ok () →
  Wrapper.client state = Some c →
  let engine :=
    Subscribe names Wrapper.Schema_Trades
      (Wrapper.ToNativeSymbolType symbolType) c in
  Wrapper.SubscribeTrades (Some (Some <$> names)) symbolType (Some state) =
  (match engine.1 with
   | Returns _ => Wrapper.Ok ()
   | Throws (StdException what) =>
       Wrapper.Raise (Wrapper.InvalidOperationException what)
   | Throws UnknownException =>
       Wrapper.Raise
         (Wrapper.InvalidOperationException "Failed to subscribe to trades.")
   end, Some (Wrapper.set_client (Some engine.2) state)) ∧
  (Wrapper.ToNativeSymbolType symbolType =
   if decide (symbolType = 0) then 0
   else if decide (symbolType = 4) then 4 else 1) ∧
  Wrapper.SubscribeTrades_raw (Some (Some <$> names)) (Some state) =
  Wrapper.SubscribeTrades (Some (Some <$> names)) 1 (Some state) ∧
  (∀ symbols type,
     ∃ state',
       (Wrapper.SubscribeTrades symbols type (Some state)).2 = Some state' ∧
       Wrapper.api_key state' = Wrapper.api_key state ∧
       Wrapper.dataset state' = Wrapper.dataset state ∧
       Wrapper.symbol_map state' = Wrapper.symbol_map state ∧
       Wrapper.callback state' = Wrapper.callback state ∧
       Wrapper.running state' = Wrapper.running state ∧
       Wrapper.stop_requested state' = Wrapper.stop_requested state).
Proof.
  intros Hvalid Hclient engine. split_and!.
  - unfold Wrapper.SubscribeTrades. rewrite Hvalid.
    unfold Wrapper.EnsureClient, Wrapper.EnsureClient_on.
    rewrite Hclient. cbn.
    replace ((λ symbol : option string, default "" symbol) <$>
             (Some <$> names)) with names.
    2:{ rewrite <- list_fmap_compose. by rewrite list_fmap_id. }
    unfold engine.
    destruct (Subscribe names _ _ c) as [[[]|[what|]] c']; by cbn.
  - done.
  - done.
  - intros symbols type.
    destruct (SubscribeTrades_frame symbols type state)
      as (state' & Heq & Hk & Hd & Hm & Hcb & Hr & Hs & _).
    exists state'. by split_and!.
Qed.

End MoreWrapperSession.

Lemma SubscribeTrades_forwards_example :
  Wrapper.SubscribeTrades (H := Scripted.cooperative)
    (Some (Some <$> ["NQ.FUT"; "CL.FUT"])) 9 (Some Scripted.subscribed) =
  (Wrapper.Ok (),
   Some (@Wrapper.Build_NativeState Scripted.cooperative "K" "GLBX.MDP3"
           (Some [["NQ.FUT"; "CL.FUT"]; ["ES.FUT"]]) ∅ None false false)).
Proof.
  by apply (SubscribeTrades_forwards (H := Scripted.cooperative)
              ["NQ.FUT"; "CL.FUT"] 9 Scripted.subscribed [["ES.FUT"]]).
Defined.

Section MoreWrapperStart.
Context `{Engine}.

Lemma Start_outcome cb (state : Wrapper.NativeState) :
  ∃ state',
    (Wrapper.Start (Some cb) (Some state)).2 = Some state' ∧
    Wrapper.api_key state' = Wrapper.api_key state ∧
    Wrapper.dataset state' = Wrapper.dataset state ∧
    (is_Some (Wrapper.client state) → is_Some (Wrapper.client state')) ∧
    (Wrapper.running state' = true ↔
     (Wrapper.Start (Some cb) (Some state)).1 = Wrapper.Ok () ∨
     Wrapper.running state = true) ∧
    ((Wrapper.Start (Some cb) (Some state)).1 = Wrapper.Ok () →
     Wrapper.running state = false ∧
     Wrapper.callback state' = Some cb ∧
     Wrapper.stop_requested state' = false ∧
     Wrapper.symbol_map state' = ∅ ∧
     is_Some (Wrapper.client state')) ∧
    (Wrapper.running state = true →
     Wrapper.callback state' = Wrapper.callback state ∧
     Wrapper.symbol_map state' = Wrapper.symbol_map state ∧
     Wrapper.stop_requested state' = Wrapper.stop_requested state) ∧
    (Wrapper.stop_requested state = false →
     Wrapper.stop_requested state' = false) ∧
    (Wrapper.callback state' = None →
     Wrapper.callback state = None ∧
     Wrapper.symbol_map state' = Wrapper.symbol_map state).
Proof.
  cbn.
  pose proof (EnsureClient_on_frame state)
    as (Hk & Hd & Hm & Hcb & Hr & Hs & _ & Hok & Herr).
  destruct (Wrapper.EnsureClient_on state) as [[c|e] state1] eqn:Ee;
    cbn in *.
  - specialize (Hok c eq_refl).
    unfold Wrapper.compare_exchange_strong. rewrite Hr.
    destruct (Wrapper.running state) eqn:Er; cbn.
    + eexists. split; [reflexivity|]. cbn. rewrite Hok.
      split_and!;
        first [done | by (intros _; eexists)
              | by (split; [by right | done]) | congruence
              | by (rewrite Hcb, Hm)].
    + destruct (LiveThreaded_Start _ c) as [[[]|[what|]] c']; cbn;
        (eexists; split; [reflexivity|]); cbn;
        (split_and!;
           first [done | by (intros _; eexists)
                 | by (split; [done | by intros [?|?]])
                 | by (split; [by left | done])
                 | by (intros _; split_and!; try done; eexists)
                 | by (rewrite Hcb; intros ->)
                 | congruence]).
  - rewrite (Herr e eq_refl). exists state.
    split_and!; try done.
    split; [by right | by intros [?|?]].
Qed.

(** X17.  After [Start] with a callback on a live session, the running
    flag is set exactly when the call succeeded or the flag was already
    set: every failing path of a call that had taken the flag, including
    an exception of the engine's own [Start], gives the flag back, so
    that a later [Start] can take it.  A successful call has found the
    flag clear and leaves the given callback installed, no stop request,
    an empty symbol map and a native client.  A call that finds the flag
    set leaves callback, symbol map and stop request as they were.  A
    null callback is refused with an argument-null exception before
    anything is built or changed, and a disposed client with an
    object-disposed exception, whatever the callback. *)
Theorem Start_takes_or_returns_the_flag cb (state : Wrapper.NativeState) :
  (∃ state',
     (Wrapper.Start (Some cb) (Some state)).2 = Some state' ∧
     (Wrapper.running state' = true ↔
      (Wrapper.Start (Some cb) (Some state)).1 = Wrapper.Ok () ∨
      Wrapper.running state = true) ∧
     ((Wrapper.Start (Some cb) (Some state)).1 = Wrapper.Ok () →
      Wrapper.running state = false ∧
      Wrapper.callback state' = Some cb ∧
      Wrapper.stop_requested state' = false ∧
      Wrapper.symbol_map state' = ∅ ∧
      is_Some (Wrapper.client state')) ∧
     (Wrapper.running state = true →
      Wrapper.callback state' = Wrapper.callback state ∧
      Wrapper.symbol_map state' = Wrapper.symbol_map state ∧
      Wrapper.stop_requested state' = Wrapper.stop_requested state)) ∧
  Wrapper.Start None (Some state) =
  (Wrapper.Raise (Wrapper.ArgumentNullException "callback"), Some state) ∧
  (∀ callback,
     Wrapper.Start (H := H) callback None =
     (Wrapper.Raise
        (Wrapper.ObjectDisposedException "DatabentoWrapper.LiveClient"),
      None)).
Proof.
  split_and!; [| done | by intros [cb'|]].
  destruct (Start_outcome cb state)
    as (state' & Heq & _ & _ & _ & Hflag & Hok & Hbusy & _).
  exists state'. by split_and!.
Qed.

Lemma dispatch_frame cb record (state : Wrapper.NativeState) :
  let state' := (Wrapper.dispatch cb record state).1.2 in
  Wrapper.api_key state' = Wrapper.api_key state ∧
  Wrapper.dataset state' = Wrapper.dataset state ∧
  Wrapper.symbol_map state' =
  match msg record with
  | SymbolMappingMsg stype_out_symbol =>
      <[databento.instrument_id (Header record) := stype_out_symbol]>
        (Wrapper.symbol_map state)
  | _ => Wrapper.symbol_map state
  end.
Proof.
  unfold Wrapper.dispatch.
  destruct (msg record) as [sym| |hb| |]; cbn;
    try destruct hb; try destruct (ToString record); cbn; done.
Qed.

(** X18.  The routing of one record.  The record handler's [try] block
    sends at most one event per record.  The event's kind is "mapping",
    "trade", "system", "error" or "unknown" according to the record's
    payload; only a trade event carries an instrument id and a symbol,
    every other event carries id 0 and the empty symbol; the text of
    every event but the "unknown" one is the record's serialisation.  No
    event is sent exactly for a heartbeat and for a record, other than
    an unknown one, whose serialisation throws.  The symbol map is
    touched by mapping records only, and by them even when their
    serialisation throws. *)
Theorem dispatch_routes cb (record : Record) (state : Wrapper.NativeState) :
  let out := Wrapper.dispatch cb record state in
  (List.length out.2 ≤ 1)%nat ∧
  Forall (λ event,
            Wrapper.kind event = kind_of_msg (msg record) ∧
            Wrapper.instrumentId event =
            (match msg record with
             | TradeMsg => databento.instrument_id (Header record)
             | _ => 0
             end) ∧
            (msg record ≠ TradeMsg → Wrapper.symbol event = "") ∧
            (msg record ≠ OtherMsg →
             ToString record = Returns (Wrapper.text event))) out.2 ∧
  (out.2 = [] ↔
   msg record = SystemMsg true ∨
   (msg record ≠ OtherMsg ∧ ∃ e, ToString record = Throws e)) ∧
  Wrapper.symbol_map out.1.2 =
  match msg record with
  | SymbolMappingMsg stype_out_symbol =>
      <[databento.instrument_id (Header record) := stype_out_symbol]>
        (Wrapper.symbol_map state)
  | _ => Wrapper.symbol_map state
  end.
Proof.
  intros out. split_and!; [| | |apply dispatch_frame].
  - unfold out, Wrapper.dispatch.
    destruct (msg record) as [sym| |hb| |]; cbn;
      try destruct hb; try destruct (ToString record); cbn; lia.
  - unfold out, Wrapper.dispatch.
    destruct (msg record) as [sym| |hb| |] eqn:Hmsg; cbn;
      try destruct hb; try destruct (ToString record) as [text|e]; cbn;
      repeat constructor; try done;
      try (by intros _; cbn; rewrite ToManagedString_id).
  - unfold out, Wrapper.dispatch.
    destruct (msg record) as [sym| |hb| |] eqn:Hmsg; cbn;
      try destruct hb; try destruct (ToString record) as [text|e] eqn:Hs;
      cbn; split; try done;
      try (intros [?|[? [? ?]]]; done);
      try (intros _; right; split; [done | by eexists]);
      try (intros _; by left).
    all: try (intros [?|[Hne _]]; [done | by destruct Hne]).
Qed.

End MoreWrapperStart.

Section MoreWrapperLifecycle.
Context `{Engine}.

Lemma recordHandler_outcome record (state : Wrapper.NativeState) :
  let out := Wrapper.recordHandler record state in
  Wrapper.api_key out.1.2 = Wrapper.api_key state ∧
  Wrapper.dataset out.1.2 = Wrapper.dataset state ∧
  Wrapper.client out.1.2 = Wrapper.client state ∧
  Wrapper.callback out.1.2 = Wrapper.callback state ∧
  Wrapper.stop_requested out.1.2 = Wrapper.stop_requested state ∧
  (out.1.1 = Returns KeepGoing.Stop ∨ out.1.1 = Returns KeepGoing.Continue) ∧
  (out.1.1 = Returns KeepGoing.Stop ↔
   Wrapper.stop_requested state = true ∨ Wrapper.callback state = None) ∧
  (out.1.1 = Returns KeepGoing.Stop →
   out.2 = [] ∧ Wrapper.symbol_map out.1.2 = Wrapper.symbol_map state ∧
   Wrapper.running out.1.2 = false) ∧
  (out.1.1 = Returns KeepGoing.Continue →
   Wrapper.running out.1.2 = Wrapper.running state).
Proof.
  unfold Wrapper.recordHandler, Wrapper.recordHandler_among.
  destruct (Wrapper.stop_requested state) eqn:Hstop.
  { cbn. rewrite Hstop. split_and!; try done; [by left | ].
    split; [by left | done]. }
  destruct (Wrapper.callback state) as [cb|] eqn:Hcb.
  2:{ cbn. rewrite Hstop, Hcb. split_and!; try done; [by left | ].
      split; [by right | done]. }
  pose proof (dispatch_keeps_flags cb record state)
    as (Hs & Hc & Hr & Hcl).
  pose proof (dispatch_frame cb record state) as (Hk & Hd & _).
  destruct (Wrapper.dispatch cb record state) as [[r state'] events].
  cbn in *. rewrite Hs, Hstop. cbn.
  split_and!; try done; try congruence; [by right | ].
  split; [done | by intros [?|?]].
Qed.

(** X19.  The record handler touches nothing of the session but the
    symbol map and the running flag: key, dataset, native client,
    callback and stop request are as before, whatever the record and
    whatever the callback does.  Run to its end without interference, it
    answers stop exactly when a stop is requested or no callback is
    installed; it has then sent no event, left the symbol map alone and
    cleared the running flag; when it answers continue the running flag
    is as before.  It never throws. *)
Theorem recordHandler_frame (record : Record)
    (state : Wrapper.NativeState) :
  let out := Wrapper.recordHandler record state in
  Wrapper.api_key out.1.2 = Wrapper.api_key state ∧
  Wrapper.dataset out.1.2 = Wrapper.dataset state ∧
  Wrapper.client out.1.2 = Wrapper.client state ∧
  Wrapper.callback out.1.2 = Wrapper.callback state ∧
  Wrapper.stop_requested out.1.2 = Wrapper.stop_requested state ∧
  (out.1.1 = Returns KeepGoing.Stop ∨ out.1.1 = Returns KeepGoing.Continue) ∧
  (out.1.1 = Returns KeepGoing.Stop ↔
   Wrapper.stop_requested state = true ∨ Wrapper.callback state = None) ∧
  (out.1.1 = Returns KeepGoing.Stop →
   out.2 = [] ∧ Wrapper.symbol_map out.1.2 = Wrapper.symbol_map state ∧
   Wrapper.running out.1.2 = false) ∧
  (out.1.1 = Returns KeepGoing.Continue →
   Wrapper.running out.1.2 = Wrapper.running state).
Proof. apply recordHandler_outcome. Qed.

(** X20.  After [Stop] has returned, a record that the engine still
    delivers reaches no callback: the handler answers stop, sends no
    event and changes nothing, and so does every later one.  The same
    holds for a session that was never started. *)
Theorem no_event_after_stop (state : Wrapper.NativeState)
    (records : list Record) :
  ∃ stopped,
    Wrapper.Stop (Some state) = Some stopped ∧
    (∀ record,
       Wrapper.recordHandler record stopped =
       (Returns KeepGoing.Stop, stopped, [])) ∧
    Wrapper.deliver records stopped = (stopped, []) ∧
    (∀ key dataset record,
       Wrapper.recordHandler (H := H) record
         (Wrapper.NativeState_new key dataset) =
       (Returns KeepGoing.Stop, Wrapper.NativeState_new key dataset, [])).
Proof.
  rewrite Stop_resets. eexists. split; [reflexivity|].
  split_and!; [done| |done].
  by destruct records.
Qed.

Lemma apply_events_disposed events :
  apply_events (H := H) events None = None.
Proof.
  induction events as [|event events IH]; [done|].
  cbn. replace (apply_event event None) with (@None Wrapper.NativeState);
    [done|].
  destruct event as [symbols t|[cb|]| | | |]; cbn; try done.
  unfold Wrapper.SubscribeTrades.
  by destruct (Wrapper.ValidateSymbols symbols).
Qed.

(** X21.  A disposed client stays disposed and does nothing.  The
    finalizer and the destructor leave the client disposed; [Stop] on a
    disposed client is a no-op; [Start] throws object-disposed;
    [SubscribeTrades] throws an argument exception for an array it
    rejects and object-disposed otherwise, the array being checked
    first; and no sequence of calls and deliveries brings the client
    back. *)
Theorem disposed_client_stays_disposed
    (_impl : option Wrapper.NativeState) :
  Wrapper.Finalize _impl = None ∧
  Wrapper.Dispose _impl = None ∧
  Wrapper.Stop (H := H) None = None ∧
  (∀ callback,
     Wrapper.Start (H := H) callback None =
     (Wrapper.Raise
        (Wrapper.ObjectDisposedException "DatabentoWrapper.LiveClient"),
      None)) ∧
  (∀ symbols symbolType,
     Wrapper.SubscribeTrades (H := H) symbols symbolType None =
     (match Wrapper.ValidateSymbols symbols with
      | Wrapper.Ok _ =>
          Wrapper.Raise
            (Wrapper.ObjectDisposedException "DatabentoWrapper.LiveClient")
      | Wrapper.Raise e => Wrapper.Raise e
      end, None)) ∧
  (∀ events, apply_events events (Wrapper.Finalize _impl) = None).
Proof.
  assert (Wrapper.Finalize _impl = None) as Hfin by (by destruct _impl).
  split_and!; [done | by destruct _impl | done | by intros [cb|] | | ].
  - intros symbols t. unfold Wrapper.SubscribeTrades.
    by destruct (Wrapper.ValidateSymbols symbols).
  - intros events. rewrite Hfin. apply apply_events_disposed.
Qed.

Lemma apply_event_ok key dataset event (state : Wrapper.NativeState) :
  lifecycle_ok key dataset state →
  match apply_event event (Some state) with
  | Some state' => lifecycle_ok key dataset state'
  | None => True
  end.
Proof.
  intros (Hk & Hd & Hs & Hrun & Hmap).
  destruct event as [symbols t|[cb|]| |record|what|];
    cbn [apply_event fmap option_fmap option_map].
  - destruct (SubscribeTrades_frame symbols t state)
      as (state' & -> & Hk' & Hd' & Hm' & Hcb' & Hr' & Hs' & Hcl').
    unfold lifecycle_ok. rewrite Hk', Hd', Hm', Hcb', Hr', Hs'.
    split_and!; try done.
    intros Hr. destruct (Hrun Hr) as [Hc Hcb]. split; [by apply Hcl' | done].
  - destruct (Start_outcome cb state)
      as (state' & Heq & Hk' & Hd' & Hcl' & Hflag & Hok & Hbusy & Hs'
          & Hnone).
    rewrite Heq.
    unfold lifecycle_ok. split_and!; try congruence; [by apply Hs'| |].
    + intros Hr. apply Hflag in Hr as [Hsucc|Hwas].
      * destruct (Hok Hsucc) as (_ & Hcb & _ & _ & Hc).
        split; [done|]. rewrite Hcb. by eexists.
      * destruct (Hrun Hwas) as [Hc Hcb].
        destruct (Hbusy Hwas) as (Hcb' & _). split; [by apply Hcl'|].
        by rewrite Hcb'.
    + intros Hcb. destruct (Hnone Hcb) as [Hcb0 Hm]. rewrite Hm.
      by apply Hmap.
  - done.
  - rewrite Stop_resets. unfold lifecycle_ok. cbn. by split_and!.
  - pose proof (recordHandler_outcome record state)
      as (Hk' & Hd' & Hcl' & Hcb' & Hs' & Hv & Hstop & Hst & Hco).
    unfold lifecycle_ok. rewrite Hk', Hd', Hcl', Hcb', Hs'.
    split_and!; try done.
    + intros Hr. apply Hrun. destruct Hv as [Hv|Hv].
      * destruct (Hst Hv) as (_ & _ & Hf). congruence.
      * rewrite <- (Hco Hv). done.
    + intros Hcb. destruct Hv as [Hv|Hv].
      * destruct (Hst Hv) as (_ & -> & _). by apply Hmap.
      * exfalso.
        assert ((Wrapper.recordHandler record state).1.1 =
                Returns KeepGoing.Stop) as Hv'.
        { apply Hstop. by right. }
        congruence.
  - unfold lifecycle_ok. cbn. by split_and!.
  - done.
Qed.

(** X22.  Whatever the host and the engine do with a client, in any
    order (subscribe, start, stop, finalize, deliver a record, report an
    engine exception), as long as one thing happens after the other, the
    session that the constructor made keeps its shape between any two of
    them: the key and the dataset are those given to the constructor; no
    stop request is pending; whenever the running flag is set the
    session has a native client and a callback, so that the handler's
    null-callback exit is never taken while running; and whenever no
    callback is installed the symbol map is empty. *)
Theorem lifecycle_invariant (key dataset : string)
    (events : list session_event) :
  match apply_events events (Some (Wrapper.NativeState_new key dataset)) with
  | Some state => lifecycle_ok key dataset state
  | None => True
  end.
Proof.
  assert (∀ _impl : option Wrapper.NativeState,
            match _impl with
            | Some state => lifecycle_ok key dataset state
            | None => True
            end →
            match apply_events events _impl with
            | Some state => lifecycle_ok key dataset state
            | None => True
            end) as Hgen.
  { induction events as [|event events IH]; intros _impl Hok; [done|].
    cbn. apply IH. destruct _impl as [state|].
    - by apply apply_event_ok.
    - pose proof (apply_events_disposed [event]) as Hnone.
      cbn in Hnone. by rewrite Hnone. }
  apply Hgen. unfold lifecycle_ok. cbn. by split_and!.
Qed.

End MoreWrapperLifecycle.
